(** * The agent receiver's endpoints (agent_receiver/endpoints.py)

    A shallow embedding of the registration, certificate-renewal and
    agent-data endpoints of the Checkmk agent receiver, with the theorems
    that relate them to the written specification.

    The endpoints are orchestration code: they call the site's REST API,
    sign certificates, read and write the local file system and log.  They
    are embedded as computations in a state-and-exception monad over a
    [World] that holds the file system, the host registry, the process-wide
    lru_cache and a trace of the effects performed.  What the endpoints
    import from modules that are not part of these sources (certificate
    handling, codecs, the REST client) is gathered in the class
    [Externals]. *)

From Stdlib Require Import NArith String Ascii List Lia.
From stdpp Require Import base gmap strings list.

Set Default Proof Using "Type".

(** ** Identities *)

(** A [uuid.UUID] is its 128-bit integer. *)
Abbreviation UUID := N (only parsing).

Definition hex_digit (n : N) : ascii :=
  match String.get (N.to_nat (n mod 16)) "0123456789abcdef" with
  | Some c => c
  | None => "0"%char
  end.

(** ['%0<width>x' % n], for an [n] below [16 ^ width]. *)
Fixpoint hex (width : nat) (n : N) : string :=
  match width with
  | O => ""
  | S k => hex k (n / 16) +:+ String (hex_digit n) ""
  end.

(** [str(uuid)]: the 32 hexadecimal digits of the integer, grouped
    8-4-4-4-12. *)
Definition uuid_str (uuid : UUID) : string :=
  hex 8 (uuid / 16 ^ 24) +:+ "-" +:+ hex 4 (uuid / 16 ^ 20) +:+ "-" +:+
  hex 4 (uuid / 16 ^ 16) +:+ "-" +:+ hex 4 (uuid / 16 ^ 12) +:+ "-" +:+
  hex 12 uuid.

(** ** Exceptions and results *)

Inductive Exn :=
| HTTPException (status_code : nat) (detail : string)
| FileNotFoundError
| FileExistsError
| IsADirectoryError
| NotADirectoryError
| OSError (what : string)
| NotRegisteredException
| ValueError
| DecompressionError (msg : string)
| ValidationError
| UpstreamFailure (context : string).

Inductive Result (A : Type) :=
| Ok (a : A)
| Raise (e : Exn).
Arguments Ok {A} a.
Arguments Raise {A} e.

Definition HTTP_204_NO_CONTENT : nat := 204.
Definition HTTP_400_BAD_REQUEST : nat := 400.
Definition HTTP_403_FORBIDDEN : nat := 403.
Definition HTTP_501_NOT_IMPLEMENTED : nat := 501.

(** ** The file system

    Paths are absolute and canonical: the list of their components below
    the root (there are no symbolic links, so [Path.resolve] is the
    identity).  A name is bound to a directory or to the inode of a
    regular file; the bytes live in the inode, so that an open file object
    keeps writing to the same bytes when its name is renamed or unlinked.
    Inodes whose last name is gone stay in the table: link counts are not
    modelled. *)

Abbreviation Path := (list string) (only parsing).
Abbreviation bytes := (list Byte.byte) (only parsing).
Abbreviation Ino := positive (only parsing).

Inductive Node :=
| Dir
| File (ino : positive).

Record FileSystem := {
  nodes : gmap (list string) Node;
  inodes : gmap positive (list Byte.byte);
}.

Definition path_join (p : Path) (name : string) : Path := p ++ [name].
Infix "//" := path_join (at level 40, left associativity).

Definition parent (p : Path) : Path := removelast p.

(** What a path names; the root is always a directory. *)
Definition lookup_node (fs : FileSystem) (p : Path) : option Node :=
  match p with
  | [] => Some Dir
  | _ => nodes fs !! p
  end.

Definition is_dir (fs : FileSystem) (p : Path) : bool :=
  match lookup_node fs p with
  | Some Dir => true
  | _ => false
  end.

Definition is_file (fs : FileSystem) (p : Path) : bool :=
  match lookup_node fs p with
  | Some (File _) => true
  | _ => false
  end.

Definition exists_ (fs : FileSystem) (p : Path) : bool :=
  match lookup_node fs p with
  | Some _ => true
  | None => false
  end.

(** What a reader that opens [p] and reads it to the end gets. *)
Definition read_bytes (fs : FileSystem) (p : Path) : option bytes :=
  match lookup_node fs p with
  | Some (File ino) => inodes fs !! ino
  | _ => None
  end.

(** What the resolution of a path fails with when the path names nothing:
    ENOTDIR when the nearest ancestor that exists is a regular file, ENOENT
    when it is a directory.  The root always exists, so the length of the
    path is fuel enough. *)
Fixpoint missing_error (fuel : nat) (p : Path) (fs : FileSystem) : Exn :=
  match fuel with
  | O => FileNotFoundError
  | S fuel' =>
      match lookup_node fs (parent p) with
      | Some (File _) => NotADirectoryError
      | Some Dir => FileNotFoundError
      | None => missing_error fuel' (parent p) fs
      end
  end.

(** [os.mkdir]: the parent is resolved first, then the name must be free. *)
Definition os_mkdir (p : Path) (fs : FileSystem) : Result unit * FileSystem :=
  match lookup_node fs (parent p) with
  | Some (File _) => (Raise NotADirectoryError, fs)
  | None => (Raise (missing_error (length p) (parent p) fs), fs)
  | Some Dir =>
      if exists_ fs p then (Raise FileExistsError, fs)
      else (Ok tt, {| nodes := <[p := Dir]> (nodes fs); inodes := inodes fs |})
  end.

(** [pathlib.Path.mkdir(parents=..., exist_ok=...)], as pathlib writes it:
    a missing parent is created first when [parents] is set, and any other
    error is forgiven when [exist_ok] is set and the path is a directory.
    The recursion on the parent is bounded by the length of the path. *)
Fixpoint Path_mkdir_rec (fuel : nat) (parents exist_ok : bool) (p : Path)
    (fs : FileSystem) : Result unit * FileSystem :=
  match os_mkdir p fs with
  | (Ok tt, fs') => (Ok tt, fs')
  | (Raise FileNotFoundError, _) =>
      if negb parents || bool_decide (parent p = p) then (Raise FileNotFoundError, fs)
      else
        match fuel with
        | O => (Raise FileNotFoundError, fs)
        | S fuel' =>
            match Path_mkdir_rec fuel' true true (parent p) fs with
            | (Ok tt, fs1) => Path_mkdir_rec fuel' false exist_ok p fs1
            | (Raise e, fs1) => (Raise e, fs1)
            end
        end
  | (Raise e, _) =>
      if negb exist_ok || negb (is_dir fs p) then (Raise e, fs) else (Ok tt, fs)
  end.

Definition Path_mkdir (parents exist_ok : bool) (p : Path) (fs : FileSystem)
    : Result unit * FileSystem :=
  Path_mkdir_rec (length p) parents exist_ok p fs.

(** [os.rename] / [Path.rename] of a regular file: the source is resolved
    (a source that is not there fails with ENOENT, or with ENOTDIR when a
    regular file is in the place of one of its directories), the directory
    of the destination must exist, and the destination must not be a
    directory; the destination name is then rebound to the source's inode
    in one step.  The receiver only renames regular files (temporary files
    and request records).  A directory in the place of the source is
    outside this model, which reports it as an [OSError] and moves nothing,
    where the system call would move the directory with what is in it:
    what is proved of a rename is proved of sources that are no
    directories. *)
Definition os_rename (src dst : Path) (fs : FileSystem) : Result unit * FileSystem :=
  match lookup_node fs src with
  | None => (Raise (missing_error (length src) src fs), fs)
  | Some Dir => (Raise (OSError "rename of a directory"), fs)
  | Some (File ino) =>
      match lookup_node fs (parent dst) with
      | Some (File _) => (Raise NotADirectoryError, fs)
      | None => (Raise (missing_error (length dst) (parent dst) fs), fs)
      | Some Dir =>
          if is_dir fs dst then (Raise IsADirectoryError, fs)
          else (Ok tt, {| nodes := <[dst := File ino]> (delete src (nodes fs));
                          inodes := inodes fs |})
      end
  end.

(** [Path.unlink(missing_ok=...)]: with [missing_ok] the FileNotFoundError
    of [os.unlink] is forgiven, and no other error. *)
Definition Path_unlink (missing_ok : bool) (p : Path) (fs : FileSystem)
    : Result unit * FileSystem :=
  match lookup_node fs p with
  | Some (File _) => (Ok tt, {| nodes := delete p (nodes fs); inodes := inodes fs |})
  | Some Dir => (Raise IsADirectoryError, fs)
  | None =>
      match missing_error (length p) p fs with
      | FileNotFoundError =>
          if missing_ok then (Ok tt, fs) else (Raise FileNotFoundError, fs)
      | e => (Raise e, fs)
      end
  end.

(** ** The data model (agent_receiver/models.py, agent_receiver/utils.py) *)

Record HTTPBasicCredentials := {
  username : string;
  password : string;
}.

Inductive ConnectionMode := PULL | PUSH.

(** Modelled from the spec: the request statuses of section 3 (a request is
    created [NEW], approved to [READY] or [DECLINED], and promoted to
    [DISCOVERABLE]); the enumeration itself is declared in models.py. *)
Inductive RegistrationStatusEnum := NEW | DECLINED | READY | DISCOVERABLE.

(** [status.name], the name of the bucket directory. *)
Definition status_name (s : RegistrationStatusEnum) : string :=
  match s with
  | NEW => "NEW"
  | DECLINED => "DECLINED"
  | READY => "READY"
  | DISCOVERABLE => "DISCOVERABLE"
  end.

Record RequestForRegistration := {
  req_uuid : UUID;
  req_username : string;
  req_agent_labels : list (string * string);
  rejection_notice : option string;
}.

Record R4R := {
  r4r_status : RegistrationStatusEnum;
  r4r_request : RequestForRegistration;
}.

Record RegisteredHost := {
  name : string;
  connection_mode : ConnectionMode;
  source_path : list string;
}.

Record HostConfiguration := {
  site : string;
  is_cluster : bool;
}.

Record RegistrationWithHNBody := {
  hn_uuid : UUID;
  hn_host_name : string;
}.

Record RegistrationWithLabelsBody := {
  lb_uuid : UUID;
  lb_agent_labels : list (string * string);
}.

Record RegistrationStatus := {
  rs_hostname : option string;
  rs_status : option RegistrationStatusEnum;
  rs_type : option ConnectionMode;
  rs_message : option string;
}.

Record Response := { status_code : nat }.

Inductive LogLevel := ERROR | INFO.

(** ** What the endpoints import from outside these sources

    Certificates and signing requests, the codecs, the edition of the site
    and the answers of the site's REST API.  The REST answers are oracles:
    [None] stands for a request the site did not answer with success. *)
Class Externals := {
  Csr : Type;
  Certificate : Type;
  CMKEdition : Type;
  Decompressor : Type;
  (* agent_receiver.certs *)
  extract_cn_from_csr : Csr → string;
  signed_certificate : Csr → nat → Certificate;
  serialize_to_pem : Certificate → string;
  (* agent_receiver.site_context, agent_receiver.utils *)
  site_name : string;
  r4r_dir : list string;
  internal_credentials : HTTPBasicCredentials;
  (* agent_receiver.decompression *)
  Decompressor_of_name : string → option Decompressor;
  decompress : Decompressor → list Byte.byte → string + list Byte.byte;
  (* agent_receiver.checkmk_rest_api *)
  supports_registration_with_labels : CMKEdition → bool;
  edition_value : CMKEdition → string;
  site_controller_certificate_settings : HTTPBasicCredentials → option nat;
  site_register : HTTPBasicCredentials → UUID → string → option ConnectionMode;
  site_host_configuration : HTTPBasicCredentials → string → option HostConfiguration;
  site_link_host_with_uuid : HTTPBasicCredentials → string → UUID → bool;
  site_cmk_edition : HTTPBasicCredentials → option CMKEdition;
  (* pydantic: RequestForRegistration.json() and parse_file *)
  request_json : RequestForRegistration → list Byte.byte;
  parse_request : list Byte.byte → option RequestForRegistration;
  (* io: the size of the buffer of a buffered binary file *)
  buffer_size : nat;
}.

Section Receiver.
Context `{ext : Externals}.

Record CsrField := { csr : Csr }.

Record RegisterExistingBody := {
  re_uuid : UUID;
  re_csr : CsrField;
  re_host_name : string;
}.

Record CertificateRenewalBody := { cr_csr : CsrField }.

Record RegisterExistingResponse := {
  rer_root_cert : string;
  rer_agent_cert : string;
  rer_connection_mode : ConnectionMode;
}.

Record RenewCertResponse := { rcr_agent_cert : string }.

(** ** The world *)

Inductive RestRequest :=
| GetControllerCertificateSettings (credentials : HTTPBasicCredentials)
| PostRegister (credentials : HTTPBasicCredentials) (uuid : UUID) (host_name : string)
| GetHostConfiguration (credentials : HTTPBasicCredentials) (host_name : string)
| PutLinkHostWithUuid (credentials : HTTPBasicCredentials) (host_name : string) (uuid : UUID)
| GetCmkEdition (credentials : HTTPBasicCredentials).

(** The effects an endpoint has besides the file system: log lines,
    requests sent to the site, certificates signed and root certificates
    loaded. *)
Inductive Event :=
| Logged (level : LogLevel) (msg : string)
| Requested (req : RestRequest)
| Signed (c : Csr) (lifetime_in_months : nat)
| RootCertLoaded.

Record World := {
  fs : FileSystem;
  (* user-space buffers of the open file objects, by the inode they write to *)
  buffers : gmap positive (list Byte.byte);
  (* tempfile's sequence of random names *)
  tmp_names : list string;
  (* the hosts registered at the site, by uuid *)
  registered_hosts : gmap N RegisteredHost;
  (* the site's root certificate as it is on disk, when it can be loaded *)
  root_cert_on_disk : option Certificate;
  (* functools.lru_cache of _pem_serizialized_site_root_cert *)
  pem_cache : option string;
  (* everything done so far, latest last *)
  trace : list Event;
}.

Definition set_fs (f : FileSystem) (w : World) : World :=
  {| fs := f; buffers := buffers w; tmp_names := tmp_names w;
     registered_hosts := registered_hosts w; root_cert_on_disk := root_cert_on_disk w;
     pem_cache := pem_cache w; trace := trace w |}.

Definition set_buffers (b : gmap positive (list Byte.byte)) (w : World) : World :=
  {| fs := fs w; buffers := b; tmp_names := tmp_names w;
     registered_hosts := registered_hosts w; root_cert_on_disk := root_cert_on_disk w;
     pem_cache := pem_cache w; trace := trace w |}.

Definition set_tmp_names (l : list string) (w : World) : World :=
  {| fs := fs w; buffers := buffers w; tmp_names := l;
     registered_hosts := registered_hosts w; root_cert_on_disk := root_cert_on_disk w;
     pem_cache := pem_cache w; trace := trace w |}.

Definition set_pem_cache (c : option string) (w : World) : World :=
  {| fs := fs w; buffers := buffers w; tmp_names := tmp_names w;
     registered_hosts := registered_hosts w; root_cert_on_disk := root_cert_on_disk w;
     pem_cache := c; trace := trace w |}.

Definition emit (e : Event) (w : World) : World :=
  {| fs := fs w; buffers := buffers w; tmp_names := tmp_names w;
     registered_hosts := registered_hosts w; root_cert_on_disk := root_cert_on_disk w;
     pem_cache := pem_cache w; trace := trace w ++ [e] |}.

(** ** Computations: state and exceptions *)

Definition M (A : Type) : Type := World → Result A * World.

#[global] Instance M_ret : MRet M := λ A a w, (Ok a, w).

#[global] Instance M_bind : MBind M := λ A B f m w,
  match m w with
  | (Ok a, w') => f a w'
  | (Raise e, w') => (Raise e, w')
  end.

#[global] Instance M_fmap : FMap M := λ A B f m w,
  match m w with
  | (Ok a, w') => (Ok (f a), w')
  | (Raise e, w') => (Raise e, w')
  end.

Definition raise {A} (e : Exn) : M A := λ w, (Raise e, w).

(** [try: body except <those e with handler e = Some h>: h]. *)
Definition try_except {A} (body : M A) (handler : Exn → option (M A)) : M A := λ w,
  match body w with
  | (Ok a, w') => (Ok a, w')
  | (Raise e, w') =>
      match handler e with
      | Some h => h w'
      | None => (Raise e, w')
      end
  end.

(** [try: body finally: final]. *)
Definition try_finally {A} (body : M A) (final : M unit) : M A := λ w,
  match body w with
  | (r, w') =>
      match final w' with
      | (Ok tt, w'') => (r, w'')
      | (Raise e, w'') => (Raise e, w'')
      end
  end.

(** [with contextlib.suppress(FileNotFoundError): body]. *)
Definition suppress_FileNotFoundError (body : M unit) : M unit :=
  try_except body (λ e, match e with FileNotFoundError => Some (mret tt) | _ => None end).

Definition lift_fs {A} (op : FileSystem → Result A * FileSystem) : M A := λ w,
  match op (fs w) with
  | (r, fs') => (r, set_fs fs' w)
  end.

Definition logger_error (msg : string) : M unit := λ w, (Ok tt, emit (Logged ERROR msg) w).
Definition logger_info (msg : string) : M unit := λ w, (Ok tt, emit (Logged INFO msg) w).


(** ** Buffered temporary files (tempfile, io)

    [tempfile.NamedTemporaryFile] opens the file in mode w+b with the
    default buffering, that is an [io.BufferedRandom]: [write] keeps the
    bytes in the buffer of the file object while they fit, and they reach
    the inode when the buffer is flushed, at the latest by [close]. *)

Record TempFile := {
  tf_name : list string;
  tf_ino : positive;
}.

(** [tempfile._mkstemp_inner]: the candidate names are tried in turn with
    O_CREAT | O_EXCL, a name that exists is skipped, and the search gives
    up with FileExistsError when the candidates are used up. *)
Fixpoint mkstemp_inner (dir : Path) (names : list string) (f : FileSystem)
    : Result TempFile * list string * FileSystem :=
  match names with
  | [] => (Raise FileExistsError, [], f)
  | n :: rest =>
      let file := dir // ("tmp" +:+ n) in
      match lookup_node f dir with
      | Some (File _) => (Raise NotADirectoryError, rest, f)
      | None => (Raise (missing_error (length dir) dir f), rest, f)
      | Some Dir =>
          if exists_ f file then mkstemp_inner dir rest f
          else
            let ino := fresh (dom (inodes f)) in
            (Ok {| tf_name := file; tf_ino := ino |}, rest,
             {| nodes := <[file := File ino]> (nodes f);
                inodes := <[ino := []]> (inodes f) |})
      end
  end.

(** [tempfile.NamedTemporaryFile(dir=dir, delete=False)]. *)
Definition NamedTemporaryFile (dir : Path) : M TempFile := λ w,
  match mkstemp_inner dir (tmp_names w) (fs w) with
  | (Ok f, rest, fs') =>
      (Ok f, set_buffers (<[tf_ino f := []]> (buffers w)) (set_tmp_names rest (set_fs fs' w)))
  | (Raise e, rest, fs') => (Raise e, set_tmp_names rest (set_fs fs' w))
  end.

(** The raw [write] of the underlying file: the bytes are appended to the
    inode. *)
Definition raw_write (ino : Ino) (data : bytes) (f : FileSystem) : FileSystem :=
  {| nodes := nodes f;
     inodes := <[ino := default [] (inodes f !! ino) ++ data]> (inodes f) |}.

(** [io.BufferedWriter.write]: data that fits in the free part of the
    buffer is only copied there; otherwise the buffer is flushed, and the
    data goes to the file when it is larger than the buffer and to the
    emptied buffer when it is not.  A device that fails (a full disk, a
    quota) is not modelled: the raw write always goes through, here and in
    the flush of [close], so nothing is proved of what a call leaves behind
    when the device fails. *)
Definition file_write (f : TempFile) (data : bytes) : M unit := λ w,
  let buf := default [] (buffers w !! tf_ino f) in
  if bool_decide (length data ≤ buffer_size - length buf) then
    (Ok tt, set_buffers (<[tf_ino f := buf ++ data]> (buffers w)) w)
  else
    let flushed := raw_write (tf_ino f) buf (fs w) in
    if bool_decide (buffer_size < length data) then
      (Ok tt, set_buffers (<[tf_ino f := []]> (buffers w))
                (set_fs (raw_write (tf_ino f) data flushed) w))
    else
      (Ok tt, set_buffers (<[tf_ino f := data]> (buffers w)) (set_fs flushed w)).

(** [close]: the buffer is flushed and the file object is gone. *)
Definition file_close (f : TempFile) : M unit := λ w,
  let buf := default [] (buffers w !! tf_ino f) in
  (Ok tt, set_buffers (delete (tf_ino f) (buffers w))
            (set_fs (raw_write (tf_ino f) buf (fs w)) w)).

(** [with tempfile.NamedTemporaryFile(dir=dir, delete=False) as temp_file:
    body]: leaving the block closes the file, also when the body raises. *)
Definition with_NamedTemporaryFile {A} (dir : Path) (body : TempFile → M A) : M A :=
  temp_file ← NamedTemporaryFile dir;
  try_finally (body temp_file) (file_close temp_file).

(** ** The helpers the endpoints import *)

Record ControllerCertSettings := { lifetime_in_months : nat }.

(** A request to the site's REST API (agent_receiver.checkmk_rest_api):
    the request is sent, and an answer that is not a success raises.
    Modelled from the spec: section 7 calls that an UpstreamFailure,
    surfaced as a server-side failure; the context string the endpoint
    passes is what it is logged with. *)
Definition rest_call {A} (req : RestRequest) (context : string) (answer : option A)
    : M A := λ w,
  match answer with
  | Some a => (Ok a, emit (Requested req) w)
  | None => (Raise (UpstreamFailure context), emit (Requested req) w)
  end.

Definition controller_certificate_settings (context : string)
    (credentials : HTTPBasicCredentials) : M ControllerCertSettings :=
  months ← rest_call (GetControllerCertificateSettings credentials) context
             (site_controller_certificate_settings credentials);
  mret {| lifetime_in_months := months |}.

(** [register] and [link_host_with_uuid] ask the site to link host and
    uuid.  The link is made by the site, in a registry that the receiver
    only reads (spec, section 3: the registered host is external-owned and
    never mutated by the core): for the receiver the call is the request
    and its answer, and the new entry of the registry is a change of the
    environment. *)
Definition register (context : string) (credentials : HTTPBasicCredentials)
    (uuid : UUID) (host_name : string) : M ConnectionMode :=
  rest_call (PostRegister credentials uuid host_name) context
    (site_register credentials uuid host_name).

Definition host_configuration (context : string) (credentials : HTTPBasicCredentials)
    (host_name : string) : M HostConfiguration :=
  rest_call (GetHostConfiguration credentials host_name) context
    (site_host_configuration credentials host_name).

Definition link_host_with_uuid (context : string) (credentials : HTTPBasicCredentials)
    (host_name : string) (uuid : UUID) : M unit :=
  rest_call (PutLinkHostWithUuid credentials host_name uuid) context
    (if site_link_host_with_uuid credentials host_name uuid then Some tt else None).

Definition cmk_edition (context : string) (credentials : HTTPBasicCredentials)
    : M CMKEdition :=
  rest_call (GetCmkEdition credentials) context (site_cmk_edition credentials).

(** [certs.sign_agent_csr]: signing is an effect, recorded in the trace. *)
Definition sign_agent_csr (c : Csr) (months : nat) : M Certificate := λ w,
  (Ok (signed_certificate c months), emit (Signed c months) w).

(** [certs.site_root_certificate]: the root certificate is loaded from the
    site's files. *)
Definition site_root_certificate : M Certificate := λ w,
  match root_cert_on_disk w with
  | Some c => (Ok c, emit RootCertLoaded w)
  | None => (Raise FileNotFoundError, w)
  end.

(** [RegisteredHost(uuid)].  Modelled from the spec: the identity-to-host
    resolution of section 6, uuid to name, connection mode and storage
    path, or not registered; the class itself is in agent_receiver.utils. *)
Definition RegisteredHost__init__ (uuid : UUID) : M RegisteredHost := λ w,
  match registered_hosts w !! uuid with
  | Some host => (Ok host, w)
  | None => (Raise NotRegisteredException, w)
  end.

(** [Decompressor(compression)] and [decompressor(data)]. *)
Definition Decompressor__init__ (compression : string) : M Decompressor :=
  match Decompressor_of_name compression with
  | Some d => mret d
  | None => raise ValueError
  end.

Definition Decompressor__call__ (d : Decompressor) (data : bytes) : M bytes :=
  match decompress d data with
  | inr out => mret out
  | inl msg => raise (DecompressionError msg)
  end.

(** The path of the record of [uuid] in the bucket of [status]. *)
Definition r4r_path (status : RegistrationStatusEnum) (uuid : UUID) : Path :=
  r4r_dir // status_name status // (uuid_str uuid +:+ ".json").

(** The non-empty prefixes of a path: the directory and its ancestors. *)
Fixpoint prefixes (p : Path) : list Path :=
  match p with
  | [] => []
  | c :: q => [c] :: map (cons c) (prefixes q)
  end.

(** [R4R.write].  Modelled from the spec: put(record) of section 4.3
    writes the serialized record into the bucket named by its status (the
    bucket directory is made when it is missing); the method itself is in
    agent_receiver.utils. *)
Definition R4R_write (r : R4R) : M unit :=
  lift_fs (λ f,
    let bucket := r4r_dir // status_name (r4r_status r) in
    let ino := fresh (dom (inodes f)) in
    (Ok tt,
     {| nodes := <[r4r_path (r4r_status r) (req_uuid (r4r_request r)) := File ino]>
                   (nodes f ∪ list_to_map ((λ d, (d, Dir)) <$> prefixes bucket));
        inodes := <[ino := request_json (r4r_request r)]> (inodes f) |})).

(** [R4R.read].  Modelled from the spec: read(uuid) of section 4.3 scans
    the known buckets for a record with this identity; the source raises
    FileNotFoundError when there is none. *)
Fixpoint R4R_scan (statuses : list RegistrationStatusEnum) (uuid : UUID)
    (f : FileSystem) : Result R4R :=
  match statuses with
  | [] => Raise FileNotFoundError
  | status :: rest =>
      match read_bytes f (r4r_path status uuid) with
      | Some content =>
          match parse_request content with
          | Some request => Ok {| r4r_status := status; r4r_request := request |}
          | None => Raise ValidationError
          end
      | None => R4R_scan rest uuid f
      end
  end.

Definition R4R_read (uuid : UUID) : M R4R := λ w,
  (R4R_scan [NEW; DECLINED; READY; DISCOVERABLE] uuid (fs w), w).


(** ** The endpoints (agent_receiver/endpoints.py) *)

Definition _validate_uuid_against_csr (uuid : UUID) (csr_field : CsrField) : M unit :=
  let cn := extract_cn_from_csr (csr csr_field) in
  if bool_decide (uuid_str uuid ≠ cn) then
    raise (HTTPException HTTP_400_BAD_REQUEST
             ("UUID (" +:+ uuid_str uuid +:+ ") does not match CN (" +:+ cn +:+ ") of CSR."))
  else mret tt.

Definition _sign_agent_csr (uuid : UUID) (csr_field : CsrField) : M Certificate :=
  settings ← controller_certificate_settings
    ("uuid=" +:+ uuid_str uuid +:+ " Querying agent controller certificate settings failed")
    internal_credentials;
  sign_agent_csr (csr csr_field) (lifetime_in_months settings).

(** [functools.lru_cache] on a function without arguments: the first
    result is kept for the life of the process, an exception is not. *)
Definition lru_cache (f : M string) : M string := λ w,
  match pem_cache w with
  | Some s => (Ok s, w)
  | None =>
      match f w with
      | (Ok s, w') => (Ok s, set_pem_cache (Some s) w')
      | (Raise e, w') => (Raise e, w')
      end
  end.

Definition _pem_serizialized_site_root_cert : M string :=
  lru_cache (c ← site_root_certificate; mret (serialize_to_pem c)).

Definition register_existing (credentials : HTTPBasicCredentials)
    (registration_body : RegisterExistingBody) : M RegisterExistingResponse :=
  _validate_uuid_against_csr (re_uuid registration_body) (re_csr registration_body);;
  root_cert ← _pem_serizialized_site_root_cert;
  agent_cert ← serialize_to_pem <$>
    _sign_agent_csr (re_uuid registration_body) (re_csr registration_body);
  register_response ← register
    ("uuid=" +:+ uuid_str (re_uuid registration_body) +:+ " Registration failed")
    credentials (re_uuid registration_body) (re_host_name registration_body);
  logger_info ("uuid=" +:+ uuid_str (re_uuid registration_body) +:+ " registered host "
               +:+ re_host_name registration_body);;
  mret {| rer_root_cert := root_cert;
          rer_agent_cert := agent_cert;
          rer_connection_mode := register_response |}.

Definition _validate_registration_request (host_config : HostConfiguration) : M unit :=
  if bool_decide (site host_config ≠ site_name) then
    raise (HTTPException HTTP_403_FORBIDDEN
             ("This host is monitored on the site " +:+ site host_config +:+
              ", but you tried to register it at the site " +:+ site_name +:+ "."))
  else if is_cluster host_config then
    raise (HTTPException HTTP_403_FORBIDDEN
             "This host is a cluster host. Register its nodes instead.")
  else mret tt.

Definition register_with_hostname (credentials : HTTPBasicCredentials)
    (registration_body : RegistrationWithHNBody) : M Response :=
  host_config ← host_configuration
    ("uuid=" +:+ uuid_str (hn_uuid registration_body) +:+ " Getting host configuration failed")
    credentials (hn_host_name registration_body);
  _validate_registration_request host_config;;
  link_host_with_uuid
    ("uuid=" +:+ uuid_str (hn_uuid registration_body) +:+ " Linking host with UUID failed")
    credentials (hn_host_name registration_body) (hn_uuid registration_body);;
  logger_info ("uuid=" +:+ uuid_str (hn_uuid registration_body) +:+ " registered host "
               +:+ hn_host_name registration_body);;
  mret {| status_code := HTTP_204_NO_CONTENT |}.

Definition register_with_labels (credentials : HTTPBasicCredentials)
    (registration_body : RegistrationWithLabelsBody) : M Response :=
  edition ← cmk_edition
    ("uuid=" +:+ uuid_str (lb_uuid registration_body) +:+ " Querying Checkmk edition failed")
    credentials;
  (if negb (supports_registration_with_labels edition) then
     logger_error ("uuid=" +:+ uuid_str (lb_uuid registration_body) +:+
                   " Registration with labels not supported");;
     raise (HTTPException HTTP_501_NOT_IMPLEMENTED
              ("The Checkmk " +:+ edition_value edition +:+
               " edition does not support registration with agent labels"))
   else mret tt);;
  R4R_write {| r4r_status := NEW;
               r4r_request := {| req_uuid := lb_uuid registration_body;
                                 req_username := username credentials;
                                 req_agent_labels := lb_agent_labels registration_body;
                                 rejection_notice := None |} |};;
  logger_info ("uuid=" +:+ uuid_str (lb_uuid registration_body) +:+
               " Stored new request for registration");;
  mret {| status_code := HTTP_204_NO_CONTENT |}.

(** The rename and the finally clause are inside the with block: the file
    is closed, and its buffer flushed, only after them. *)
Definition _store_agent_data (target_dir : Path) (decompressed_data : bytes) : M unit :=
  lift_fs (Path_mkdir true true target_dir);;
  with_NamedTemporaryFile target_dir (λ temp_file,
    try_finally
      (file_write temp_file decompressed_data;;
       lift_fs (os_rename (tf_name temp_file) (target_dir // "agent_output")))
      (lift_fs (Path_unlink true (tf_name temp_file)))).

(** The mkdir is outside the suppress block, and without [parents]. *)
Definition _move_ready_file (uuid : UUID) : M unit :=
  let dir_discoverable := r4r_dir // status_name DISCOVERABLE in
  lift_fs (Path_mkdir false true dir_discoverable);;
  suppress_FileNotFoundError
    (lift_fs (os_rename (r4r_dir // status_name READY // (uuid_str uuid +:+ ".json"))
                        (dir_discoverable // (uuid_str uuid +:+ ".json")))).

Definition agent_data (uuid : UUID) (compression : string) (monitoring_data : bytes)
    : M Response :=
  host ← try_except (RegisteredHost__init__ uuid) (λ e,
    match e with
    | NotRegisteredException => Some (
        logger_error ("uuid=" +:+ uuid_str uuid +:+ " Host is not registered");;
        raise (HTTPException HTTP_403_FORBIDDEN "Host is not registered"))
    | _ => None
    end);
  (match connection_mode host with
   | PUSH => mret tt
   | _ =>
       logger_error ("uuid=" +:+ uuid_str uuid +:+ " Host is not a push host");;
       raise (HTTPException HTTP_403_FORBIDDEN "Host is not a push host")
   end);;
  decompressor ← try_except (Decompressor__init__ compression) (λ e,
    match e with
    | ValueError => Some (
        logger_error ("uuid=" +:+ uuid_str uuid +:+ " Unsupported compression algorithm: "
                      +:+ compression);;
        raise (HTTPException 400 ("Unsupported compression algorithm: " +:+ compression)))
    | _ => None
    end);
  decompressed_agent_data ← try_except (Decompressor__call__ decompressor monitoring_data) (λ e,
    match e with
    | DecompressionError msg => Some (
        logger_error ("uuid=" +:+ uuid_str uuid +:+ " Decompression of agent data failed: "
                      +:+ msg);;
        raise (HTTPException 400 "Decompression of agent data failed"))
    | _ => None
    end);
  _store_agent_data (source_path host) decompressed_agent_data;;
  _move_ready_file uuid;;
  logger_info ("uuid=" +:+ uuid_str uuid +:+ " Agent data saved");;
  mret {| status_code := HTTP_204_NO_CONTENT |}.

Definition registration_status (uuid : UUID) : M RegistrationStatus :=
  r4r ← try_except (Some <$> R4R_read uuid) (λ e,
    match e with
    | FileNotFoundError => Some (mret None)
    | _ => None
    end);
  outcome ← try_except (inl <$> RegisteredHost__init__ uuid) (λ e,
    match e with
    | NotRegisteredException => Some (
        match r4r with
        | Some r =>
            (* return from inside the handler *)
            mret (inr {| rs_hostname := None;
                         rs_status := Some (r4r_status r);
                         rs_type := None;
                         rs_message := rejection_notice (r4r_request r) |})
        | None => raise (HTTPException 404 "Host is not registered")
        end)
    | _ => None
    end);
  match outcome with
  | inr returned => mret returned
  | inl host =>
      mret {| rs_hostname := Some (name host);
              rs_status := r4r_status <$> r4r;
              rs_type := Some (connection_mode host);
              rs_message := Some "Host registered" |}
  end.

Definition renew_certificate (uuid : UUID) (cert_renewal_body : CertificateRenewalBody)
    : M RenewCertResponse :=
  _validate_uuid_against_csr uuid (cr_csr cert_renewal_body);;
  try_except (RegisteredHost__init__ uuid;; mret tt) (λ e,
    match e with
    | NotRegisteredException => Some (
        logger_error ("uuid=" +:+ uuid_str uuid +:+ " Host is not registered");;
        raise (HTTPException HTTP_403_FORBIDDEN "Host is not registered"))
    | _ => None
    end);;
  agent_cert ← _sign_agent_csr uuid (cr_csr cert_renewal_body);
  logger_info ("uuid=" +:+ uuid_str uuid +:+ " Certificate renewal succeeded");;
  mret {| rcr_agent_cert := serialize_to_pem agent_cert |}.


(** ** [_store_agent_data], one operation at a time

    The same function as a machine that performs one file operation per
    step, so that the states another process can observe between two
    operations can be named.  [pending] is the exception that is on its way
    out through the finally clause and the exit of the with block. *)

Inductive StorePoint :=
| AtMkdir
| AtOpen
| AtWrite (temp_file : TempFile)
| AtRename (temp_file : TempFile)
| AtUnlink (temp_file : TempFile) (pending : option Exn)
| AtExit (temp_file : TempFile) (pending : option Exn)
| Returned (r : Result unit).

Definition store_step (target_dir : Path) (decompressed_data : bytes)
    (pc : StorePoint) (w : World) : StorePoint * World :=
  match pc with
  | AtMkdir =>
      match lift_fs (Path_mkdir true true target_dir) w with
      | (Ok _, w') => (AtOpen, w')
      | (Raise e, w') => (Returned (Raise e), w')
      end
  | AtOpen =>
      match NamedTemporaryFile target_dir w with
      | (Ok temp_file, w') => (AtWrite temp_file, w')
      | (Raise e, w') => (Returned (Raise e), w')
      end
  | AtWrite temp_file =>
      match file_write temp_file decompressed_data w with
      | (Ok _, w') => (AtRename temp_file, w')
      | (Raise e, w') => (AtUnlink temp_file (Some e), w')
      end
  | AtRename temp_file =>
      match lift_fs (os_rename (tf_name temp_file) (target_dir // "agent_output")) w with
      | (Ok _, w') => (AtUnlink temp_file None, w')
      | (Raise e, w') => (AtUnlink temp_file (Some e), w')
      end
  | AtUnlink temp_file pending =>
      match lift_fs (Path_unlink true (tf_name temp_file)) w with
      | (Ok _, w') => (AtExit temp_file pending, w')
      | (Raise e, w') => (AtExit temp_file (Some e), w')
      end
  | AtExit temp_file pending =>
      match file_close temp_file w with
      | (Ok _, w') =>
          (Returned (match pending with Some e => Raise e | None => Ok tt end), w')
      | (Raise e, w') => (Returned (Raise e), w')
      end
  | Returned r => (Returned r, w)
  end.

(** The point and the world after [n] operations. *)
Fixpoint store_run (n : nat) (target_dir : Path) (decompressed_data : bytes)
    (pc : StorePoint) (w : World) : StorePoint * World :=
  match n with
  | O => (pc, w)
  | S k =>
      match store_step target_dir decompressed_data pc w with
      | (pc', w') => store_run k target_dir decompressed_data pc' w'
      end
  end.

(** What a reader of the final path sees after [n] operations of a call. *)
Definition observed_payload (n : nat) (target_dir : Path) (decompressed_data : bytes)
    (w : World) : option bytes :=
  read_bytes (fs (store_run n target_dir decompressed_data AtMkdir w).2)
             (target_dir // "agent_output").

(** The number of times a root certificate was loaded for serialization. *)
Definition root_cert_loads (t : list Event) : nat :=
  length (List.filter (λ e, match e with RootCertLoaded => true | _ => false end) t).

(** ** The life of a serving process, for the cache of the root certificate

    The process answers one call after the other.  In between, anything
    else may happen (the environment changes files, the registry of the
    site or the root certificate on disk; the process runs code that is
    not modelled here and does not call the cached function, such as the
    pairing endpoint), as long as it leaves the memory of the process alone
    (the cache) and loads no root certificate.  The strings that were
    handed out as the serialized root certificate are collected: the
    results of direct calls of [_pem_serizialized_site_root_cert], and the
    root certificates in the answers of [register_existing], its one
    caller. *)
Inductive Call :=
| Call_register_existing (credentials : HTTPBasicCredentials)
    (registration_body : RegisterExistingBody)
| Call_register_with_hostname (credentials : HTTPBasicCredentials)
    (registration_body : RegistrationWithHNBody)
| Call_register_with_labels (credentials : HTTPBasicCredentials)
    (registration_body : RegistrationWithLabelsBody)
| Call_agent_data (uuid : UUID) (compression : string) (monitoring_data : bytes)
| Call_registration_status (uuid : UUID)
| Call_renew_certificate (uuid : UUID) (cert_renewal_body : CertificateRenewalBody).

(** The root certificate that the answer to a call carried, if any, and the
    world after the call. *)
Definition serve (call : Call) (w : World) : list (Result string) * World :=
  match call with
  | Call_register_existing credentials registration_body =>
      match register_existing credentials registration_body w with
      | (Ok response, w') => ([Ok (rer_root_cert response)], w')
      | (Raise _, w') => ([], w')
      end
  | Call_register_with_hostname credentials registration_body =>
      ([], (register_with_hostname credentials registration_body w).2)
  | Call_register_with_labels credentials registration_body =>
      ([], (register_with_labels credentials registration_body w).2)
  | Call_agent_data uuid compression monitoring_data =>
      ([], (agent_data uuid compression monitoring_data w).2)
  | Call_registration_status uuid =>
      ([], (registration_status uuid w).2)
  | Call_renew_certificate uuid cert_renewal_body =>
      ([], (renew_certificate uuid cert_renewal_body w).2)
  end.

Inductive lifetime : World → list (Result string) → World → Prop :=
| lifetime_start w : lifetime w [] w
| lifetime_call w rs w1 r w2 :
    lifetime w rs w1 →
    _pem_serizialized_site_root_cert w1 = (r, w2) →
    lifetime w (rs ++ [r]) w2
| lifetime_serve w rs w1 call :
    lifetime w rs w1 →
    lifetime w (rs ++ (serve call w1).1) (serve call w1).2
| lifetime_other w rs w1 w2 :
    lifetime w rs w1 →
    pem_cache w2 = pem_cache w1 →
    root_cert_loads (trace w2) = root_cert_loads (trace w1) →
    lifetime w rs w2.

(** What holds at every moment of the life of a process that started with
    an empty cache: either nothing was computed and no string handed out,
    or the cache holds the one string that was ever handed out. *)
Definition cache_agrees (w : World) (rs : list (Result string)) : Prop :=
  match pem_cache w with
  | None => root_cert_loads (trace w) = 0 ∧ ∀ s, Ok s ∉ rs
  | Some s => root_cert_loads (trace w) = 1 ∧ ∀ s', Ok s' ∈ rs → s' = s
  end.

Definition is_Signed (e : Event) : bool :=
  match e with
  | Signed _ _ => true
  | _ => false
  end.

Definition is_settings_request (e : Event) : bool :=
  match e with
  | Requested (GetControllerCertificateSettings _) => true
  | _ => false
  end.

End Receiver.

(** ** A concrete site, to run the endpoints on

    Signing requests and certificates are their text, the only codec is
    the identity (which rejects an empty body), and the site answers every
    request. *)
Definition example_site : Externals := {|
  Csr := string;
  Certificate := string;
  CMKEdition := bool;
  Decompressor := unit;
  extract_cn_from_csr := λ c, c;
  signed_certificate := λ c months, "certificate for " +:+ c;
  serialize_to_pem := λ c, "-----BEGIN CERTIFICATE----- " +:+ c;
  site_name := "heute";
  r4r_dir := ["var"; "r4r"];
  internal_credentials := {| username := "automation"; password := "secret" |};
  Decompressor_of_name := λ n, if bool_decide (n = "identity") then Some tt else None;
  decompress := λ _ data, match data with [] => inl "no data" | _ => inr data end;
  supports_registration_with_labels := λ e, e;
  edition_value := λ e, if e then "cce" else "cre";
  site_controller_certificate_settings := λ _, Some 60;
  site_register := λ _ _ _, Some PUSH;
  site_host_configuration := λ _ h,
    Some {| site := if bool_decide (h = "remote") then "morgen" else "heute";
            is_cluster := bool_decide (h = "cluster") |};
  site_link_host_with_uuid := λ _ _ _, true;
  site_cmk_edition := λ c, Some (bool_decide (username c = "cloud"));
  request_json := λ r, list_byte_of_string (req_username r);
  parse_request := λ b,
    Some {| req_uuid := 0; req_username := string_of_list_byte b;
            req_agent_labels := []; rejection_notice := None |};
  buffer_size := 8 * 1024;
|}.

Definition example_host : RegisteredHost :=
  {| name := "myhost"; connection_mode := PUSH;
     source_path := ["var"; "agent_output"; "myhost"] |}.

Definition pull_host : RegisteredHost :=
  {| name := "pulled"; connection_mode := PULL;
     source_path := ["var"; "agent_output"; "pulled"] |}.

(** The bytes of "old" and of "new". *)
Definition old_payload : bytes := [Byte.x6f; Byte.x6c; Byte.x64].
Definition new_payload : bytes := [Byte.x6e; Byte.x65; Byte.x77].

(** A site whose uuid 5 is a push host with a payload from an earlier run
    and a request in READY, whose uuid 6 is a pull host, and where a
    request of the unregistered uuid 8 waits in NEW. *)
Definition example_fs : FileSystem :=
  {| nodes := {[ ["var"] := Dir;
                 ["var"; "r4r"] := Dir;
                 ["var"; "r4r"; "NEW"] := Dir;
                 ["var"; "r4r"; "NEW"; "00000000-0000-0000-0000-000000000008.json"] := File 3;
                 ["var"; "r4r"; "READY"] := Dir;
                 ["var"; "r4r"; "READY"; "00000000-0000-0000-0000-000000000005.json"] := File 2;
                 ["var"; "agent_output"] := Dir;
                 ["var"; "agent_output"; "myhost"] := Dir;
                 ["var"; "agent_output"; "myhost"; "agent_output"] := File 1 ]};
     inodes := {[ 1%positive := old_payload;
                  2%positive := list_byte_of_string "alice";
                  3%positive := list_byte_of_string "bob" ]} |}.

Definition example_world : @World example_site :=
  @Build_World example_site example_fs ∅ ["k3x9q2ab"; "p0o9i8u7"]
    {[ 5%N := example_host; 6%N := pull_host ]} (Some "root"%string) None [].

(** A site on which nothing has been stored yet: only the r4r directory
    exists. *)
Definition fresh_world : @World example_site :=
  @Build_World example_site {| nodes := {[ ["var"] := Dir; ["var"; "r4r"] := Dir ]}; inodes := ∅ |}
    ∅ ["k3x9q2ab"] ∅ (Some "root"%string) None [].

(** A site without its r4r directory. *)
Definition bare_world : @World example_site :=
  @Build_World example_site {| nodes := ∅; inodes := ∅ |}
    ∅ ["k3x9q2ab"] ∅ (Some "root"%string) None [].

Definition example_credentials : HTTPBasicCredentials :=
  {| username := "alice"; password := "pw" |}.

(** A user of a site whose edition registers by labels. *)
Definition cloud_credentials : HTTPBasicCredentials :=
  {| username := "cloud"; password := "pw" |}.

(** What the environment can do between two calls: replace the root
    certificate on disk, and nothing of the memory of the process. *)
Definition replace_root_cert (c : string) (w : @World example_site) : @World example_site :=
  @Build_World example_site (fs w) (buffers w) (tmp_names w) (registered_hosts w)
    (Some c) (pem_cache w) (trace w).

(** A signing request made out for another agent. *)
Definition foreign_csr : @CsrField example_site :=
  @Build_CsrField example_site "another-agent"%string.

(** A signing request made out for the agent with uuid 5. *)
Definition own_csr : @CsrField example_site :=
  @Build_CsrField example_site "00000000-0000-0000-0000-000000000005"%string.

(** A site whose push host 5 is registered, but which has no r4r
    directory. *)
Definition unprepared_world : @World example_site :=
  @Build_World example_site {| nodes := {[ ["var"] := Dir ]}; inodes := ∅ |}
    ∅ ["k3x9q2ab"] {[ 5%N := example_host ]} (Some "root"%string) None [].

(** The example site without its root certificate. *)
Definition uncertified_world : @World example_site :=
  @Build_World example_site example_fs ∅ ["k3x9q2ab"]
    {[ 5%N := example_host; 6%N := pull_host ]} None None [].

(** The example site with a REST API that refuses every registration. *)
Definition refusing_site : Externals := {|
  Csr := string;
  Certificate := string;
  CMKEdition := bool;
  Decompressor := unit;
  extract_cn_from_csr := λ c, c;
  signed_certificate := λ c months, "certificate for " +:+ c;
  serialize_to_pem := λ c, "-----BEGIN CERTIFICATE----- " +:+ c;
  site_name := "heute";
  r4r_dir := ["var"; "r4r"];
  internal_credentials := {| username := "automation"; password := "secret" |};
  Decompressor_of_name := λ n, if bool_decide (n = "identity") then Some tt else None;
  decompress := λ _ data, match data with [] => inl "no data" | _ => inr data end;
  supports_registration_with_labels := λ e, e;
  edition_value := λ e, if e then "cce" else "cre";
  site_controller_certificate_settings := λ _, Some 60;
  site_register := λ _ _ _, None;
  site_host_configuration := λ _ h, None;
  site_link_host_with_uuid := λ _ _ _, false;
  site_cmk_edition := λ c, None;
  request_json := λ r, list_byte_of_string (req_username r);
  parse_request := λ b, None;
  buffer_size := 8 * 1024;
|}.

Definition refusing_world : @World refusing_site :=
  @Build_World refusing_site example_fs ∅ ["k3x9q2ab"] ∅ (Some "root"%string) None [].

Definition refused_csr : @CsrField refusing_site :=
  @Build_CsrField refusing_site "00000000-0000-0000-0000-000000000005"%string.

(** * Properties *)

Section Properties.
Context `{ext : Externals}.

(** The events of a call: what the trace of [w'] has beyond that of [w]. *)
Definition new_events (w w' : World) : list Event :=
  drop (length (trace w)) (trace w').

Lemma set_fs_id (w : World) : set_fs (fs w) w = w.
Proof. by destruct w. Qed.

Lemma new_events_refl (w : World) : new_events w w = [].
Proof. unfold new_events. by rewrite drop_all. Qed.

Lemma new_events_app (w w' : World) (l : list Event) :
  trace w' = trace w ++ l → new_events w w' = l.
Proof. unfold new_events. intros ->. by rewrite drop_app_length. Qed.

(** The bind of the monad, as an equation. *)
Lemma bind_run {A B} (m : M A) (k : A → M B) (w : World) :
  (m ≫= k) w = match m w with
               | (Ok a, w1) => k a w1
               | (Raise e, w1) => (Raise e, w1)
               end.
Proof. done. Qed.

(** A run is its result and its final world. *)
Lemma run_eq {A} (run : Result A * World) (r : Result A) :
  run.1 = r → run = (r, run.2).
Proof. destruct run as [r' w']. by intros <-. Qed.

(** ** The identity check and the endpoints that start with it *)

Lemma validate_mismatch (uuid : N) (csr_field : CsrField) (w : World) :
  uuid_str uuid ≠ extract_cn_from_csr (csr csr_field) →
  _validate_uuid_against_csr uuid csr_field w =
    (Raise (HTTPException 400
              ("UUID (" +:+ uuid_str uuid +:+ ") does not match CN (" +:+
               extract_cn_from_csr (csr csr_field) +:+ ") of CSR.")), w).
Proof.
  intros Hne. unfold _validate_uuid_against_csr.
  by rewrite bool_decide_eq_true_2.
Qed.

Lemma validate_match (uuid : N) (csr_field : CsrField) (w : World) :
  uuid_str uuid = extract_cn_from_csr (csr csr_field) →
  _validate_uuid_against_csr uuid csr_field w = (Ok tt, w).
Proof.
  intros Heq. unfold _validate_uuid_against_csr.
  rewrite bool_decide_eq_false_2; [done|]. intros H; by apply H.
Qed.

Lemma sign_agent_csr_run (uuid : N) (csr_field : CsrField) (w : World) :
  _sign_agent_csr uuid csr_field w =
    match site_controller_certificate_settings internal_credentials with
    | Some months =>
        (Ok (signed_certificate (csr csr_field) months),
         emit (Signed (csr csr_field) months)
           (emit (Requested (GetControllerCertificateSettings internal_credentials)) w))
    | None =>
        (Raise (UpstreamFailure ("uuid=" +:+ uuid_str uuid +:+
                  " Querying agent controller certificate settings failed")),
         emit (Requested (GetControllerCertificateSettings internal_credentials)) w)
    end.
Proof.
  unfold _sign_agent_csr, controller_certificate_settings, rest_call, mbind, M_bind.
  by destruct (site_controller_certificate_settings internal_credentials).
Qed.

(** [renew_certificate] as a decision table: the identity check, then the
    registration check, then the settings lookup and the signature. *)
Lemma renew_certificate_run (uuid : N) (body : CertificateRenewalBody) (w : World) :
  renew_certificate uuid body w =
    if bool_decide (uuid_str uuid ≠ extract_cn_from_csr (csr (cr_csr body))) then
      (Raise (HTTPException 400
                ("UUID (" +:+ uuid_str uuid +:+ ") does not match CN (" +:+
                 extract_cn_from_csr (csr (cr_csr body)) +:+ ") of CSR.")), w)
    else
      match registered_hosts w !! uuid with
      | None =>
          (Raise (HTTPException 403 "Host is not registered"),
           emit (Logged ERROR ("uuid=" +:+ uuid_str uuid +:+ " Host is not registered")) w)
      | Some _ =>
          match site_controller_certificate_settings internal_credentials with
          | Some months =>
              (Ok {| rcr_agent_cert :=
                       serialize_to_pem (signed_certificate (csr (cr_csr body)) months) |},
               emit (Logged INFO ("uuid=" +:+ uuid_str uuid +:+
                                  " Certificate renewal succeeded"))
                 (emit (Signed (csr (cr_csr body)) months)
                    (emit (Requested (GetControllerCertificateSettings internal_credentials))
                          w)))
          | None =>
              (Raise (UpstreamFailure ("uuid=" +:+ uuid_str uuid +:+
                        " Querying agent controller certificate settings failed")),
               emit (Requested (GetControllerCertificateSettings internal_credentials)) w)
          end
      end.
Proof.
  unfold renew_certificate. unfold mbind at 1, M_bind at 1.
  case_bool_decide as Hcn.
  - by rewrite validate_mismatch.
  - rewrite validate_match by done.
    unfold mbind at 1, M_bind at 1, try_except, RegisteredHost__init__.
    unfold mbind at 1, M_bind at 1.
    destruct (registered_hosts w !! uuid) as [host|]; simpl; [|done].
    unfold mbind at 1, M_bind at 1. rewrite sign_agent_csr_run.
    by destruct (site_controller_certificate_settings internal_credentials).
Qed.

(** C1. For every uuid and CSR whose subject Common Name differs from
    str(uuid), register_existing and renew_certificate raise the HTTP 400
    whose detail names the uuid and the Common Name, and leave the world as
    it was: nothing is signed, nothing is requested from the site (no host
    is registered or linked), no file is written and nothing is logged. *)
Theorem identity_mismatch_rejected (w : World) (uuid : N) (csr_field : CsrField)
    (credentials : HTTPBasicCredentials) (host_name : string) :
  uuid_str uuid ≠ extract_cn_from_csr (csr csr_field) →
  register_existing credentials
      {| re_uuid := uuid; re_csr := csr_field; re_host_name := host_name |} w
    = (Raise (HTTPException 400
                ("UUID (" +:+ uuid_str uuid +:+ ") does not match CN (" +:+
                 extract_cn_from_csr (csr csr_field) +:+ ") of CSR.")), w)
  ∧ renew_certificate uuid {| cr_csr := csr_field |} w
    = (Raise (HTTPException 400
                ("UUID (" +:+ uuid_str uuid +:+ ") does not match CN (" +:+
                 extract_cn_from_csr (csr csr_field) +:+ ") of CSR.")), w).
Proof.
  intros Hne. split.
  - unfold register_existing, mbind, M_bind; simpl.
    by rewrite validate_mismatch.
  - rewrite renew_certificate_run; simpl.
    by rewrite bool_decide_eq_true_2.
Qed.

(** C10. In renew_certificate the identity check comes first: a Common
    Name that differs from the uuid gives the 400 whether or not the host
    is registered, and changes nothing; a 403 is the answer exactly when
    the Common Name matches and the host is not registered; the request for
    the certificate settings is sent exactly when both checks pass, and a
    certificate is signed only then. *)
Theorem renew_certificate_check_order (w : World) (uuid : N)
    (body : CertificateRenewalBody) :
  let cn := extract_cn_from_csr (csr (cr_csr body)) in
  let r := (renew_certificate uuid body w).1 in
  let w' := (renew_certificate uuid body w).2 in
  (uuid_str uuid ≠ cn →
     r = Raise (HTTPException 400
                  ("UUID (" +:+ uuid_str uuid +:+ ") does not match CN (" +:+ cn +:+
                   ") of CSR."))
     ∧ w' = w)
  ∧ ((∃ detail, r = Raise (HTTPException 403 detail))
       ↔ uuid_str uuid = cn ∧ registered_hosts w !! uuid = None)
  ∧ (existsb is_settings_request (new_events w w') = true
       ↔ uuid_str uuid = cn ∧ is_Some (registered_hosts w !! uuid))
  ∧ (existsb is_Signed (new_events w w') = true
       → uuid_str uuid = cn ∧ is_Some (registered_hosts w !! uuid)).
Proof.
  intros cn r w'. subst r w'. rewrite renew_certificate_run. fold cn.
  case_bool_decide as Hcn; simpl.
  - rewrite new_events_refl. simpl. split; [done|].
    split; [split; [intros [d Hd]; discriminate|intros [? _]; done]|].
    split; [split; [done|intros [? _]; done]|done].
  - destruct (registered_hosts w !! uuid) as [host|] eqn:Hreg.
    + assert (Hboth : uuid_str uuid = cn ∧ is_Some (Some host)) by (split; [done|by eexists]).
      destruct (site_controller_certificate_settings internal_credentials) as [months|];
        simpl.
      * rewrite (new_events_app w _
          [Requested (GetControllerCertificateSettings internal_credentials);
           Signed (csr (cr_csr body)) months;
           Logged INFO ("uuid=" +:+ uuid_str uuid +:+ " Certificate renewal succeeded")]).
        2:{ simpl. by rewrite <- !app_assoc. }
        simpl. split; [done|].
        split; [split; [intros [d Hd]; discriminate|intros [_ ?]; done]|].
        split; [split; done|done].
      * rewrite (new_events_app w _
          [Requested (GetControllerCertificateSettings internal_credentials)]) by done.
        simpl. split; [done|].
        split; [split; [intros [d Hd]; discriminate|intros [_ ?]; done]|].
        split; [split; done|done].
    + simpl. rewrite (new_events_app w _
        [Logged ERROR ("uuid=" +:+ uuid_str uuid +:+ " Host is not registered")]) by done.
      simpl. split; [done|]. split; [split; [done|by eexists]|].
      split; [split; [done|intros [_ [? ?]]; done]|done].
Qed.

(** ** Registration by host name and by labels *)

Lemma register_with_hostname_run (credentials : HTTPBasicCredentials)
    (body : RegistrationWithHNBody) (w : World) :
  register_with_hostname credentials body w =
    let asked := emit (Requested (GetHostConfiguration credentials (hn_host_name body))) w in
    match site_host_configuration credentials (hn_host_name body) with
    | None =>
        (Raise (UpstreamFailure ("uuid=" +:+ uuid_str (hn_uuid body) +:+
                                 " Getting host configuration failed")), asked)
    | Some host_config =>
        if bool_decide (site host_config ≠ site_name) then
          (Raise (HTTPException 403
                    ("This host is monitored on the site " +:+ site host_config +:+
                     ", but you tried to register it at the site " +:+ site_name +:+ ".")),
           asked)
        else if is_cluster host_config then
          (Raise (HTTPException 403
                    "This host is a cluster host. Register its nodes instead."), asked)
        else
          let linked :=
            emit (Requested (PutLinkHostWithUuid credentials (hn_host_name body)
                               (hn_uuid body))) asked in
          if site_link_host_with_uuid credentials (hn_host_name body) (hn_uuid body) then
            (Ok {| status_code := 204 |},
             emit (Logged INFO ("uuid=" +:+ uuid_str (hn_uuid body) +:+ " registered host "
                                +:+ hn_host_name body)) linked)
          else
            (Raise (UpstreamFailure ("uuid=" +:+ uuid_str (hn_uuid body) +:+
                                     " Linking host with UUID failed")), linked)
    end.
Proof.
  unfold register_with_hostname, host_configuration, rest_call.
  unfold mbind at 1, M_bind at 1.
  destruct (site_host_configuration credentials (hn_host_name body)) as [hc|]; [|done].
  unfold mbind at 1, M_bind at 1, _validate_registration_request.
  case_bool_decide; [done|].
  destruct (is_cluster hc); [done|].
  unfold raise, mret, M_ret, link_host_with_uuid, rest_call.
  unfold mbind at 1, M_bind at 1.
  by destruct (site_link_host_with_uuid credentials (hn_host_name body) (hn_uuid body)).
Qed.

(** C9. register_with_hostname answers 403 when the host is monitored on
    another site and 403 when it is a cluster host, and in both cases the
    only thing it did was to ask for the host's configuration: no link
    request was sent.  When it returns, the status is 204 and the request
    that links the host with the uuid was sent to the site.  Whatever
    happens, no certificate is signed and no file is touched. *)
Theorem register_with_hostname_spec (w : World) (credentials : HTTPBasicCredentials)
    (body : RegistrationWithHNBody) :
  let r := (register_with_hostname credentials body w).1 in
  let w' := (register_with_hostname credentials body w).2 in
  let asked := Requested (GetHostConfiguration credentials (hn_host_name body)) in
  let link := Requested (PutLinkHostWithUuid credentials (hn_host_name body) (hn_uuid body)) in
  (∀ host_config,
     site_host_configuration credentials (hn_host_name body) = Some host_config →
     (site host_config ≠ site_name →
        r = Raise (HTTPException 403
                     ("This host is monitored on the site " +:+ site host_config +:+
                      ", but you tried to register it at the site " +:+ site_name +:+ "."))
        ∧ w' = emit asked w)
     ∧ (site host_config = site_name → is_cluster host_config = true →
        r = Raise (HTTPException 403
                     "This host is a cluster host. Register its nodes instead.")
        ∧ w' = emit asked w)
     ∧ (site host_config = site_name → is_cluster host_config = false →
        site_link_host_with_uuid credentials (hn_host_name body) (hn_uuid body) = true →
        r = Ok {| status_code := 204 |}
        ∧ new_events w w' =
            [asked; link;
             Logged INFO ("uuid=" +:+ uuid_str (hn_uuid body) +:+ " registered host "
                          +:+ hn_host_name body)]))
  ∧ (∀ response, r = Ok response →
       status_code response = 204 ∧ link ∈ new_events w w')
  ∧ existsb is_Signed (new_events w w') = false
  ∧ fs w' = fs w.
Proof.
  intros r w' asked link. subst r w'. rewrite register_with_hostname_run.
  cbv zeta. fold asked link.
  destruct (site_host_configuration credentials (hn_host_name body)) as [hc|] eqn:Hc.
  - case_bool_decide as Hsite.
    + simpl. rewrite (new_events_app w _ [asked]) by done. simpl.
      split; [|done]. intros ? [= <-]. repeat split; intros; congruence.
    + destruct (is_cluster hc) eqn:Hcl.
      * simpl. rewrite (new_events_app w _ [asked]) by done. simpl.
        split; [|done]. intros ? [= <-]. repeat split; intros; congruence.
      * destruct (site_link_host_with_uuid credentials (hn_host_name body) (hn_uuid body))
          eqn:Hl; simpl.
        -- rewrite (new_events_app w _ [asked; link;
             Logged INFO ("uuid=" +:+ uuid_str (hn_uuid body) +:+ " registered host "
                          +:+ hn_host_name body)]).
           2:{ simpl. by rewrite <- !app_assoc. }
           simpl. split; [intros ? [= <-]; repeat split; intros; congruence|].
           split; [|done]. intros ? [= <-]. split; [done|]. set_solver.
        -- rewrite (new_events_app w _ [asked; link]).
           2:{ simpl. by rewrite <- !app_assoc. }
           simpl. split; [|done]. intros ? [= <-]. repeat split; intros; congruence.
  - simpl. rewrite (new_events_app w _ [asked]) by done. simpl. done.
Qed.

Lemma lookup_node_join (f : FileSystem) (p : list string) (name : string) :
  lookup_node f (p // name) = nodes f !! (p // name).
Proof. unfold lookup_node, path_join. by destruct p. Qed.

Lemma register_with_labels_run (credentials : HTTPBasicCredentials)
    (body : RegistrationWithLabelsBody) (w : World) :
  register_with_labels credentials body w =
    let asked := emit (Requested (GetCmkEdition credentials)) w in
    match site_cmk_edition credentials with
    | None =>
        (Raise (UpstreamFailure ("uuid=" +:+ uuid_str (lb_uuid body) +:+
                                 " Querying Checkmk edition failed")), asked)
    | Some edition =>
        if supports_registration_with_labels edition then
          (Ok {| status_code := 204 |},
           emit (Logged INFO ("uuid=" +:+ uuid_str (lb_uuid body) +:+
                              " Stored new request for registration"))
             (R4R_write {| r4r_status := NEW;
                           r4r_request :=
                             {| req_uuid := lb_uuid body;
                                req_username := username credentials;
                                req_agent_labels := lb_agent_labels body;
                                rejection_notice := None |} |} asked).2)
        else
          (Raise (HTTPException 501
                    ("The Checkmk " +:+ edition_value edition +:+
                     " edition does not support registration with agent labels")),
           emit (Logged ERROR ("uuid=" +:+ uuid_str (lb_uuid body) +:+
                               " Registration with labels not supported")) asked)
    end.
Proof.
  unfold register_with_labels, cmk_edition, rest_call.
  unfold mbind at 1, M_bind at 1.
  destruct (site_cmk_edition credentials) as [edition|]; [|done].
  unfold mbind at 1, M_bind at 1.
  destruct (supports_registration_with_labels edition); simpl; done.
Qed.

(** C8. Once the site has told its edition: when the edition does not
    support registration with labels, register_with_labels answers 501 and
    the file system is as it was, so no record is persisted; when it does,
    the answer is 204 and the bucket NEW holds, under the uuid, the
    serialized request that carries the uuid, the name of the requesting
    user and the submitted labels. *)
Theorem register_with_labels_spec (w : World) (credentials : HTTPBasicCredentials)
    (body : RegistrationWithLabelsBody) (edition : CMKEdition) :
  site_cmk_edition credentials = Some edition →
  let r := (register_with_labels credentials body w).1 in
  let w' := (register_with_labels credentials body w).2 in
  (supports_registration_with_labels edition = false →
     r = Raise (HTTPException 501
                  ("The Checkmk " +:+ edition_value edition +:+
                   " edition does not support registration with agent labels"))
     ∧ fs w' = fs w)
  ∧ (supports_registration_with_labels edition = true →
     r = Ok {| status_code := 204 |}
     ∧ read_bytes (fs w') (r4r_path NEW (lb_uuid body)) =
         Some (request_json {| req_uuid := lb_uuid body;
                               req_username := username credentials;
                               req_agent_labels := lb_agent_labels body;
                               rejection_notice := None |})
     ∧ existsb (λ e, match e with Requested (GetCmkEdition _) | Logged _ _ => false
                              | _ => true end) (new_events w w') = false).
Proof.
  intros Hed r w'. subst r w'. rewrite register_with_labels_run, Hed. cbv zeta.
  destruct (supports_registration_with_labels edition); simpl.
  - split; [done|]. intros _. split; [done|]. split.
    + unfold read_bytes, r4r_path. rewrite lookup_node_join. simpl.
      unfold r4r_path. rewrite lookup_insert_eq. by rewrite lookup_insert_eq.
    + by rewrite (new_events_app w _
        [Requested (GetCmkEdition credentials);
         Logged INFO ("uuid=" +:+ uuid_str (lb_uuid body) +:+
                      " Stored new request for registration")])
        by (simpl; by rewrite <- !app_assoc).
  - split; [done|]. intros [=].
Qed.

(** ** The status query *)

(** C6. registration_status merges the two sources the same way on every
    query.  When the host is registered, the answer is the message
    "Host registered" with the host's name and connection mode, whether a
    request record is left over or not (only the status field shows the
    record's status).  When it is not registered and a request record
    exists, the answer is that record's status and its rejection notice.
    When there is neither, the answer is the 404 "Host is not registered".
    The query changes nothing. *)
Theorem registration_status_merge (w : World) (uuid : N) :
  (∀ host (record : option R4R),
     registered_hosts w !! uuid = Some host →
     (R4R_read uuid w).1 = match record with
                           | Some r => Ok r
                           | None => Raise FileNotFoundError
                           end →
     registration_status uuid w =
       (Ok {| rs_hostname := Some (name host);
              rs_status := r4r_status <$> record;
              rs_type := Some (connection_mode host);
              rs_message := Some "Host registered" |}, w))
  ∧ (∀ r,
       registered_hosts w !! uuid = None →
       (R4R_read uuid w).1 = Ok r →
       registration_status uuid w =
         (Ok {| rs_hostname := None;
                rs_status := Some (r4r_status r);
                rs_type := None;
                rs_message := rejection_notice (r4r_request r) |}, w))
  ∧ (registered_hosts w !! uuid = None →
     (R4R_read uuid w).1 = Raise FileNotFoundError →
     registration_status uuid w = (Raise (HTTPException 404 "Host is not registered"), w)).
Proof.
  unfold registration_status, R4R_read, RegisteredHost__init__.
  unfold mbind, M_bind, try_except, fmap, M_fmap.
  generalize (R4R_scan [NEW; DECLINED; READY; DISCOVERABLE] uuid (fs w)).
  intros scan. cbn [fst].
  split; [|split].
  - intros host record Hreg ->. destruct record; simpl; by rewrite Hreg.
  - intros r Hreg ->. simpl. by rewrite Hreg.
  - intros Hreg ->. simpl. by rewrite Hreg.
Qed.

(** ** The failures of agent_data *)

(** [agent_data] as a decision table: the four checks in their order, and
    then the storing, the promotion and the answer. *)
Lemma agent_data_run (uuid : N) (compression : string) (monitoring_data : list Byte.byte)
    (w : World) :
  agent_data uuid compression monitoring_data w =
    match registered_hosts w !! uuid with
    | None =>
        (Raise (HTTPException 403 "Host is not registered"),
         emit (Logged ERROR ("uuid=" +:+ uuid_str uuid +:+ " Host is not registered")) w)
    | Some host =>
        match connection_mode host with
        | PULL =>
            (Raise (HTTPException 403 "Host is not a push host"),
             emit (Logged ERROR ("uuid=" +:+ uuid_str uuid +:+ " Host is not a push host")) w)
        | PUSH =>
            match Decompressor_of_name compression with
            | None =>
                (Raise (HTTPException 400
                          ("Unsupported compression algorithm: " +:+ compression)),
                 emit (Logged ERROR ("uuid=" +:+ uuid_str uuid +:+
                                     " Unsupported compression algorithm: " +:+ compression))
                      w)
            | Some decompressor =>
                match decompress decompressor monitoring_data with
                | inl msg =>
                    (Raise (HTTPException 400 "Decompression of agent data failed"),
                     emit (Logged ERROR ("uuid=" +:+ uuid_str uuid +:+
                                         " Decompression of agent data failed: " +:+ msg)) w)
                | inr decompressed_agent_data =>
                    (_store_agent_data (source_path host) decompressed_agent_data;;
                     _move_ready_file uuid;;
                     logger_info ("uuid=" +:+ uuid_str uuid +:+ " Agent data saved");;
                     mret {| status_code := 204 |}) w
                end
            end
        end
    end.
Proof.
  unfold agent_data, RegisteredHost__init__, Decompressor__init__, Decompressor__call__.
  unfold mbind at 1, M_bind at 1. unfold try_except at 1.
  destruct (registered_hosts w !! uuid) as [host|]; [|done].
  unfold mbind at 1, M_bind at 1.
  destruct (connection_mode host); [done|].
  unfold mret at 1, M_ret at 1.
  unfold mbind at 1, M_bind at 1. unfold try_except at 1.
  destruct (Decompressor_of_name compression) as [decompressor|]; [|done].
  unfold mret at 1, M_ret at 1.
  unfold mbind at 1, M_bind at 1. unfold try_except at 1.
  by destruct (decompress decompressor monitoring_data).
Qed.

(** ** The cache of the root certificate *)

Lemma pem_serizialized_site_root_cert_run (w : World) :
  _pem_serizialized_site_root_cert w =
    match pem_cache w with
    | Some s => (Ok s, w)
    | None =>
        match root_cert_on_disk w with
        | Some c =>
            (Ok (serialize_to_pem c),
             set_pem_cache (Some (serialize_to_pem c)) (emit RootCertLoaded w))
        | None => (Raise FileNotFoundError, w)
        end
    end.
Proof.
  unfold _pem_serizialized_site_root_cert, lru_cache, site_root_certificate, mbind, M_bind.
  destruct (pem_cache w); [done|]. by destruct (root_cert_on_disk w).
Qed.

(** ** Paths and nodes *)

Lemma parent_join (p : list string) (name : string) : parent (p // name) = p.
Proof. unfold parent, path_join. apply removelast_last. Qed.

Lemma join_ne_self (p : list string) (name : string) : p // name ≠ p.
Proof.
  unfold path_join. intros H. apply (f_equal length) in H.
  rewrite length_app in H. simpl in H. lia.
Qed.

Lemma join_inj (p q : list string) (a b : string) : p // a = q // b → p = q ∧ a = b.
Proof. unfold path_join. intros H. by apply app_inj_tail in H. Qed.

Lemma join_ne_nil (p : list string) (name : string) : p // name ≠ [].
Proof. unfold path_join. by destruct p. Qed.

Lemma lookup_node_nonroot (f : FileSystem) (p : list string) :
  p ≠ [] → lookup_node f p = nodes f !! p.
Proof. by destruct p. Qed.

Lemma lookup_node_insert (m : gmap (list string) Node) i (q p : list string) (n : Node) :
  q ≠ [] →
  lookup_node {| nodes := <[q := n]> m; inodes := i |} p =
    if decide (q = p) then Some n else lookup_node {| nodes := m; inodes := i |} p.
Proof.
  intros Hq. destruct p as [|c p].
  - simpl. by rewrite decide_False.
  - simpl. apply lookup_insert.
Qed.

Lemma lookup_node_delete (m : gmap (list string) Node) i (q p : list string) :
  q ≠ [] →
  lookup_node {| nodes := delete q m; inodes := i |} p =
    if decide (q = p) then None else lookup_node {| nodes := m; inodes := i |} p.
Proof.
  intros Hq. destruct p as [|c p].
  - simpl. by rewrite decide_False.
  - simpl. apply lookup_delete.
Qed.

Lemma fs_eta (f : FileSystem) : {| nodes := nodes f; inodes := inodes f |} = f.
Proof. by destruct f. Qed.

(** ** Names that are missing *)

Lemma missing_error_cases (fuel : nat) (p : list string) (f : FileSystem) :
  missing_error fuel p f = FileNotFoundError ∨ missing_error fuel p f = NotADirectoryError.
Proof.
  revert p. induction fuel as [|fuel IH]; intros p; simpl; [by left|].
  destruct (lookup_node f (parent p)) as [[|ino]|]; auto.
Qed.

Lemma missing_error_below_dir (fuel : nat) (p : list string) (f : FileSystem) :
  lookup_node f (parent p) = Some Dir → missing_error fuel p f = FileNotFoundError.
Proof. intros H. destruct fuel; simpl; [done|]. by rewrite H. Qed.

(** [mkdir(exist_ok=True)] without [parents], case by case. *)
Lemma Path_mkdir_plain (p : list string) (f : FileSystem) :
  Path_mkdir false true p f =
    match lookup_node f (parent p) with
    | Some (File _) =>
        if is_dir f p then (Ok tt, f) else (Raise NotADirectoryError, f)
    | None =>
        match missing_error (length p) (parent p) f with
        | FileNotFoundError => (Raise FileNotFoundError, f)
        | e => if is_dir f p then (Ok tt, f) else (Raise e, f)
        end
    | Some Dir =>
        match lookup_node f p with
        | Some Dir => (Ok tt, f)
        | Some (File _) => (Raise FileExistsError, f)
        | None => (Ok tt, {| nodes := <[p := Dir]> (nodes f); inodes := inodes f |})
        end
    end.
Proof.
  unfold Path_mkdir.
  assert (H : ∀ fuel, Path_mkdir_rec fuel false true p f =
    match os_mkdir p f with
    | (Ok tt, f') => (Ok tt, f')
    | (Raise FileNotFoundError, _) => (Raise FileNotFoundError, f)
    | (Raise e, _) => if negb (is_dir f p) then (Raise e, f) else (Ok tt, f)
    end).
  { intros fuel. destruct fuel; simpl; destruct (os_mkdir p f) as [[[]|[]] ?]; done. }
  rewrite H. unfold os_mkdir, is_dir, exists_.
  destruct (lookup_node f (parent p)) as [[|ino]|].
  - by destruct (lookup_node f p) as [[|ino]|].
  - by destruct (lookup_node f p) as [[|ino']|].
  - destruct (missing_error_cases (length p) (parent p) f) as [-> | ->]; [done|].
    by destruct (lookup_node f p) as [[|ino']|].
Qed.



(** What is missing on the way to a path is decided by the shorter paths. *)
Lemma missing_error_ext (fuel : nat) (p : list string) (f f' : FileSystem) :
  (∀ q, length q < length p → lookup_node f' q = lookup_node f q) →
  missing_error fuel p f' = missing_error fuel p f.
Proof.
  revert p. induction fuel as [|fuel IH]; intros p Hsame; simpl; [done|].
  destruct (decide (p = [])) as [->|Hp]; [done|].
  assert (Hlen : length (parent p) < length p).
  { destruct (exists_last Hp) as (q & a & ->). fold (path_join q a).
    rewrite parent_join. unfold path_join. rewrite length_app. simpl. lia. }
  rewrite (Hsame _ Hlen).
  destruct (lookup_node f (parent p)) as [[|ino]|]; [done..|].
  apply IH. intros q Hq. apply Hsame. lia.
Qed.

Lemma Path_mkdir_raise (p : list string) (f f1 : FileSystem) (e : Exn) :
  Path_mkdir false true p f = (Raise e, f1) → f1 = f.
Proof.
  rewrite Path_mkdir_plain. unfold is_dir.
  destruct (lookup_node f (parent p)) as [[|ino]|];
    destruct (lookup_node f p) as [[|ino']|]; repeat case_match; congruence.
Qed.

(** [mkdir(exist_ok=True)] decides by the path and the shorter paths. *)
Lemma Path_mkdir_ext (p : list string) (f f' : FileSystem) :
  lookup_node f' p = lookup_node f p →
  (∀ q, length q < length p → lookup_node f' q = lookup_node f q) →
  (Path_mkdir false true p f').1 = (Path_mkdir false true p f).1.
Proof.
  intros Hself Hshort. rewrite !Path_mkdir_plain. unfold is_dir.
  rewrite (missing_error_ext _ _ f f').
  2:{ intros q Hq. apply Hshort.
      destruct (decide (p = [])) as [->|Hp]; [simpl in Hq; lia|].
      destruct (exists_last Hp) as (q' & a & ->). fold (path_join q' a) in *.
      rewrite parent_join in Hq. unfold path_join. rewrite length_app. simpl. lia. }
  destruct (decide (p = [])) as [->|Hp]; [done|].
  rewrite (Hshort (parent p)), Hself.
  2:{ destruct (exists_last Hp) as (q' & a & ->). fold (path_join q' a).
      rewrite parent_join. unfold path_join. rewrite length_app. simpl. lia. }
  repeat case_match; done.
Qed.

(** After a successful [mkdir(exist_ok=True)] the path is a directory, and
    either nothing changed or the directory is the one new node. *)
Lemma Path_mkdir_ok (p : list string) (f f1 : FileSystem) :
  p ≠ [] →
  Path_mkdir false true p f = (Ok tt, f1) →
  lookup_node f1 p = Some Dir
  ∧ (f1 = f
     ∨ (lookup_node f p = None ∧ lookup_node f (parent p) = Some Dir
        ∧ f1 = {| nodes := <[p := Dir]> (nodes f); inodes := inodes f |})).
Proof.
  intros Hp. rewrite Path_mkdir_plain. unfold is_dir.
  assert (Hpp : parent p ≠ p).
  { destruct (exists_last Hp) as (q & a & ->). fold (path_join q a).
    rewrite parent_join. intros H. by apply (join_ne_self q a). }
  destruct (lookup_node f (parent p)) as [[|ino]|] eqn:Hparent;
    destruct (lookup_node f p) as [[|ino']|] eqn:Hself;
    repeat case_match; intros [= <-];
    try (split; [done|]; by left).
  destruct f as [m i]; simpl in *.
  rewrite !lookup_node_insert by done.
  rewrite decide_True by done. split; [done|]. right. done.
Qed.

(** A [mkdir(exist_ok=True)] that returned returns again, and changes
    nothing then. *)
Lemma Path_mkdir_again (p : list string) (f f1 : FileSystem) :
  p ≠ [] →
  Path_mkdir false true p f = (Ok tt, f1) →
  Path_mkdir false true p f1 = (Ok tt, f1).
Proof.
  intros Hp Hmk.
  assert (Hpp : parent p ≠ p).
  { destruct (exists_last Hp) as (q & a & ->). fold (path_join q a).
    rewrite parent_join. intros H. by apply (join_ne_self q a). }
  destruct (Path_mkdir_ok _ _ _ Hp Hmk) as (_ & [->|(_ & Hparent & ->)]); [done|].
  rewrite Path_mkdir_plain. destruct f as [m i]; simpl in *.
  rewrite !lookup_node_insert by done.
  rewrite decide_False by done. rewrite decide_True by done. by rewrite Hparent.
Qed.

Lemma os_rename_raise (src dst : list string) (f f1 : FileSystem) (e : Exn) :
  os_rename src dst f = (Raise e, f1) → f1 = f.
Proof.
  unfold os_rename.
  destruct (lookup_node f src) as [[|ino]|]; [congruence| |congruence].
  destruct (lookup_node f (parent dst)) as [[|ino']|]; [|congruence|congruence].
  destruct (is_dir f dst); congruence.
Qed.

(** What a rename fails with when its source is a name for nothing. *)
Lemma os_rename_missing_error (src dst : list string) (f : FileSystem) :
  lookup_node f src = None →
  os_rename src dst f = (Raise (missing_error (length src) src f), f).
Proof. unfold os_rename. by intros ->. Qed.

Lemma os_rename_ok (src dst : list string) (f f1 : FileSystem) :
  os_rename src dst f = (Ok tt, f1) →
  ∃ ino, lookup_node f src = Some (File ino)
         ∧ lookup_node f (parent dst) = Some Dir
         ∧ is_dir f dst = false
         ∧ f1 = {| nodes := <[dst := File ino]> (delete src (nodes f)); inodes := inodes f |}.
Proof.
  unfold os_rename.
  destruct (lookup_node f src) as [[|ino]|]; [congruence| |congruence].
  destruct (lookup_node f (parent dst)) as [[|ino']|]; [|congruence|congruence].
  destruct (is_dir f dst) eqn:Hd; [congruence|].
  intros [= <-]. by exists ino.
Qed.

(** ** Promotion of a request record *)

Lemma move_ready_file_run (uuid : N) (w : World) :
  _move_ready_file uuid w =
    match Path_mkdir false true (r4r_dir // "DISCOVERABLE") (fs w) with
    | (Ok tt, f1) =>
        match os_rename (r4r_path READY uuid) (r4r_path DISCOVERABLE uuid) f1 with
        | (Ok tt, f2) => (Ok tt, set_fs f2 w)
        | (Raise FileNotFoundError, f2) => (Ok tt, set_fs f2 w)
        | (Raise e, f2) => (Raise e, set_fs f2 w)
        end
    | (Raise e, f1) => (Raise e, set_fs f1 w)
    end.
Proof.
  unfold _move_ready_file, suppress_FileNotFoundError, try_except, lift_fs, mbind, M_bind.
  unfold r4r_path. simpl.
  destruct (Path_mkdir false true (r4r_dir // "DISCOVERABLE") (fs w)) as [[[]|e] f1]; [|done].
  simpl.
  destruct (os_rename _ _ f1) as [[[]|e] f2]; [done|].
  by destruct e.
Qed.

Lemma r4r_path_ne_nil (s : RegistrationStatusEnum) (uuid : N) : r4r_path s uuid ≠ [].
Proof. apply join_ne_nil. Qed.

Lemma r4r_path_ready_ne_discoverable (uuid : N) :
  r4r_path READY uuid ≠ r4r_path DISCOVERABLE uuid.
Proof.
  unfold r4r_path. intros [H _]%join_inj. by apply join_inj in H as [_ [=]].
Qed.

Lemma r4r_path_ne_bucket (s s' : RegistrationStatusEnum) (uuid : N) :
  r4r_path s uuid ≠ r4r_dir // status_name s'.
Proof.
  unfold r4r_path, path_join. intros H. apply (f_equal length) in H.
  rewrite !length_app in H. simpl in H. lia.
Qed.

Lemma r4r_path_ne_r4r_dir (s : RegistrationStatusEnum) (uuid : N) :
  r4r_path s uuid ≠ r4r_dir.
Proof.
  unfold r4r_path, path_join. intros H. apply (f_equal length) in H.
  rewrite !length_app in H. simpl in H. lia.
Qed.

Lemma Path_mkdir_dir_state (p : list string) (f : FileSystem) :
  lookup_node f p = Some Dir → (Path_mkdir false true p f).2 = f.
Proof. rewrite Path_mkdir_plain. intros ->. by repeat case_match. Qed.

Lemma r4r_path_length (s : RegistrationStatusEnum) (uuid : N) :
  length (r4r_path s uuid) = S (S (length r4r_dir)).
Proof. unfold r4r_path, path_join. rewrite !length_app. simpl. lia. Qed.

Lemma bucket_length (name : string) : length (r4r_dir // name) = S (length r4r_dir).
Proof. unfold path_join. rewrite length_app. simpl. lia. Qed.

(** What a rename of the record does to the names that are no record
    paths. *)
Lemma lookup_node_renamed (f : FileSystem) (src dst q : list string) (ino : positive) :
  src ≠ [] → dst ≠ [] → q ≠ src → q ≠ dst →
  lookup_node {| nodes := <[dst := File ino]> (delete src (nodes f)); inodes := inodes f |} q
  = lookup_node f q.
Proof.
  intros Hsrc Hdst Hq1 Hq2.
  rewrite lookup_node_insert by done. rewrite decide_False by done.
  rewrite lookup_node_delete by done. rewrite decide_False by done.
  by rewrite fs_eta.
Qed.

(** A second promotion in a row finds nothing to do; it returns like the
    first when the record that the first one moved was in a directory. *)
Lemma move_ready_file_twice (uuid : N) (w : World) :
  let r1 := (_move_ready_file uuid w).1 in
  let w1 := (_move_ready_file uuid w).2 in
  (_move_ready_file uuid w1).2 = w1
  ∧ (r1 = Ok tt →
     (is_file (fs w) (r4r_path READY uuid) = true →
      is_dir (fs w) (r4r_dir // "READY") = true) →
     (_move_ready_file uuid w1).1 = Ok tt).
Proof.
  intros r1 w1. subst r1 w1.
  rewrite (move_ready_file_run uuid w).
  destruct (Path_mkdir false true (r4r_dir // "DISCOVERABLE") (fs w)) as [[[]|e] f1] eqn:Hmk.
  2:{ apply Path_mkdir_raise in Hmk as Hf. subst f1. cbn [fst snd]. rewrite set_fs_id.
      rewrite move_ready_file_run, Hmk. cbn [fst snd]. by rewrite set_fs_id. }
  pose proof (Path_mkdir_again _ _ _ (join_ne_nil _ _) Hmk) as Hagain.
  pose proof (Path_mkdir_ok _ _ _ (join_ne_nil _ _) Hmk) as (Hself & Hf1).
  destruct (os_rename (r4r_path READY uuid) (r4r_path DISCOVERABLE uuid) f1)
    as [[[]|e] f2] eqn:Hrn.
  - apply os_rename_ok in Hrn as (ino & Hsrc & _ & _ & ->). cbn [fst snd].
    rewrite move_ready_file_run. cbn [fs set_fs].
    set (f2 := {| nodes := <[r4r_path DISCOVERABLE uuid := File ino]>
                             (delete (r4r_path READY uuid) (nodes f1));
                  inodes := inodes f1 |}).
    assert (Hother : ∀ q, q ≠ r4r_path READY uuid → q ≠ r4r_path DISCOVERABLE uuid →
                          lookup_node f2 q = lookup_node f1 q).
    { intros q H1 H2. by apply lookup_node_renamed; [apply r4r_path_ne_nil..| |]. }
    assert (Hshort : ∀ q, length q < length (r4r_dir // "DISCOVERABLE") →
                          lookup_node f2 q = lookup_node f1 q).
    { intros q Hq. rewrite bucket_length in Hq.
      apply Hother; intros ->; rewrite r4r_path_length in Hq; lia. }
    assert (Hmk2 : Path_mkdir false true (r4r_dir // "DISCOVERABLE") f2 = (Ok tt, f2)).
    { apply injective_projections; cbn [fst snd].
      - rewrite (Path_mkdir_ext _ f1 f2), Hagain; [done| |done].
        apply Hother; apply not_eq_sym, (r4r_path_ne_bucket _ DISCOVERABLE).
      - apply Path_mkdir_dir_state. rewrite Hother; [done|..];
          apply not_eq_sym, (r4r_path_ne_bucket _ DISCOVERABLE). }
    rewrite Hmk2. rewrite os_rename_missing_error.
    2:{ unfold f2. rewrite lookup_node_insert by apply r4r_path_ne_nil.
        rewrite decide_False by (intros H; by apply (r4r_path_ready_ne_discoverable uuid)).
        rewrite lookup_node_delete by apply r4r_path_ne_nil.
        by rewrite decide_True. }
    split.
    + by destruct (missing_error _ _ f2).
    + intros _ Htree. rewrite missing_error_below_dir; [done|].
      unfold r4r_path at 1. rewrite parent_join.
      change (status_name READY) with "READY".
      rewrite Hother; [|apply not_eq_sym, (r4r_path_ne_bucket _ READY)..].
      assert (Hw : lookup_node (fs w) (r4r_path READY uuid) = Some (File ino)
                   ∧ lookup_node f1 (r4r_dir // "READY") = lookup_node (fs w) (r4r_dir // "READY")).
      { destruct Hf1 as [->|(_ & _ & ->)]; [done|].
        destruct (fs w) as [m i]; simpl in *.
        rewrite lookup_node_insert in Hsrc by apply join_ne_nil.
        rewrite decide_False in Hsrc by apply not_eq_sym, (r4r_path_ne_bucket _ DISCOVERABLE).
        split; [done|].
        rewrite lookup_node_insert by apply join_ne_nil.
        rewrite decide_False; [done|]. by intros [_ [=]]%join_inj. }
      destruct Hw as [Hrec ->].
      unfold is_file, is_dir in Htree. rewrite Hrec in Htree. specialize (Htree eq_refl).
      by destruct (lookup_node (fs w) (r4r_dir // "READY")) as [[|i]|].
  - apply os_rename_raise in Hrn as Hf. subst f2.
    assert (Hw1 : (_move_ready_file uuid (set_fs f1 w)).2 = set_fs f1 w
      ∧ (e = FileNotFoundError → (_move_ready_file uuid (set_fs f1 w)).1 = Ok tt)).
    { rewrite move_ready_file_run. cbn [fs set_fs].
      rewrite Hagain, Hrn. destruct e; cbn [fst snd]; split; done. }
    destruct e; cbn [fst snd]; split; try apply Hw1; try done.
    intros _ _. by apply Hw1.
Qed.

(** ** Storing the agent data *)

Lemma string_length_app (a b : string) :
  String.length (a +:+ b) = String.length a + String.length b.
Proof. induction a as [|c a IH]; simpl; [done|]. by rewrite IH. Qed.

Lemma hex_length (width : nat) (n : N) : String.length (hex width n) = width.
Proof.
  revert n. induction width as [|k IH]; intros n; simpl; [done|].
  rewrite string_length_app, IH. simpl. lia.
Qed.

Lemma uuid_str_length (uuid : N) : String.length (uuid_str uuid) = 36.
Proof.
  unfold uuid_str. rewrite !string_length_app, !hex_length. done.
Qed.

Lemma agent_output_ne_record (dir : list string) (s : RegistrationStatusEnum) (uuid : N) :
  dir // "agent_output" ≠ r4r_path s uuid.
Proof.
  unfold r4r_path. intros [_ H]%join_inj. apply (f_equal String.length) in H.
  rewrite string_length_app, uuid_str_length in H. discriminate.
Qed.

Lemma agent_output_ne_bucket (dir : list string) (s : RegistrationStatusEnum) :
  dir // "agent_output" ≠ r4r_dir // status_name s.
Proof. intros [_ H]%join_inj. by destruct s. Qed.

Lemma tmp_ne_agent_output (dir : list string) (n : string) :
  dir // ("tmp" +:+ n) ≠ dir // "agent_output".
Proof. intros [_ H]%join_inj. discriminate. Qed.

(** [mkdir] only adds directories where there was nothing: what can be
    read, and from which inode, is the same before and after. *)
Lemma os_mkdir_files (p : list string) (f f' : FileSystem) (r : Result unit) :
  os_mkdir p f = (r, f') →
  inodes f' = inodes f
  ∧ ∀ q, lookup_node f' q = lookup_node f q
         ∨ (lookup_node f q = None ∧ lookup_node f' q = Some Dir).
Proof.
  unfold os_mkdir, exists_.
  destruct (lookup_node f (parent p)) as [[|ino]|]; try (intros [= <- <-]; by auto).
  destruct (lookup_node f p) as [n|] eqn:Hp; intros [= <- <-]; [by auto|].
  split; [done|]. intros q. destruct f as [m i]; simpl in *.
  destruct (decide (p = [])) as [->|Hne]; [done|].
  rewrite lookup_node_insert by done.
  destruct (decide (p = q)) as [<-|]; [right|left]; done.
Qed.

Lemma Path_mkdir_rec_files (fuel : nat) (parents exist_ok : bool) (p : list string)
    (f f' : FileSystem) (r : Result unit) :
  Path_mkdir_rec fuel parents exist_ok p f = (r, f') →
  inodes f' = inodes f
  ∧ ∀ q, lookup_node f' q = lookup_node f q
         ∨ (lookup_node f q = None ∧ lookup_node f' q = Some Dir).
Proof.
  revert parents exist_ok p f f' r.
  induction fuel as [|fuel IH]; intros parents exist_ok p f f' r; simpl.
  - destruct (os_mkdir p f) as [[[]|e] f1] eqn:Hos.
    + intros [= <- <-]. by eapply os_mkdir_files.
    + destruct e; repeat case_match; intros [= <- <-]; by auto.
  - destruct (os_mkdir p f) as [[[]|e] f1] eqn:Hos.
    + intros [= <- <-]. by eapply os_mkdir_files.
    + destruct e; try (repeat case_match; intros [= <- <-]; by auto).
      destruct (negb parents || bool_decide (parent p = p)); [intros [= <- <-]; by auto|].
      destruct (Path_mkdir_rec fuel true true (parent p) f) as [[[]|e] f2] eqn:Hrec.
      * intros Hlast. apply IH in Hrec as [Hi Hn]. apply IH in Hlast as [Hi' Hn'].
        split; [congruence|]. intros q.
        destruct (Hn q) as [Hq|[Hq1 Hq2]]; destruct (Hn' q) as [Hq'|[Hq1' Hq2']];
          try (left; congruence); try (right; split; congruence).
      * intros [= <- <-]. by apply IH in Hrec.
Qed.


(** Inversion of the monadic combinators on a result that returned. *)
Lemma bind_ok {A B} (m : M A) (k : A → M B) (w w' : World) (b : B) :
  (m ≫= k) w = (Ok b, w') → ∃ a w1, m w = (Ok a, w1) ∧ k a w1 = (Ok b, w').
Proof.
  unfold mbind, M_bind. destruct (m w) as [[a|e] w1]; simpl; [|done].
  intros H. by exists a, w1.
Qed.

Lemma try_finally_ok {A} (body : M A) (final : M unit) (w w' : World) (a : A) :
  try_finally body final w = (Ok a, w') →
  ∃ w1, body w = (Ok a, w1) ∧ final w1 = (Ok tt, w').
Proof.
  unfold try_finally. destruct (body w) as [r w1].
  destruct (final w1) as [[[]|e] w2] eqn:Hfinal; [|done]. intros [= -> ->]. by exists w1.
Qed.

Lemma lift_fs_inv {A} (op : FileSystem → Result A * FileSystem) (w w' : World)
    (r : Result A) :
  lift_fs op w = (r, w') → ∃ f', op (fs w) = (r, f') ∧ w' = set_fs f' w.
Proof.
  unfold lift_fs. destruct (op (fs w)) as [r' f'] eqn:Hop. intros [= -> <-]. by exists f'.
Qed.

Lemma mkstemp_inner_ok (dir : list string) (names rest : list string)
    (f f' : FileSystem) (tf : TempFile) :
  mkstemp_inner dir names f = (Ok tf, rest, f') →
  (∃ n, tf_name tf = dir // ("tmp" +:+ n))
  ∧ lookup_node f (tf_name tf) = None
  ∧ lookup_node f dir = Some Dir
  ∧ (tf_ino tf ∉ dom (inodes f))
  ∧ f' = {| nodes := <[tf_name tf := File (tf_ino tf)]> (nodes f);
            inodes := <[tf_ino tf := []]> (inodes f) |}.
Proof.
  induction names as [|n names IH]; simpl; [done|].
  destruct (lookup_node f dir) as [[|ino]|] eqn:Hdir; [|done|done].
  unfold exists_.
  destruct (lookup_node f (dir // ("tmp" +:+ n))) as [node|] eqn:Hfile; [apply IH|].
  intros [= <- <- <-]. simpl. split; [by exists n|]. split; [done|]. split; [done|].
  split; [apply is_fresh|done].
Qed.

Lemma NamedTemporaryFile_ok (dir : list string) (w w1 : World) (tf : TempFile) :
  NamedTemporaryFile dir w = (Ok tf, w1) →
  (∃ n, tf_name tf = dir // ("tmp" +:+ n))
  ∧ lookup_node (fs w) (tf_name tf) = None
  ∧ lookup_node (fs w) dir = Some Dir
  ∧ (tf_ino tf ∉ dom (inodes (fs w)))
  ∧ fs w1 = {| nodes := <[tf_name tf := File (tf_ino tf)]> (nodes (fs w));
               inodes := <[tf_ino tf := []]> (inodes (fs w)) |}
  ∧ buffers w1 !! tf_ino tf = Some [].
Proof.
  unfold NamedTemporaryFile.
  destruct (mkstemp_inner dir (tmp_names w) (fs w)) as [[[tf'|e] rest] f'] eqn:Hmk; [|done].
  intros [= -> <-]. apply mkstemp_inner_ok in Hmk as (Hn & Hnone & Hdir & Hino & ->).
  simpl. by rewrite lookup_insert_eq.
Qed.

(** What [write] leaves: the names are untouched, and the bytes of the
    temporary inode followed by the bytes still in the buffer are what they
    were, followed by the data. *)
Lemma file_write_spec (tf : TempFile) (data : list Byte.byte) (w : World) :
  ∃ w2, file_write tf data w = (Ok tt, w2)
  ∧ nodes (fs w2) = nodes (fs w)
  ∧ (∀ i, i ≠ tf_ino tf → inodes (fs w2) !! i = inodes (fs w) !! i)
  ∧ default [] (inodes (fs w2) !! tf_ino tf) ++ default [] (buffers w2 !! tf_ino tf)
    = default [] (inodes (fs w) !! tf_ino tf) ++ default [] (buffers w !! tf_ino tf) ++ data.
Proof.
  unfold file_write. repeat case_bool_decide; eexists; (split; [done|]); simpl;
    rewrite ?lookup_insert_eq; simpl.
  - done.
  - split; [done|]. split; [intros i Hi; by rewrite !lookup_insert_ne|].
    by rewrite app_nil_r, app_assoc.
  - split; [done|]. split; [intros i Hi; by rewrite lookup_insert_ne|].
    by rewrite app_assoc.
Qed.

Lemma file_close_spec (tf : TempFile) (w : World) :
  ∃ w', file_close tf w = (Ok tt, w')
  ∧ nodes (fs w') = nodes (fs w)
  ∧ (∀ i, i ≠ tf_ino tf → inodes (fs w') !! i = inodes (fs w) !! i)
  ∧ inodes (fs w') !! tf_ino tf
    = Some (default [] (inodes (fs w) !! tf_ino tf) ++ default [] (buffers w !! tf_ino tf)).
Proof.
  unfold file_close. eexists. split; [done|]. simpl.
  split; [done|]. split; [intros i Hi; by rewrite lookup_insert_ne|].
  by rewrite lookup_insert_eq.
Qed.


Lemma lookup_node_ext (f g : FileSystem) (q : list string) :
  nodes f = nodes g → lookup_node f q = lookup_node g q.
Proof. intros H. destruct q; simpl; [done|]. by rewrite H. Qed.

Lemma Path_unlink_missing (p : list string) (f : FileSystem) :
  lookup_node f p = None → lookup_node f (parent p) = Some Dir →
  Path_unlink true p f = (Ok tt, f).
Proof.
  unfold Path_unlink. intros -> Hparent. by rewrite missing_error_below_dir.
Qed.

(** An [unlink] that returned and found nothing has changed nothing. *)
Lemma Path_unlink_returned (p : list string) (f f' : FileSystem) :
  lookup_node f p = None → Path_unlink true p f = (Ok tt, f') → f' = f.
Proof. unfold Path_unlink. intros ->. repeat case_match; congruence. Qed.

(** What a call of [_store_agent_data] that returns has done: the final
    path names a new inode that holds the data, and every other name and
    inode is as before, but for directories made on the way. *)
Lemma store_agent_data_ok (dir : list string) (data : list Byte.byte) (w w' : World) :
  _store_agent_data dir data w = (Ok tt, w') →
  ∃ ino, (ino ∉ dom (inodes (fs w)))
    ∧ lookup_node (fs w') (dir // "agent_output") = Some (File ino)
    ∧ inodes (fs w') !! ino = Some data
    ∧ (∀ i, i ≠ ino → inodes (fs w') !! i = inodes (fs w) !! i)
    ∧ (∀ q, q ≠ dir // "agent_output" →
         lookup_node (fs w') q = lookup_node (fs w) q
         ∨ (lookup_node (fs w) q = None ∧ lookup_node (fs w') q = Some Dir)).
Proof.
  unfold _store_agent_data. intros H.
  apply bind_ok in H as ([] & w0 & Hmkdir & H).
  apply lift_fs_inv in Hmkdir as (f0 & Hmkdir & ->).
  apply Path_mkdir_rec_files in Hmkdir as [Hi0 Hn0].
  unfold with_NamedTemporaryFile in H.
  apply bind_ok in H as (tf & w1 & Hopen & H).
  apply NamedTemporaryFile_ok in Hopen as ([n Hname] & Hfree & Hdir & Hino & Hfs1 & Hbuf1).
  cbn [fs set_fs] in Hfree, Hdir, Hino, Hfs1.
  apply try_finally_ok in H as (w4 & H & Hclose).
  apply try_finally_ok in H as (w3 & H & Hunlink).
  apply bind_ok in H as ([] & w2 & Hwrite & Hrename).
  destruct (file_write_spec tf data w1) as (w2' & Hw & Hn2 & Hi2 & Hbytes).
  rewrite Hwrite in Hw. injection Hw as <-.
  apply lift_fs_inv in Hrename as (f3 & Hrename & ->).
  apply os_rename_ok in Hrename as (ino & Hsrc & _ & _ & ->).
  assert (Htmp : tf_name tf ≠ dir // "agent_output")
    by (rewrite Hname; apply tmp_ne_agent_output).
  assert (Htmp0 : tf_name tf ≠ []) by (rewrite Hname; apply join_ne_nil).
  rewrite (lookup_node_ext _ (fs w1)) in Hsrc by done.
  rewrite Hfs1, lookup_node_insert, decide_True in Hsrc by done.
  injection Hsrc as <-.
  apply lift_fs_inv in Hunlink as (f4 & Hunlink & ->).
  cbn [fs set_fs] in Hunlink.
  apply Path_unlink_returned in Hunlink as ->.
  2:{ rewrite lookup_node_insert by apply join_ne_nil.
      rewrite decide_False by done.
      rewrite lookup_node_delete by done. by rewrite decide_True. }
  destruct (file_close_spec tf
    (set_fs {| nodes := <[dir // "agent_output" := File (tf_ino tf)]>
                          (delete (tf_name tf) (nodes (fs w2)));
               inodes := inodes (fs w2) |} (set_fs {| nodes := <[dir // "agent_output" := File (tf_ino tf)]>
                          (delete (tf_name tf) (nodes (fs w2)));
               inodes := inodes (fs w2) |} w2)))
    as (w'' & Hc & Hn4 & Hi4 & Hdata).
  rewrite Hclose in Hc. injection Hc as <-.
  cbn [fs set_fs buffers set_buffers nodes inodes] in Hn4, Hi4, Hdata.
  exists (tf_ino tf). split.
  { by rewrite <- Hi0. }
  split.
  { rewrite (lookup_node_nonroot _ _ (join_ne_nil _ _)), Hn4. apply lookup_insert_eq. }
  split.
  { rewrite Hdata, Hbytes, Hbuf1, Hfs1. simpl. by rewrite lookup_insert_eq. }
  split.
  { intros i Hi. rewrite Hi4, Hi2, Hfs1 by done. simpl.
    rewrite lookup_insert_ne by done. by rewrite Hi0. }
  intros q Hq.
  assert (Hq' : lookup_node (fs w') q = lookup_node f0 q).
  { destruct (decide (q = [])) as [->|Hq0]; [done|].
    rewrite !lookup_node_nonroot by done. rewrite Hn4, Hn2, Hfs1. simpl.
    rewrite lookup_insert_ne by done.
    destruct (decide (tf_name tf = q)) as [<-|Hne].
    - rewrite lookup_delete_eq. symmetry. by rewrite <- lookup_node_nonroot.
    - rewrite lookup_delete_ne by done. by rewrite lookup_insert_ne. }
  rewrite Hq'. apply Hn0.
Qed.




(** What the rename of a promotion fails with when the record is not
    there, on a site whose r4r directory exists. *)
Lemma missing_error_record (f : FileSystem) (uuid : N) :
  lookup_node f r4r_dir = Some Dir →
  missing_error (length (r4r_path READY uuid)) (r4r_path READY uuid) f =
    if is_file f (r4r_dir // "READY") then NotADirectoryError else FileNotFoundError.
Proof.
  intros Hr4r. rewrite r4r_path_length. unfold r4r_path, is_file.
  cbn [missing_error]. rewrite parent_join. change (status_name READY) with "READY".
  destruct (lookup_node f (r4r_dir // "READY")) as [[|ino]|]; [done..|].
  by rewrite parent_join, Hr4r.
Qed.

(** C4 (amended). For a uuid whose name in READY is no directory, and
    whose record, if there is one, lies in a READY that is a directory:
    a second promotion in a row leaves the world as the first one left it,
    and returns when the first one did.  When nothing is stored under the
    uuid in READY and the r4r directory exists, the call never changes a
    record, and what it does is decided by what the names DISCOVERABLE and
    READY are: with DISCOVERABLE a regular file it raises FileExistsError
    and changes nothing; otherwise it leaves DISCOVERABLE as it is when it
    exists and makes the directory when it does not, and then returns, or
    raises NotADirectoryError when READY is a regular file.  When the r4r
    directory is no directory (and DISCOVERABLE neither) the call raises
    and changes nothing. *)
Theorem move_ready_file_idempotent (w : World) (uuid : N) :
  is_dir (fs w) (r4r_path READY uuid) = false →
  (is_file (fs w) (r4r_path READY uuid) = true →
   is_dir (fs w) (r4r_dir // "READY") = true) →
  let r1 := (_move_ready_file uuid w).1 in
  let w1 := (_move_ready_file uuid w).2 in
  (_move_ready_file uuid w1).2 = w1
  ∧ (r1 = Ok tt → (_move_ready_file uuid w1).1 = Ok tt)
  ∧ (lookup_node (fs w) (r4r_path READY uuid) = None →
     is_dir (fs w) r4r_dir = true →
     let made := set_fs {| nodes := <[r4r_dir // "DISCOVERABLE" := Dir]> (nodes (fs w));
                           inodes := inodes (fs w) |} w in
     match lookup_node (fs w) (r4r_dir // "DISCOVERABLE"),
           is_file (fs w) (r4r_dir // "READY") with
     | Some (File _), _ => r1 = Raise FileExistsError ∧ w1 = w
     | Some Dir, false => r1 = Ok tt ∧ w1 = w
     | Some Dir, true => r1 = Raise NotADirectoryError ∧ w1 = w
     | None, false => r1 = Ok tt ∧ w1 = made
     | None, true => r1 = Raise NotADirectoryError ∧ w1 = made
     end)
  ∧ (is_dir (fs w) r4r_dir = false →
     is_dir (fs w) (r4r_dir // "DISCOVERABLE") = false →
     (∃ e, r1 = Raise e) ∧ w1 = w).
Proof.
  intros _ Htree r1 w1.
  destruct (move_ready_file_twice uuid w) as [Htwice Hok].
  split; [done|]. split; [by auto|].
  subst r1 w1. split.
  - intros Hready Hr4r made. subst made.
    rewrite move_ready_file_run, Path_mkdir_plain, parent_join.
    unfold is_dir in Hr4r.
    destruct (lookup_node (fs w) r4r_dir) as [[|ino]|] eqn:Hdir; try done.
    destruct (lookup_node (fs w) (r4r_dir // "DISCOVERABLE")) as [[|ino]|] eqn:Hbucket.
    + rewrite os_rename_missing_error, missing_error_record by done.
      destruct (is_file (fs w) (r4r_dir // "READY")); cbn [fst snd];
        by rewrite set_fs_id.
    + destruct (is_file (fs w) (r4r_dir // "READY")); cbn [fst snd];
        by rewrite set_fs_id.
    + set (f1 := {| nodes := <[r4r_dir // "DISCOVERABLE" := Dir]> (nodes (fs w));
                    inodes := inodes (fs w) |}).
      assert (Hother : ∀ q, q ≠ r4r_dir // "DISCOVERABLE" →
                            lookup_node f1 q = lookup_node (fs w) q).
      { intros q Hq. unfold f1. destruct (fs w) as [m i]; simpl.
        rewrite lookup_node_insert by apply join_ne_nil. by rewrite decide_False. }
      rewrite os_rename_missing_error.
      2:{ rewrite Hother; [done|]. apply (r4r_path_ne_bucket _ DISCOVERABLE). }
      rewrite missing_error_record.
      2:{ rewrite Hother; [done|]. apply not_eq_sym, join_ne_self. }
      unfold is_file. rewrite Hother by (by intros [_ [=]]%join_inj).
      by destruct (lookup_node (fs w) (r4r_dir // "READY")) as [[|ino]|].
  - intros Hr4r Hbucket.
    assert (Hmk : ∃ e, Path_mkdir false true (r4r_dir // "DISCOVERABLE") (fs w)
                       = (Raise e, fs w)).
    { rewrite Path_mkdir_plain, parent_join. unfold is_dir in *.
      destruct (lookup_node (fs w) r4r_dir) as [[|ino]|]; try done.
      - destruct (lookup_node (fs w) (r4r_dir // "DISCOVERABLE")) as [[|ino']|];
          try done; by eexists.
      - destruct (missing_error_cases (length (r4r_dir // "DISCOVERABLE")) r4r_dir (fs w))
          as [-> | ->]; [by eexists|].
        destruct (lookup_node (fs w) (r4r_dir // "DISCOVERABLE")) as [[|ino']|];
          try done; by eexists. }
    destruct Hmk as [e Hmk]. rewrite move_ready_file_run, Hmk. cbn [fst snd].
    rewrite set_fs_id. by eauto.
Qed.

(** ** The states between the operations of [_store_agent_data] *)

(** The machine is the function: six operations at most, and then the
    result and the world of [_store_agent_data]. *)
Lemma store_run_returns (dir : list string) (data : list Byte.byte) (w : World) :
  store_run 6 dir data AtMkdir w =
    (Returned (_store_agent_data dir data w).1, (_store_agent_data dir data w).2).
Proof.
  unfold _store_agent_data, with_NamedTemporaryFile, mbind, M_bind, try_finally.
  simpl.
  destruct (lift_fs (Path_mkdir true true dir) w) as [[[]|e0] w0]; simpl; [|done].
  destruct (NamedTemporaryFile dir w0) as [[tf|e1] w1]; simpl; [|done].
  destruct (file_write tf data w1) as [[[]|e2] w2]; simpl.
  - destruct (lift_fs (os_rename (tf_name tf) (dir // "agent_output")) w2)
      as [[[]|e3] w3]; simpl;
      destruct (lift_fs (Path_unlink true (tf_name tf)) w3) as [[[]|e4] w4]; simpl;
      destruct (file_close tf w4) as [[[]|e5] w5]; done.
  - destruct (lift_fs (Path_unlink true (tf_name tf)) w2) as [[[]|e4] w4]; simpl;
      destruct (file_close tf w4) as [[[]|e5] w5]; done.
Qed.

(** C5 (amended). agent_data checks in the order of the six steps, and
    the first check that fails decides the answer: no registered host gives
    403 "Host is not registered", whatever the codec and the body; a
    registered host that is not a push host gives 403; an unknown codec
    name gives 400 with the name in the detail; a body the codec rejects
    gives 400.  In each of these four cases the call only logs: the file
    system, and with it the host's output path, is as it was.  When the
    checks pass, a failure of the storing or of the promotion is the
    failure of the call, which does nothing more: the world is the one the
    failing step left, which after a failed promotion holds the stored
    payload. *)
Theorem agent_data_failures (w : World) (uuid : N) (compression : string)
    (monitoring_data : list Byte.byte) :
  let r := (agent_data uuid compression monitoring_data w).1 in
  let w' := (agent_data uuid compression monitoring_data w).2 in
  (registered_hosts w !! uuid = None →
     r = Raise (HTTPException 403 "Host is not registered")
     ∧ w' = emit (Logged ERROR ("uuid=" +:+ uuid_str uuid +:+ " Host is not registered")) w
     ∧ fs w' = fs w)
  ∧ (∀ host,
       registered_hosts w !! uuid = Some host → connection_mode host ≠ PUSH →
       r = Raise (HTTPException 403 "Host is not a push host")
       ∧ w' = emit (Logged ERROR ("uuid=" +:+ uuid_str uuid +:+ " Host is not a push host")) w
       ∧ fs w' = fs w)
  ∧ (∀ host,
       registered_hosts w !! uuid = Some host → connection_mode host = PUSH →
       Decompressor_of_name compression = None →
       r = Raise (HTTPException 400 ("Unsupported compression algorithm: " +:+ compression))
       ∧ w' = emit (Logged ERROR ("uuid=" +:+ uuid_str uuid +:+
                                  " Unsupported compression algorithm: " +:+ compression)) w
       ∧ fs w' = fs w)
  ∧ (∀ host decompressor msg,
       registered_hosts w !! uuid = Some host → connection_mode host = PUSH →
       Decompressor_of_name compression = Some decompressor →
       decompress decompressor monitoring_data = inl msg →
       r = Raise (HTTPException 400 "Decompression of agent data failed")
       ∧ w' = emit (Logged ERROR ("uuid=" +:+ uuid_str uuid +:+
                                  " Decompression of agent data failed: " +:+ msg)) w
       ∧ fs w' = fs w)
  ∧ (∀ host decompressor decompressed e w1,
       registered_hosts w !! uuid = Some host → connection_mode host = PUSH →
       Decompressor_of_name compression = Some decompressor →
       decompress decompressor monitoring_data = inr decompressed →
       _store_agent_data (source_path host) decompressed w = (Raise e, w1) →
       r = Raise e ∧ w' = w1)
  ∧ (∀ host decompressor decompressed e w1 w2,
       registered_hosts w !! uuid = Some host → connection_mode host = PUSH →
       Decompressor_of_name compression = Some decompressor →
       decompress decompressor monitoring_data = inr decompressed →
       _store_agent_data (source_path host) decompressed w = (Ok tt, w1) →
       _move_ready_file uuid w1 = (Raise e, w2) →
       r = Raise e ∧ w' = w2).
Proof.
  intros r w'. subst r w'. rewrite agent_data_run.
  split; [|split; [|split; [|split; [|split]]]].
  - by intros ->.
  - intros host -> Hmode. by destruct (connection_mode host).
  - by intros host -> -> ->.
  - by intros host decompressor msg -> -> -> ->.
  - intros host decompressor decompressed e w1 -> -> -> -> Hstore.
    by rewrite bind_run, Hstore.
  - intros host decompressor decompressed e w1 w2 -> -> -> -> Hstore Hmove.
    by rewrite bind_run, Hstore, bind_run, Hmove.
Qed.

(** C3. The final path does hold a truncated payload at an observable
    moment.  In every call whose data is not empty and fits the buffer of
    the temporary file object, and whose rename has succeeded, a reader of
    the final path gets an empty file after the fourth operation (mkdir,
    open, write, rename): the final path names the temporary inode while the
    bytes are still in the buffer, which only the close at the end of the
    with block flushes.  The empty file is not the new payload, and not the
    previous one when there was one with content. *)
Theorem store_agent_data_exposes_empty_file (dir : list string) (data : list Byte.byte)
    (w : World) (tf : TempFile) :
  (store_run 4 dir data AtMkdir w).1 = AtUnlink tf None →
  data ≠ [] →
  length data ≤ buffer_size →
  observed_payload 4 dir data w = Some []
  ∧ observed_payload 4 dir data w ≠ Some data
  ∧ (∀ previous, observed_payload 0 dir data w = Some previous → previous ≠ [] →
       observed_payload 4 dir data w ≠ Some previous).
Proof.
  intros Hpc Hdata Hlen. revert Hpc.
  unfold observed_payload at 1 2 4. simpl.
  destruct (lift_fs (Path_mkdir true true dir) w) as [[[]|e0] w0]; simpl; [|done].
  destruct (NamedTemporaryFile dir w0) as [[tf'|e1] w1] eqn:Hopen; simpl; [|done].
  apply NamedTemporaryFile_ok in Hopen as (_ & _ & _ & _ & Hfs1 & Hbuf1).
  unfold file_write. rewrite Hbuf1. simpl. rewrite Nat.sub_0_r.
  rewrite bool_decide_eq_true_2 by done.
  unfold store_step.
  destruct (lift_fs (os_rename (tf_name tf') _) _) as [[[]|e3] w3] eqn:Hrn; simpl; [|done].
  intros _. apply lift_fs_inv in Hrn as (f3 & Hrn & ->). cbn [fs set_buffers set_fs] in *.
  apply os_rename_ok in Hrn as (ino & Hsrc & _ & _ & ->).
  assert (Hempty : read_bytes
            {| nodes := <[dir // "agent_output" := File ino]>
                          (delete (tf_name tf') (nodes (fs w1)));
               inodes := inodes (fs w1) |} (dir // "agent_output") = Some []).
  { unfold read_bytes. rewrite lookup_node_insert by apply join_ne_nil.
    rewrite decide_True by done. simpl.
    rewrite Hfs1 in Hsrc |- *. simpl.
    destruct (decide (tf_name tf' = [])) as [Hnil|Hnil].
    - rewrite Hnil in Hsrc. done.
    - rewrite lookup_node_insert, decide_True in Hsrc by done.
      injection Hsrc as <-. by rewrite lookup_insert_eq. }
  rewrite Hempty. split; [done|]. split.
  - intros [= Heq]. by apply Hdata.
  - intros previous _ Hprevious [= Heq]. by apply Hprevious.
Qed.

End Properties.

(** * Further properties of the endpoints *)

Section Extras.
Context `{ext : Externals}.

(** ** Certificates: register_existing and renew_certificate *)

(** [register_existing] as a decision table. *)
Lemma register_existing_run (credentials : HTTPBasicCredentials)
    (body : RegisterExistingBody) (w : World) :
  register_existing credentials body w =
    if bool_decide (uuid_str (re_uuid body) ≠ extract_cn_from_csr (csr (re_csr body))) then
      (Raise (HTTPException 400
                ("UUID (" +:+ uuid_str (re_uuid body) +:+ ") does not match CN (" +:+
                 extract_cn_from_csr (csr (re_csr body)) +:+ ") of CSR.")), w)
    else
      match _pem_serizialized_site_root_cert w with
      | (Raise e, w1) => (Raise e, w1)
      | (Ok root_cert, w1) =>
          let asked :=
            emit (Requested (GetControllerCertificateSettings internal_credentials)) w1 in
          match site_controller_certificate_settings internal_credentials with
          | None =>
              (Raise (UpstreamFailure ("uuid=" +:+ uuid_str (re_uuid body) +:+
                        " Querying agent controller certificate settings failed")), asked)
          | Some months =>
              let signed := emit (Signed (csr (re_csr body)) months) asked in
              let posted :=
                emit (Requested (PostRegister credentials (re_uuid body) (re_host_name body)))
                     signed in
              match site_register credentials (re_uuid body) (re_host_name body) with
              | None =>
                  (Raise (UpstreamFailure ("uuid=" +:+ uuid_str (re_uuid body) +:+
                            " Registration failed")), posted)
              | Some mode =>
                  (Ok {| rer_root_cert := root_cert;
                         rer_agent_cert :=
                           serialize_to_pem (signed_certificate (csr (re_csr body)) months);
                         rer_connection_mode := mode |},
                   emit (Logged INFO ("uuid=" +:+ uuid_str (re_uuid body) +:+
                                      " registered host " +:+ re_host_name body)) posted)
              end
          end
      end.
Proof.
  unfold register_existing. unfold mbind at 1, M_bind at 1.
  case_bool_decide as Hcn.
  - by rewrite validate_mismatch.
  - rewrite validate_match by done.
    unfold mbind at 1, M_bind at 1.
    destruct (_pem_serizialized_site_root_cert w) as [[root_cert|e] w1]; [|done].
    unfold mbind at 1, M_bind at 1, fmap, M_fmap. rewrite sign_agent_csr_run.
    destruct (site_controller_certificate_settings internal_credentials) as [months|];
      [|done].
    unfold mbind at 1, M_bind at 1, register, rest_call.
    by destruct (site_register credentials (re_uuid body) (re_host_name body)).
Qed.

(** What a call of [_pem_serizialized_site_root_cert] adds to the trace: at
    most the loading of the certificate; and it touches nothing else but
    the cache. *)
Lemma pem_serizialized_site_root_cert_effect (w : World) :
  let w1 := (_pem_serizialized_site_root_cert w).2 in
  (trace w1 = trace w ∨ trace w1 = trace w ++ [RootCertLoaded])
  ∧ fs w1 = fs w ∧ registered_hosts w1 = registered_hosts w ∧ buffers w1 = buffers w.
Proof.
  rewrite pem_serizialized_site_root_cert_run.
  destruct (pem_cache w); [by auto|]. destruct (root_cert_on_disk w); simpl; by auto.
Qed.

(** The events of a call of [register_existing], in their order. *)
Lemma register_existing_events (w : World) (credentials : HTTPBasicCredentials)
    (body : RegisterExistingBody) :
  new_events w (register_existing credentials body w).2 =
    if bool_decide (uuid_str (re_uuid body) ≠ extract_cn_from_csr (csr (re_csr body)))
    then []
    else
      let load := new_events w (_pem_serizialized_site_root_cert w).2 in
      match (_pem_serizialized_site_root_cert w).1 with
      | Raise _ => load
      | Ok _ =>
          load ++
          Requested (GetControllerCertificateSettings internal_credentials) ::
          match site_controller_certificate_settings internal_credentials with
          | None => []
          | Some months =>
              Signed (csr (re_csr body)) months ::
              Requested (PostRegister credentials (re_uuid body) (re_host_name body)) ::
              match site_register credentials (re_uuid body) (re_host_name body) with
              | None => []
              | Some _ =>
                  [Logged INFO ("uuid=" +:+ uuid_str (re_uuid body) +:+ " registered host "
                                +:+ re_host_name body)]
              end
          end
      end.
Proof.
  rewrite register_existing_run. case_bool_decide; [apply new_events_refl|].
  rewrite pem_serizialized_site_root_cert_run.
  destruct (pem_cache w) as [s|]; [|destruct (root_cert_on_disk w) as [c|]];
    cbn [fst snd]; [| |done];
    destruct (site_controller_certificate_settings internal_credentials) as [months|];
    try destruct (site_register credentials (re_uuid body) (re_host_name body));
    cbn [fst snd]; rewrite ?new_events_refl;
    try rewrite (new_events_app w (set_pem_cache _ (emit RootCertLoaded w))
                   [RootCertLoaded]) by done;
    apply new_events_app; simpl; by rewrite <- ?app_assoc.
Qed.

Lemma pem_new_events (w : World) :
  new_events w (_pem_serizialized_site_root_cert w).2 = []
  ∨ new_events w (_pem_serizialized_site_root_cert w).2 = [RootCertLoaded].
Proof.
  rewrite pem_serizialized_site_root_cert_run.
  destruct (pem_cache w); [left; apply new_events_refl|].
  destruct (root_cert_on_disk w); [right; by apply new_events_app|left; apply new_events_refl].
Qed.

(** X1.  [register_existing] on its way to the response: when the uuid is
    the CN of the CSR, the root certificate is at hand and the site answers
    both requests, the call returns the serialized root certificate, the
    serialized certificate signed for the CSR with the lifetime the site
    configured, and the connection mode the site answered.  After what
    the root certificate took, the call has asked for the certificate
    settings with the internal credentials, signed, posted the
    registration with the credentials of the caller and logged it, in this
    order; the root certificate is in the cache and no file changed. *)
Theorem register_existing_success (w : World) (credentials : HTTPBasicCredentials)
    (body : RegisterExistingBody) (root_cert : string) (months : nat)
    (mode : ConnectionMode) :
  uuid_str (re_uuid body) = extract_cn_from_csr (csr (re_csr body)) →
  (_pem_serizialized_site_root_cert w).1 = Ok root_cert →
  site_controller_certificate_settings internal_credentials = Some months →
  site_register credentials (re_uuid body) (re_host_name body) = Some mode →
  let w' := (register_existing credentials body w).2 in
  (register_existing credentials body w).1
    = Ok {| rer_root_cert := root_cert;
            rer_agent_cert := serialize_to_pem (signed_certificate (csr (re_csr body)) months);
            rer_connection_mode := mode |}
  ∧ trace w' = trace (_pem_serizialized_site_root_cert w).2 ++
      [Requested (GetControllerCertificateSettings internal_credentials);
       Signed (csr (re_csr body)) months;
       Requested (PostRegister credentials (re_uuid body) (re_host_name body));
       Logged INFO ("uuid=" +:+ uuid_str (re_uuid body) +:+ " registered host "
                    +:+ re_host_name body)]
  ∧ pem_cache w' = Some root_cert
  ∧ fs w' = fs w.
Proof.
  intros Hcn Hpem Hsettings Hregister w'. subst w'.
  rewrite register_existing_run, bool_decide_eq_false_2 by (intros H; by apply H).
  revert Hpem. rewrite pem_serizialized_site_root_cert_run.
  destruct (pem_cache w) as [s|] eqn:Hcache; [|destruct (root_cert_on_disk w); [|done]];
    cbn [fst snd]; intros [= <-]; rewrite Hsettings, Hregister;
    cbn [fst snd emit set_pem_cache trace fs pem_cache];
    (split; [done|]); (split; [by rewrite <- !app_assoc|]); done.
Qed.

(** X2.  The order of [register_existing]: the root certificate comes
    first, and when it cannot be had the call raises what the loading
    raised, with nothing requested and nothing signed; and a registration
    is posted to the site only directly after the certificate has been
    signed, which is directly after the settings have been asked for and
    answered. *)
Theorem register_existing_signs_before_registering (w : World)
    (credentials : HTTPBasicCredentials) (body : RegisterExistingBody) :
  let w' := (register_existing credentials body w).2 in
  let post := Requested (PostRegister credentials (re_uuid body) (re_host_name body)) in
  (∀ e, uuid_str (re_uuid body) = extract_cn_from_csr (csr (re_csr body)) →
        (_pem_serizialized_site_root_cert w).1 = Raise e →
        register_existing credentials body w
          = (Raise e, (_pem_serizialized_site_root_cert w).2))
  ∧ (post ∈ new_events w w' →
     ∃ months before after,
       site_controller_certificate_settings internal_credentials = Some months
       ∧ new_events w w' =
           before ++
           [Requested (GetControllerCertificateSettings internal_credentials);
            Signed (csr (re_csr body)) months; post] ++ after).
Proof.
  intros w' post. split.
  - intros e Hcn Hpem.
    rewrite register_existing_run, bool_decide_eq_false_2 by (intros H; by apply H).
    destruct (_pem_serizialized_site_root_cert w) as [[s|e'] w1]; [done|].
    cbn [fst snd] in *. congruence.
  - subst w'. rewrite register_existing_events.
    case_bool_decide; [by intros ?%elem_of_nil|]. cbv zeta.
    assert (Hload : post ∉ new_events w (_pem_serizialized_site_root_cert w).2).
    { destruct (pem_new_events w) as [-> | ->]; [apply not_elem_of_nil|].
      intros Hin%list_elem_of_singleton. discriminate. }
    destruct ((_pem_serizialized_site_root_cert w).1); [|done].
    intros [Hin|Hin]%elem_of_app; [done|].
    destruct (site_controller_certificate_settings internal_credentials) as [months|].
    + exists months, (new_events w (_pem_serizialized_site_root_cert w).2).
      eexists. split; [done|]. reflexivity.
    + apply elem_of_cons in Hin as [Hin|Hin]; [discriminate|by apply elem_of_nil in Hin].
Qed.

(** X3.  [register_existing] signs before it registers and does not undo:
    when the site refuses the registration, the call raises the failure of
    the registration request, and the certificate for the CSR has been
    signed all the same; the root certificate stays in the cache. *)
Theorem register_existing_no_rollback (w : World) (credentials : HTTPBasicCredentials)
    (body : RegisterExistingBody) (root_cert : string) (months : nat) :
  uuid_str (re_uuid body) = extract_cn_from_csr (csr (re_csr body)) →
  (_pem_serizialized_site_root_cert w).1 = Ok root_cert →
  site_controller_certificate_settings internal_credentials = Some months →
  site_register credentials (re_uuid body) (re_host_name body) = None →
  let w' := (register_existing credentials body w).2 in
  (register_existing credentials body w).1
    = Raise (UpstreamFailure ("uuid=" +:+ uuid_str (re_uuid body) +:+ " Registration failed"))
  ∧ Signed (csr (re_csr body)) months ∈ new_events w w'
  ∧ pem_cache w' = Some root_cert.
Proof.
  intros Hcn Hpem Hsettings Hregister w'. subst w'. split; [|split].
  - rewrite register_existing_run, bool_decide_eq_false_2 by (intros H; by apply H).
    destruct (_pem_serizialized_site_root_cert w) as [[s|e] w1]; [|done].
    by rewrite Hsettings, Hregister.
  - rewrite register_existing_events, bool_decide_eq_false_2 by (intros H; by apply H).
    cbv zeta. rewrite Hpem, Hsettings, Hregister. set_solver.
  - rewrite register_existing_run, bool_decide_eq_false_2 by (intros H; by apply H).
    revert Hpem. rewrite pem_serizialized_site_root_cert_run.
    destruct (pem_cache w) as [s|] eqn:Hcache; [|destruct (root_cert_on_disk w); [|done]];
      cbn [fst snd]; intros [= <-]; by rewrite Hsettings, Hregister.
Qed.

(** X4.  Neither [register_existing] nor [renew_certificate] writes a
    file: whatever the outcome, the file system is as before.  And
    [renew_certificate] does without the root certificate: it does not
    load it and leaves its cache as it is. *)
Theorem certificate_endpoints_write_nothing (w : World)
    (credentials : HTTPBasicCredentials) (body : RegisterExistingBody) (uuid : N)
    (renewal : CertificateRenewalBody) :
  fs (register_existing credentials body w).2 = fs w
  ∧ fs (renew_certificate uuid renewal w).2 = fs w
  ∧ pem_cache (renew_certificate uuid renewal w).2 = pem_cache w
  ∧ RootCertLoaded ∉ new_events w (renew_certificate uuid renewal w).2.
Proof.
  split.
  - rewrite register_existing_run. case_bool_decide; [done|].
    pose proof (pem_serizialized_site_root_cert_effect w) as (_ & Hfs & _).
    destruct (_pem_serizialized_site_root_cert w) as [[s|e] w1]; cbn [fst snd] in *; [|done].
    destruct (site_controller_certificate_settings internal_credentials); [|done].
    by destruct (site_register credentials (re_uuid body) (re_host_name body)).
  - rewrite renew_certificate_run. case_bool_decide.
    { rewrite new_events_refl. repeat (split; [done|]). apply not_elem_of_nil. }
    destruct (registered_hosts w !! uuid).
    2:{ repeat (split; [done|]).
        rewrite (new_events_app w _ [Logged ERROR ("uuid=" +:+ uuid_str uuid +:+
                                                   " Host is not registered")]) by done.
        intros Hin%list_elem_of_singleton. discriminate. }
    destruct (site_controller_certificate_settings internal_credentials) as [m|];
      repeat (split; [done|]).
    + rewrite (new_events_app w _
        [Requested (GetControllerCertificateSettings internal_credentials);
         Signed (csr (cr_csr renewal)) m;
         Logged INFO ("uuid=" +:+ uuid_str uuid +:+ " Certificate renewal succeeded")])
        by (simpl; by rewrite <- !app_assoc).
      intros Hin. apply elem_of_cons in Hin as [Hin|Hin]; [discriminate|].
      apply elem_of_cons in Hin as [Hin|Hin]; [discriminate|].
      apply list_elem_of_singleton in Hin. discriminate.
    + rewrite (new_events_app w _
        [Requested (GetControllerCertificateSettings internal_credentials)]) by done.
      intros Hin%list_elem_of_singleton. discriminate.
Qed.

(** X5.  [renew_certificate] on its way to the response: for a registered
    uuid that is the CN of the CSR, on a site that answers, the call
    returns the serialized certificate signed for the CSR with the
    configured lifetime, and has asked for the settings, signed and logged
    the renewal, in this order and nothing else. *)
Theorem renew_certificate_success (w : World) (uuid : N) (body : CertificateRenewalBody)
    (host : RegisteredHost) (months : nat) :
  uuid_str uuid = extract_cn_from_csr (csr (cr_csr body)) →
  registered_hosts w !! uuid = Some host →
  site_controller_certificate_settings internal_credentials = Some months →
  (renew_certificate uuid body w).1
    = Ok {| rcr_agent_cert :=
              serialize_to_pem (signed_certificate (csr (cr_csr body)) months) |}
  ∧ new_events w (renew_certificate uuid body w).2
    = [Requested (GetControllerCertificateSettings internal_credentials);
       Signed (csr (cr_csr body)) months;
       Logged INFO ("uuid=" +:+ uuid_str uuid +:+ " Certificate renewal succeeded")].
Proof.
  intros Hcn Hreg Hsettings.
  rewrite renew_certificate_run, bool_decide_eq_false_2 by (intros H; by apply H).
  rewrite Hreg, Hsettings. split; [done|].
  apply new_events_app. simpl. by rewrite <- !app_assoc.
Qed.

(** X6.  What the lru_cache of [_pem_serizialized_site_root_cert] keeps: a
    result that was returned once is returned by every later call, with no
    effect at all, whatever has happened to the rest of the world; a call
    that raised has cached nothing, and a later call finds a certificate
    that has appeared in the meantime. *)
Theorem root_cert_cache_is_sticky (w w2 : World) :
  (∀ s, (_pem_serizialized_site_root_cert w).1 = Ok s →
        pem_cache w2 = pem_cache (_pem_serizialized_site_root_cert w).2 →
        _pem_serizialized_site_root_cert w2 = (Ok s, w2))
  ∧ (∀ e c, (_pem_serizialized_site_root_cert w).1 = Raise e →
            pem_cache w2 = pem_cache (_pem_serizialized_site_root_cert w).2 →
            root_cert_on_disk w2 = Some c →
            (_pem_serizialized_site_root_cert w2).1 = Ok (serialize_to_pem c)).
Proof.
  rewrite !pem_serizialized_site_root_cert_run. split.
  - intros s. destruct (pem_cache w) as [s0|] eqn:Hcache.
    + cbn [fst snd]. intros [= ->] ->. by rewrite Hcache.
    + destruct (root_cert_on_disk w); [|done]. cbn [fst snd set_pem_cache pem_cache].
      by intros [= <-] ->.
  - intros e c. destruct (pem_cache w) as [s0|] eqn:Hcache; [done|].
    destruct (root_cert_on_disk w); [done|]. cbn [fst snd].
    intros _ -> ->. by rewrite Hcache.
Qed.

(** X7.  Certificates are signed as the site configured: a certificate
    that [register_existing] or [renew_certificate] has signed is for the
    CSR of the request body, and its lifetime is the one the site answered
    to the settings request made with the internal credentials. *)
Theorem signed_certificates_follow_site_settings (w : World)
    (credentials : HTTPBasicCredentials) (body : RegisterExistingBody) (uuid : N)
    (renewal : CertificateRenewalBody) (c : Csr) (months : nat) :
  (Signed c months ∈ new_events w (register_existing credentials body w).2 →
     c = csr (re_csr body)
     ∧ site_controller_certificate_settings internal_credentials = Some months)
  ∧ (Signed c months ∈ new_events w (renew_certificate uuid renewal w).2 →
     c = csr (cr_csr renewal)
     ∧ site_controller_certificate_settings internal_credentials = Some months).
Proof.
  split.
  - rewrite register_existing_events.
    case_bool_decide; [by intros ?%elem_of_nil|]. cbv zeta.
    assert (Hload : Signed c months ∉ new_events w (_pem_serizialized_site_root_cert w).2).
    { destruct (pem_new_events w) as [-> | ->]; [apply not_elem_of_nil|].
      intros Hin%list_elem_of_singleton. discriminate. }
    destruct ((_pem_serizialized_site_root_cert w).1); [|done].
    intros [Hin|Hin]%elem_of_app; [done|].
    apply elem_of_cons in Hin as [Hin|Hin]; [discriminate|].
    destruct (site_controller_certificate_settings internal_credentials) as [m|];
      [|by apply elem_of_nil in Hin].
    apply elem_of_cons in Hin as [Hin|Hin]; [by injection Hin as -> ->|].
    apply elem_of_cons in Hin as [Hin|Hin]; [discriminate|].
    destruct (site_register credentials (re_uuid body) (re_host_name body));
      [|by apply elem_of_nil in Hin].
    apply list_elem_of_singleton in Hin. discriminate.
  - rewrite renew_certificate_run. case_bool_decide.
    { rewrite new_events_refl. by intros ?%elem_of_nil. }
    destruct (registered_hosts w !! uuid).
    2:{ rewrite (new_events_app w _ [Logged ERROR ("uuid=" +:+ uuid_str uuid +:+
                                                   " Host is not registered")]) by done.
        intros Hin%list_elem_of_singleton. discriminate. }
    destruct (site_controller_certificate_settings internal_credentials) as [m|].
    + rewrite (new_events_app w _
        [Requested (GetControllerCertificateSettings internal_credentials);
         Signed (csr (cr_csr renewal)) m;
         Logged INFO ("uuid=" +:+ uuid_str uuid +:+ " Certificate renewal succeeded")])
        by (simpl; by rewrite <- !app_assoc).
      intros Hin. apply elem_of_cons in Hin as [Hin|Hin]; [discriminate|].
      apply elem_of_cons in Hin as [Hin|Hin]; [by injection Hin as -> ->|].
      apply list_elem_of_singleton in Hin. discriminate.
    + rewrite (new_events_app w _
        [Requested (GetControllerCertificateSettings internal_credentials)]) by done.
      intros Hin%list_elem_of_singleton. discriminate.
Qed.

(** ** Paths *)

Lemma parent_prefix (p : list string) : parent p `prefix_of` p.
Proof.
  destruct (decide (p = [])) as [->|Hp]; [done|].
  destruct (exists_last Hp) as (q & a & ->). fold (path_join q a).
  rewrite parent_join. by exists [a].
Qed.

Lemma parent_length (p : list string) : p ≠ [] → S (length (parent p)) = length p.
Proof.
  intros Hp. destruct (exists_last Hp) as (q & a & ->). fold (path_join q a).
  rewrite parent_join. unfold path_join. rewrite length_app. simpl. lia.
Qed.

Lemma not_prefix_of_parent (p : list string) : p ≠ [] → ¬ p `prefix_of` parent p.
Proof.
  intros Hp Hpre. apply prefix_length in Hpre. apply parent_length in Hp. lia.
Qed.

Lemma join_not_prefix (p : list string) (a : string) : ¬ p // a `prefix_of` p.
Proof.
  intros H. apply prefix_length in H. unfold path_join in H.
  rewrite length_app in H. simpl in H. lia.
Qed.

Lemma r4r_dir_prefix_of_record (s : RegistrationStatusEnum) (uuid : N) :
  r4r_dir `prefix_of` r4r_path s uuid.
Proof. unfold r4r_path, path_join. rewrite <- app_assoc. by eexists. Qed.

Lemma string_app_inj (a a' b b' : string) :
  String.length a = String.length a' → a +:+ b = a' +:+ b' → a = a' ∧ b = b'.
Proof.
  revert a'. induction a as [|c a IH]; intros [|c' a']; simpl; try done.
  intros [= Hlen] [= -> H]. by destruct (IH a' Hlen H) as [-> ->].
Qed.

Lemma hex_digit_inj (n m : N) : hex_digit n = hex_digit m → (n mod 16 = m mod 16)%N.
Proof.
  unfold hex_digit.
  assert (Hn : (n mod 16 < 16)%N) by (apply N.mod_upper_bound; lia).
  assert (Hm : (m mod 16 < 16)%N) by (apply N.mod_upper_bound; lia).
  generalize dependent (n mod 16)%N. generalize dependent (m mod 16)%N.
  intros b Hb a Ha H.
  assert (Hi : N.to_nat a = N.to_nat b); [|lia].
  assert (Ha' : N.to_nat a < 16) by lia. assert (Hb' : N.to_nat b < 16) by lia.
  generalize dependent (N.to_nat a). generalize dependent (N.to_nat b).
  intros j Hj i H Hi.
  do 16 (destruct i as [|i]; [do 16 (destruct j as [|j]; [by simpl in H|]); lia|]). lia.
Qed.

Lemma hex_inj (width : nat) (n m : N) :
  hex width n = hex width m → (n mod 16 ^ N.of_nat width = m mod 16 ^ N.of_nat width)%N.
Proof.
  revert n m. induction width as [|k IH]; intros n m.
  - intros _. simpl. by rewrite !N.mod_1_r.
  - simpl hex. intros [Hhigh [= Hlow]]%string_app_inj; [|by rewrite !hex_length].
    apply IH in Hhigh. apply hex_digit_inj in Hlow.
    rewrite Nat2N.inj_succ, N.pow_succ_r'.
    rewrite !N.Div0.mod_mul_r. by rewrite Hhigh, Hlow.
Qed.

Lemma mod_glue (x y p q : N) :
  (x mod p = y mod p → (x / p) mod q = (y / p) mod q → x mod (p * q) = y mod (p * q))%N.
Proof. intros H1 H2. rewrite !N.Div0.mod_mul_r. by rewrite H1, H2. Qed.

(** [str(uuid)] tells 128-bit identities apart. *)
Lemma uuid_str_inj (a b : N) :
  (a < 2 ^ 128)%N → (b < 2 ^ 128)%N → uuid_str a = uuid_str b → a = b.
Proof.
  intros Ha Hb. unfold uuid_str.
  intros [H1 H]%string_app_inj; [|by rewrite !hex_length].
  apply string_app_inj in H as [_ H]; [|done].
  apply string_app_inj in H as [H2 H]; [|by rewrite !hex_length].
  apply string_app_inj in H as [_ H]; [|done].
  apply string_app_inj in H as [H3 H]; [|by rewrite !hex_length].
  apply string_app_inj in H as [_ H]; [|done].
  apply string_app_inj in H as [H4 H]; [|by rewrite !hex_length].
  apply string_app_inj in H as [_ H5]; [|done].
  apply hex_inj in H1, H2, H3, H4, H5.
  pose proof (mod_glue a b (16 ^ 12) (16 ^ 4) H5 H4) as H16.
  pose proof (mod_glue a b (16 ^ 16) (16 ^ 4) H16 H3) as H20.
  pose proof (mod_glue a b (16 ^ 20) (16 ^ 4) H20 H2) as H24.
  pose proof (mod_glue a b (16 ^ 24) (16 ^ 8) H24 H1) as H32.
  change (16 ^ 24 * 16 ^ 8)%N with (2 ^ 128)%N in H32.
  by rewrite !N.mod_small in H32.
Qed.

(** ** Storing the agent data *)

Lemma os_mkdir_frame (p : list string) (f f' : FileSystem) (r : Result unit) :
  os_mkdir p f = (r, f') → ∀ q, q ≠ p → lookup_node f' q = lookup_node f q.
Proof.
  unfold os_mkdir.
  destruct (lookup_node f (parent p)) as [[|ino]|]; try (intros [= <- <-]; done).
  destruct (exists_ f p) eqn:Hex; intros [= <- <-]; [done|].
  intros q Hq. destruct f as [m i]; simpl in *.
  destruct (decide (p = [])) as [->|Hp]; [done|].
  rewrite lookup_node_insert by done. by rewrite decide_False.
Qed.

(** [mkdir] touches nothing but the path and its ancestors. *)
Lemma Path_mkdir_rec_frame (fuel : nat) (parents exist_ok : bool) (p : list string)
    (f f' : FileSystem) (r : Result unit) :
  Path_mkdir_rec fuel parents exist_ok p f = (r, f') →
  ∀ q, ¬ q `prefix_of` p → lookup_node f' q = lookup_node f q.
Proof.
  revert parents exist_ok p f f' r.
  induction fuel as [|fuel IH]; intros parents exist_ok p f f' r; simpl.
  - destruct (os_mkdir p f) as [[[]|e] f1] eqn:Hos.
    + intros [= <- <-] q Hq. eapply os_mkdir_frame; [done|]. by intros ->.
    + destruct e; repeat case_match; intros [= <- <-]; done.
  - destruct (os_mkdir p f) as [[[]|e] f1] eqn:Hos.
    + intros [= <- <-] q Hq. eapply os_mkdir_frame; [done|]. by intros ->.
    + destruct e; try (repeat case_match; intros [= <- <-]; done).
      destruct (negb parents || bool_decide (parent p = p)); [intros [= <- <-]; done|].
      destruct (Path_mkdir_rec fuel true true (parent p) f) as [[[]|e] f2] eqn:Hrec.
      * intros Hlast q Hq.
        rewrite (IH _ _ _ _ _ _ Hlast q Hq).
        apply (IH _ _ _ _ _ _ Hrec). intros Hqp. apply Hq.
        etrans; [done|apply parent_prefix].
      * intros [= <- <-] q Hq. apply (IH _ _ _ _ _ _ Hrec).
        intros Hqp. apply Hq. etrans; [done|apply parent_prefix].
Qed.

Lemma Path_mkdir_rec_noparents (fuel : nat) (p : list string) (f : FileSystem) :
  Path_mkdir_rec fuel false true p f = Path_mkdir false true p f.
Proof.
  unfold Path_mkdir.
  destruct fuel, (length p); simpl; destruct (os_mkdir p f) as [[[]|[]] ?]; done.
Qed.

Lemma missing_error_no_file (fuel : nat) (p : list string) (f : FileSystem) :
  (∀ q ino, q `prefix_of` p → lookup_node f q ≠ Some (File ino)) →
  missing_error fuel p f = FileNotFoundError.
Proof.
  revert p. induction fuel as [|fuel IH]; intros p Hfree; simpl; [done|].
  destruct (lookup_node f (parent p)) as [[|ino]|] eqn:Hparent; [done| |].
  - by destruct (Hfree (parent p) ino (parent_prefix p)).
  - apply IH. intros q ino Hq. apply Hfree. etrans; [done|apply parent_prefix].
Qed.

(** [mkdir(parents=True, exist_ok=True)] returns, with the path a
    directory, when no regular file is in the way. *)
Lemma Path_mkdir_rec_parents_ok (fuel : nat) (p : list string) (f : FileSystem) :
  length p ≤ fuel →
  (∀ q ino, q `prefix_of` p → lookup_node f q ≠ Some (File ino)) →
  ∃ f', Path_mkdir_rec fuel true true p f = (Ok tt, f') ∧ lookup_node f' p = Some Dir.
Proof.
  revert p f. induction fuel as [|fuel IH]; intros p f Hlen Hfree.
  - destruct p; [|simpl in Hlen; lia]. by exists f.
  - destruct (decide (p = [])) as [->|Hp]; [by exists f|].
    assert (Hpp : parent p ≠ p).
    { intros H. apply parent_length in Hp. rewrite H in Hp. lia. }
    cbn [Path_mkdir_rec]. unfold os_mkdir, exists_.
    destruct (lookup_node f (parent p)) as [[|ino]|] eqn:Hparent.
    + destruct (lookup_node f p) as [[|ino]|] eqn:Hself.
      * unfold is_dir. rewrite Hself. simpl. by exists f.
      * by destruct (Hfree p ino).
      * eexists. split; [done|]. destruct f as [m i]; simpl.
        rewrite lookup_node_insert by done. by rewrite decide_True.
    + by destruct (Hfree (parent p) ino (parent_prefix p)).
    + rewrite (missing_error_no_file _ (parent p))
        by (intros q ino Hq; apply Hfree; etrans; [done|apply parent_prefix]).
      simpl. rewrite bool_decide_eq_false_2 by done.
      destruct (IH (parent p) f) as (f1 & Hrec & Hdir).
      { apply parent_length in Hp. lia. }
      { intros q ino Hq. apply Hfree. etrans; [done|apply parent_prefix]. }
      rewrite Hrec, Path_mkdir_rec_noparents, Path_mkdir_plain, Hdir.
      rewrite (Path_mkdir_rec_frame _ _ _ _ _ _ _ Hrec p (not_prefix_of_parent p Hp)).
      destruct (lookup_node f p) as [[|ino]|] eqn:Hself.
      * exists f1. split; [done|].
        by rewrite (Path_mkdir_rec_frame _ _ _ _ _ _ _ Hrec p (not_prefix_of_parent p Hp)).
      * by destruct (Hfree p ino).
      * eexists. split; [done|]. destruct f1 as [m i]; simpl.
        rewrite lookup_node_insert by done. by rewrite decide_True.
Qed.

Lemma mkstemp_inner_succeeds (dir : list string) (names : list string) (f : FileSystem) :
  lookup_node f dir = Some Dir →
  (∃ n, n ∈ names ∧ lookup_node f (dir // ("tmp" +:+ n)) = None) →
  ∃ tf rest f', mkstemp_inner dir names f = (Ok tf, rest, f').
Proof.
  intros Hdir (n & Hin & Hfree).
  induction names as [|n' names IH]; [by apply elem_of_nil in Hin|].
  simpl. rewrite Hdir. unfold exists_.
  destruct (lookup_node f (dir // ("tmp" +:+ n'))) as [node|] eqn:Hnode.
  - apply IH. apply elem_of_cons in Hin as [->|Hin]; [congruence|done].
  - by eexists _, _, _.
Qed.

(** [_store_agent_data] returns when nothing is in its way. *)
Lemma store_agent_data_total (dir : list string) (data : list Byte.byte) (w : World) :
  (∀ q ino, q `prefix_of` dir → lookup_node (fs w) q ≠ Some (File ino)) →
  is_dir (fs w) (dir // "agent_output") = false →
  (∃ n, n ∈ tmp_names w ∧ lookup_node (fs w) (dir // ("tmp" +:+ n)) = None) →
  ∃ w', _store_agent_data dir data w = (Ok tt, w') ∧ is_dir (fs w') dir = true.
Proof.
  intros Hfree Hfinal (n & Hn & Hname).
  destruct (Path_mkdir_rec_parents_ok (length dir) dir (fs w)) as (f0 & Hmk & Hdir);
    [done|done|].
  pose proof (Path_mkdir_rec_frame _ _ _ _ _ _ _ Hmk) as Hframe.
  destruct (mkstemp_inner_succeeds dir (tmp_names w) f0) as (tf & rest & f1 & Hmks).
  { done. }
  { exists n. split; [done|]. by rewrite Hframe by apply join_not_prefix. }
  assert (Hopen : ∃ w1, NamedTemporaryFile dir (set_fs f0 w) = (Ok tf, w1)).
  { unfold NamedTemporaryFile. cbn [fs set_fs tmp_names]. rewrite Hmks. by eexists. }
  destruct Hopen as (w1 & Hopen).
  pose proof (NamedTemporaryFile_ok _ _ _ _ Hopen) as ([n' Htf] & _ & _ & _ & Hfs1 & _).
  cbn [fs set_fs] in Hfs1.
  assert (Htmp : tf_name tf ≠ dir // "agent_output")
    by (rewrite Htf; apply tmp_ne_agent_output).
  assert (Htmp0 : tf_name tf ≠ []) by (rewrite Htf; apply join_ne_nil).
  assert (Hdirne : tf_name tf ≠ dir) by (rewrite Htf; apply join_ne_self).
  destruct (file_write_spec tf data w1) as (w2 & Hwrite & Hn2 & _ & _).
  assert (Hrename : os_rename (tf_name tf) (dir // "agent_output") (fs w2) =
    (Ok tt, {| nodes := <[dir // "agent_output" := File (tf_ino tf)]>
                          (delete (tf_name tf) (nodes (fs w2)));
               inodes := inodes (fs w2) |})).
  { unfold os_rename, is_dir. rewrite parent_join.
    rewrite !(lookup_node_ext (fs w2) (fs w1)) by done.
    rewrite Hfs1. rewrite !lookup_node_insert by done.
    rewrite decide_True by done. rewrite !decide_False by done.
    rewrite (lookup_node_ext {| nodes := nodes f0; inodes := <[tf_ino tf := []]> (inodes f0) |}
               f0 dir) by done.
    rewrite (lookup_node_ext {| nodes := nodes f0; inodes := <[tf_ino tf := []]> (inodes f0) |}
               f0 (dir // "agent_output")) by done.
    rewrite Hdir.
    rewrite Hframe by apply join_not_prefix.
    unfold is_dir in Hfinal. by destruct (lookup_node (fs w) (dir // "agent_output")) as [[]|]. }
  assert (Hrun : ∃ w', _store_agent_data dir data w = (Ok tt, w')
                       ∧ nodes (fs w') = <[dir // "agent_output" := File (tf_ino tf)]>
                                           (delete (tf_name tf) (nodes (fs w2)))).
  { unfold _store_agent_data, with_NamedTemporaryFile, mbind, M_bind, try_finally.
    unfold lift_fs at 1. unfold Path_mkdir. rewrite Hmk, Hopen, Hwrite.
    unfold lift_fs. rewrite Hrename.
    cbn [fs set_fs]. rewrite Path_unlink_missing.
    2:{ rewrite lookup_node_insert by apply join_ne_nil.
        rewrite decide_False by done.
        rewrite lookup_node_delete by done. by rewrite decide_True. }
    2:{ replace (parent (tf_name tf)) with dir by (by rewrite Htf, parent_join).
        rewrite lookup_node_insert by apply join_ne_nil.
        rewrite decide_False by apply join_ne_self.
        rewrite lookup_node_delete by done. rewrite decide_False by done.
        rewrite fs_eta, (lookup_node_ext (fs w2) (fs w1)), Hfs1 by done.
        rewrite lookup_node_insert by done. rewrite decide_False by done.
        by rewrite (lookup_node_ext _ f0). }
    unfold file_close. eexists. split; [reflexivity|]. done. }
  destruct Hrun as (w' & Hrun & Hnodes). exists w'. split; [done|].
  unfold is_dir.
  destruct (decide (dir = [])) as [->|Hd]; [done|].
  rewrite lookup_node_nonroot, Hnodes by done.
  rewrite lookup_insert_ne by (intros H; by apply (join_ne_self dir "agent_output")).
  rewrite lookup_delete_ne by done. rewrite Hn2, Hfs1. cbn [nodes].
  rewrite lookup_insert_ne by done.
  by rewrite <- lookup_node_nonroot, Hdir.
Qed.

(** Outside the target directory, its ancestors and the final path, a
    stored payload changes no name. *)
Lemma store_agent_data_outside (dir : list string) (data : list Byte.byte) (w w' : World) :
  _store_agent_data dir data w = (Ok tt, w') →
  ∀ q, ¬ q `prefix_of` dir → q ≠ dir // "agent_output" →
       lookup_node (fs w') q = lookup_node (fs w) q.
Proof.
  unfold _store_agent_data. intros H q Hpre Hq.
  apply bind_ok in H as ([] & w0 & Hmkdir & H).
  apply lift_fs_inv in Hmkdir as (f0 & Hmkdir & ->).
  rewrite <- (Path_mkdir_rec_frame _ _ _ _ _ _ _ Hmkdir q Hpre).
  unfold with_NamedTemporaryFile in H.
  apply bind_ok in H as (tf & w1 & Hopen & H).
  apply NamedTemporaryFile_ok in Hopen as ([n Hname] & Hfree & Hdir & Hino & Hfs1 & Hbuf1).
  cbn [fs set_fs] in Hfree, Hdir, Hino, Hfs1.
  apply try_finally_ok in H as (w4 & H & Hclose).
  apply try_finally_ok in H as (w3 & H & Hunlink).
  apply bind_ok in H as ([] & w2 & Hwrite & Hrename).
  destruct (file_write_spec tf data w1) as (w2' & Hw & Hn2 & _).
  rewrite Hwrite in Hw. injection Hw as <-.
  apply lift_fs_inv in Hrename as (f3 & Hrename & ->).
  apply os_rename_ok in Hrename as (ino & Hsrc & _ & _ & ->).
  assert (Htmp : tf_name tf ≠ dir // "agent_output")
    by (rewrite Hname; apply tmp_ne_agent_output).
  assert (Htmp0 : tf_name tf ≠ []) by (rewrite Hname; apply join_ne_nil).
  apply lift_fs_inv in Hunlink as (f4 & Hunlink & ->).
  cbn [fs set_fs] in Hunlink.
  apply Path_unlink_returned in Hunlink as ->.
  2:{ rewrite lookup_node_insert by apply join_ne_nil.
      rewrite decide_False by done.
      rewrite lookup_node_delete by done. by rewrite decide_True. }
  unfold file_close in Hclose. injection Hclose as <-.
  destruct (decide (q = [])) as [->|Hq0]; [done|].
  rewrite !lookup_node_nonroot by done. cbn [fs set_fs set_buffers raw_write nodes].
  rewrite Hn2, Hfs1. simpl.
  rewrite lookup_insert_ne by done.
  destruct (decide (tf_name tf = q)) as [<-|Hne].
  - rewrite lookup_delete_eq. symmetry. by rewrite <- lookup_node_nonroot.
  - rewrite lookup_delete_ne by done. by rewrite lookup_insert_ne.
Qed.

(** [_store_agent_data] works on the file system and the temporary files
    only. *)
Lemma store_agent_data_silent (dir : list string) (data : list Byte.byte) (w : World) :
  let w' := (_store_agent_data dir data w).2 in
  trace w' = trace w ∧ registered_hosts w' = registered_hosts w
  ∧ pem_cache w' = pem_cache w ∧ root_cert_on_disk w' = root_cert_on_disk w.
Proof.
  cbv zeta.
  unfold _store_agent_data, with_NamedTemporaryFile, try_finally, NamedTemporaryFile,
    file_write, file_close, lift_fs, mbind, M_bind.
  repeat case_match; simplify_eq; simpl; done.
Qed.

(** X8.  [_store_agent_data] does its work whenever nothing is in its
    way: when no ancestor of the target directory (nor the directory
    itself) is a regular file, the final path is not a directory, and one
    of the candidate names for the temporary file is free, the call
    returns; the target directory exists afterwards, created with its
    missing ancestors where needed, the final path reads as the payload,
    and the temporary file is gone: no name in the target directory other
    than the final path is a file that was not there before. *)
Theorem store_agent_data_returns (dir : list string) (data : list Byte.byte) (w : World) :
  (∀ q ino, q `prefix_of` dir → lookup_node (fs w) q ≠ Some (File ino)) →
  is_dir (fs w) (dir // "agent_output") = false →
  (∃ n, n ∈ tmp_names w ∧ lookup_node (fs w) (dir // ("tmp" +:+ n)) = None) →
  ∃ w', _store_agent_data dir data w = (Ok tt, w')
        ∧ is_dir (fs w') dir = true
        ∧ read_bytes (fs w') (dir // "agent_output") = Some data
        ∧ ∀ name ino, name ≠ "agent_output" →
            lookup_node (fs w') (dir // name) = Some (File ino) →
            lookup_node (fs w) (dir // name) = Some (File ino).
Proof.
  intros Hfree Hfinal Htmp.
  destruct (store_agent_data_total dir data w Hfree Hfinal Htmp) as (w' & Hrun & Hdir).
  exists w'. split; [done|]. split; [done|].
  pose proof (store_agent_data_outside _ _ _ _ Hrun) as Hframe.
  apply store_agent_data_ok in Hrun as (ino & _ & Hout & Hbytes & _). split.
  - unfold read_bytes. by rewrite Hout.
  - intros name i Hname. rewrite Hframe; [done|apply join_not_prefix|].
    intros [_ H]%join_inj. done.
Qed.

(** X9.  What a [_store_agent_data] that returns leaves alone: apart from
    the final path, every name that is a file afterwards was the same file
    before, and every file that could be read before reads the same
    afterwards. *)
Theorem store_agent_data_leaves_the_rest (dir : list string) (data : list Byte.byte)
    (w w' : World) :
  _store_agent_data dir data w = (Ok tt, w') →
  (∀ q ino, q ≠ dir // "agent_output" →
     lookup_node (fs w') q = Some (File ino) → lookup_node (fs w) q = Some (File ino))
  ∧ (∀ q content, q ≠ dir // "agent_output" →
       read_bytes (fs w) q = Some content → read_bytes (fs w') q = Some content).
Proof.
  intros (ino & Hino & _ & _ & Hi & Hn)%store_agent_data_ok. split.
  - intros q i Hq Hfile. destruct (Hn q Hq) as [Heq|[_ Hdir]]; congruence.
  - intros q content Hq. unfold read_bytes.
    destruct (lookup_node (fs w) q) as [[|i]|] eqn:Hnode; try done.
    intros Hcontent. destruct (Hn q Hq) as [->|[Hnone _]]; [|congruence].
    rewrite Hnode, Hi; [done|]. intros ->. apply Hino, elem_of_dom. by eexists.
Qed.

(** ** Promotion of a request record *)

(** What a promotion can change in the model, where no directory is ever
    moved, whether it returns or raises: the two names of the record and
    the DISCOVERABLE directory, and no content. *)
Lemma move_ready_file_frame (uuid : N) (w : World) :
  let w' := (_move_ready_file uuid w).2 in
  w' = set_fs (fs w') w
  ∧ inodes (fs w') = inodes (fs w)
  ∧ ∀ q, q ≠ r4r_path READY uuid → q ≠ r4r_path DISCOVERABLE uuid →
         q ≠ r4r_dir // "DISCOVERABLE" →
         lookup_node (fs w') q = lookup_node (fs w) q.
Proof.
  cbv zeta. rewrite move_ready_file_run.
  destruct (Path_mkdir false true (r4r_dir // "DISCOVERABLE") (fs w)) as [[[]|e] f1] eqn:Hmk.
  2:{ apply Path_mkdir_raise in Hmk as ->. cbn [fst snd]. by rewrite !set_fs_id. }
  assert (Hf1 : inodes f1 = inodes (fs w)
                ∧ ∀ q, q ≠ r4r_dir // "DISCOVERABLE" → lookup_node f1 q = lookup_node (fs w) q).
  { apply Path_mkdir_ok in Hmk as (_ & Hmk); [|apply join_ne_nil].
    destruct Hmk as [->|(_ & _ & ->)]; [done|].
    split; [done|]. intros q Hq. destruct (fs w) as [m i]; simpl.
    rewrite lookup_node_insert by apply join_ne_nil. by rewrite decide_False. }
  destruct Hf1 as [Hi1 Hn1].
  destruct (os_rename (r4r_path READY uuid) (r4r_path DISCOVERABLE uuid) f1)
    as [[[]|e] f2] eqn:Hrn.
  - apply os_rename_ok in Hrn as (ino & _ & _ & _ & ->). cbn [fst snd fs set_fs inodes].
    split; [done|]. split; [done|]. intros q Hq1 Hq2 Hq3.
    rewrite lookup_node_insert by apply r4r_path_ne_nil. rewrite decide_False by done.
    rewrite lookup_node_delete by apply r4r_path_ne_nil. rewrite decide_False by done.
    rewrite fs_eta. by apply Hn1.
  - apply os_rename_raise in Hrn as ->.
    destruct e; cbn [fst snd fs set_fs]; (split; [done|]); (split; [done|]);
      intros q _ _ Hq; by apply Hn1.
Qed.

(** A promotion returns when the r4r directory is there and no name is
    taken by a node of the wrong kind. *)
Lemma move_ready_file_returns (uuid : N) (w : World) :
  is_dir (fs w) r4r_dir = true →
  is_file (fs w) (r4r_dir // "DISCOVERABLE") = false →
  is_file (fs w) (r4r_dir // "READY") = false →
  is_dir (fs w) (r4r_path READY uuid) = false →
  is_dir (fs w) (r4r_path DISCOVERABLE uuid) = false →
  ∃ w', _move_ready_file uuid w = (Ok tt, w').
Proof.
  intros Hr4r Hbucket Hsource Hready Hdst.
  assert (Hmk : ∃ f1, Path_mkdir false true (r4r_dir // "DISCOVERABLE") (fs w) = (Ok tt, f1)
                 ∧ lookup_node f1 (r4r_dir // "DISCOVERABLE") = Some Dir
                 ∧ ∀ q, q ≠ r4r_dir // "DISCOVERABLE" →
                        lookup_node f1 q = lookup_node (fs w) q).
  { rewrite Path_mkdir_plain, parent_join. unfold is_dir, is_file in *.
    destruct (lookup_node (fs w) r4r_dir) as [[|i]|]; try done.
    destruct (lookup_node (fs w) (r4r_dir // "DISCOVERABLE")) as [[|i]|] eqn:Hb; try done.
    - by exists (fs w).
    - eexists. split; [done|]. destruct (fs w) as [m i]; simpl.
      rewrite lookup_node_insert by apply join_ne_nil. rewrite decide_True by done.
      split; [done|]. intros q Hq.
      rewrite lookup_node_insert by apply join_ne_nil. by rewrite decide_False. }
  destruct Hmk as (f1 & Hmk & Hdir & Hn1).
  rewrite move_ready_file_run, Hmk.
  destruct (lookup_node (fs w) (r4r_path READY uuid)) as [[|ino]|] eqn:Hrec.
  { unfold is_dir in Hready. by rewrite Hrec in Hready. }
  2:{ rewrite os_rename_missing_error
        by (by rewrite Hn1 by apply (r4r_path_ne_bucket _ DISCOVERABLE)).
      rewrite missing_error_record.
      2:{ rewrite Hn1 by apply not_eq_sym, join_ne_self.
          unfold is_dir in Hr4r. by destruct (lookup_node (fs w) r4r_dir) as [[|i]|]. }
      unfold is_file in *. rewrite Hn1 by (by intros [_ [=]]%join_inj).
      destruct (lookup_node (fs w) (r4r_dir // "READY")) as [[|i]|]; try done; by eexists. }
  unfold os_rename. rewrite Hn1 by apply (r4r_path_ne_bucket _ DISCOVERABLE).
  rewrite Hrec. unfold is_dir in *.
  unfold r4r_path at 1. rewrite parent_join.
  change (status_name DISCOVERABLE) with "DISCOVERABLE". rewrite Hdir.
  fold (r4r_path DISCOVERABLE uuid).
  rewrite Hn1 by apply (r4r_path_ne_bucket _ DISCOVERABLE).
  destruct (lookup_node (fs w) (r4r_path DISCOVERABLE uuid)) as [[|i]|]; try done;
    by eexists.
Qed.


(** X11.  The footprint of [_move_ready_file] for a uuid whose name in
    READY is no directory, whether the call returns or raises: nothing of
    the world changes but the file system; no content changes; every name
    other than the two paths of the record and the DISCOVERABLE directory
    is what it was and reads as it did; and the DISCOVERABLE directory is
    what it was, or is a new directory where there was nothing. *)
Theorem move_ready_file_touches_only_the_record (uuid : N) (w : World) :
  is_dir (fs w) (r4r_path READY uuid) = false →
  let w' := (_move_ready_file uuid w).2 in
  w' = set_fs (fs w') w
  ∧ inodes (fs w') = inodes (fs w)
  ∧ (∀ q, q ≠ r4r_path READY uuid → q ≠ r4r_path DISCOVERABLE uuid →
          q ≠ r4r_dir // "DISCOVERABLE" →
          lookup_node (fs w') q = lookup_node (fs w) q
          ∧ read_bytes (fs w') q = read_bytes (fs w) q)
  ∧ (lookup_node (fs w') (r4r_dir // "DISCOVERABLE") = lookup_node (fs w) (r4r_dir // "DISCOVERABLE")
     ∨ (lookup_node (fs w) (r4r_dir // "DISCOVERABLE") = None
        ∧ lookup_node (fs w') (r4r_dir // "DISCOVERABLE") = Some Dir)).
Proof.
  intros _ w'.
  destruct (move_ready_file_frame uuid w) as (Hw & Hi & Hn). fold w' in Hw, Hi, Hn.
  split; [done|]. split; [done|]. split.
  - intros q H1 H2 H3. split; [by apply Hn|]. unfold read_bytes. by rewrite Hn, Hi.
  - subst w'. rewrite move_ready_file_run.
    destruct (Path_mkdir false true (r4r_dir // "DISCOVERABLE") (fs w)) as [[[]|e] f1] eqn:Hmk.
    2:{ apply Path_mkdir_raise in Hmk as ->. by left. }
    assert (Hf1 : lookup_node f1 (r4r_dir // "DISCOVERABLE")
                    = lookup_node (fs w) (r4r_dir // "DISCOVERABLE")
                  ∨ (lookup_node (fs w) (r4r_dir // "DISCOVERABLE") = None
                     ∧ lookup_node f1 (r4r_dir // "DISCOVERABLE") = Some Dir)).
    { apply Path_mkdir_ok in Hmk as (Hd & Hmk); [|apply join_ne_nil].
      destruct Hmk as [->|(Hnone & _ & ->)]; [by left|by right]. }
    destruct (os_rename (r4r_path READY uuid) (r4r_path DISCOVERABLE uuid) f1)
      as [[[]|e] f2] eqn:Hrn.
    + apply os_rename_ok in Hrn as (ino & _ & _ & _ & ->). cbn [fst snd fs set_fs].
      rewrite lookup_node_insert by apply r4r_path_ne_nil.
      rewrite decide_False by apply (r4r_path_ne_bucket _ DISCOVERABLE).
      rewrite lookup_node_delete by apply r4r_path_ne_nil.
      rewrite decide_False by apply (r4r_path_ne_bucket _ DISCOVERABLE).
      by rewrite fs_eta.
    + apply os_rename_raise in Hrn as ->. by destruct e.
Qed.

(** X12.  Agents do not share records: for two different 128-bit uuids,
    promoting the record of one leaves the record of the other, in every
    bucket, where it was and as it was, whether the promotion returns or
    raises. *)
Theorem move_ready_file_leaves_other_agents (uuid other : N) (w : World) :
  (uuid < 2 ^ 128)%N → (other < 2 ^ 128)%N → other ≠ uuid →
  let w' := (_move_ready_file uuid w).2 in
  ∀ status,
    lookup_node (fs w') (r4r_path status other) = lookup_node (fs w) (r4r_path status other)
    ∧ read_bytes (fs w') (r4r_path status other) = read_bytes (fs w) (r4r_path status other).
Proof.
  intros Hu Ho Hne w' status.
  destruct (move_ready_file_frame uuid w) as (_ & Hi & Hn). fold w' in Hi, Hn.
  assert (Hpath : ∀ s, r4r_path status other ≠ r4r_path s uuid).
  { intros s. unfold r4r_path. intros [_ H]%join_inj.
    apply string_app_inj in H as [H _]; [|by rewrite !uuid_str_length].
    by apply uuid_str_inj in H. }
  unfold read_bytes. rewrite Hi, Hn; [done|apply Hpath|apply Hpath|].
  apply (r4r_path_ne_bucket _ DISCOVERABLE).
Qed.

(** ** agent_data *)

(** X13.  [agent_data] accepts the data of a push host on a prepared site:
    when the uuid is registered as a push host, the codec is known and
    decompresses the body, nothing is in the way of storing (no regular
    file among the ancestors of the host directory, the final path not a
    directory, a free temporary name), the host directory is not inside the
    r4r directory, the r4r directory exists, the names DISCOVERABLE and
    READY in it are not regular files and the names of the record in READY
    and DISCOVERABLE are not directories, the call returns 204, the final
    path reads as the decompressed data, and the one event of the call is
    the log line that the data was saved. *)
Theorem agent_data_accepts (w : World) (uuid : N) (compression : string)
    (monitoring_data : list Byte.byte) (host : RegisteredHost)
    (decompressor : Decompressor) (decompressed : list Byte.byte) :
  registered_hosts w !! uuid = Some host →
  connection_mode host = PUSH →
  Decompressor_of_name compression = Some decompressor →
  decompress decompressor monitoring_data = inr decompressed →
  (∀ q ino, q `prefix_of` source_path host → lookup_node (fs w) q ≠ Some (File ino)) →
  is_dir (fs w) (source_path host // "agent_output") = false →
  (∃ n, n ∈ tmp_names w ∧ lookup_node (fs w) (source_path host // ("tmp" +:+ n)) = None) →
  ¬ r4r_dir `prefix_of` source_path host →
  is_dir (fs w) r4r_dir = true →
  is_file (fs w) (r4r_dir // "DISCOVERABLE") = false →
  is_file (fs w) (r4r_dir // "READY") = false →
  is_dir (fs w) (r4r_path READY uuid) = false →
  is_dir (fs w) (r4r_path DISCOVERABLE uuid) = false →
  ∃ w', agent_data uuid compression monitoring_data w = (Ok {| status_code := 204 |}, w')
        ∧ read_bytes (fs w') (source_path host // "agent_output") = Some decompressed
        ∧ new_events w w' = [Logged INFO ("uuid=" +:+ uuid_str uuid +:+ " Agent data saved")].
Proof.
  intros Hreg Hmode Hcodec Hdata Hfree Hfinal Htmp Hout Hr4r Hbucket Hsource Hready Hdisc.
  destruct (store_agent_data_total (source_path host) decompressed w Hfree Hfinal Htmp)
    as (w1 & Hstore & _).
  pose proof (store_agent_data_outside _ _ _ _ Hstore) as Hframe.
  destruct (store_agent_data_silent (source_path host) decompressed w) as (Ht & _).
  rewrite Hstore in Ht. cbn [snd] in Ht.
  assert (Hrec : ∀ s, lookup_node (fs w1) (r4r_path s uuid) = lookup_node (fs w) (r4r_path s uuid)).
  { intros s. apply Hframe; [|symmetry; apply agent_output_ne_record].
    intros Hpre. apply Hout. etrans; [apply r4r_dir_prefix_of_record|done]. }
  destruct (move_ready_file_returns uuid w1) as (w2 & Hmove).
  { unfold is_dir in *. rewrite Hframe; [done| |].
    - intros Hpre. by apply Hout.
    - intros Heq. rewrite Heq in Hr4r. congruence. }
  { unfold is_file in *. rewrite Hframe; [done| |].
    - intros Hpre. apply Hout. etrans; [|done]. by exists ["DISCOVERABLE"].
    - symmetry. apply (agent_output_ne_bucket _ DISCOVERABLE). }
  { unfold is_file in *. rewrite Hframe; [done| |].
    - intros Hpre. apply Hout. etrans; [|done]. by exists ["READY"].
    - symmetry. apply (agent_output_ne_bucket _ READY). }
  { unfold is_dir in *. by rewrite Hrec. }
  { unfold is_dir in *. by rewrite Hrec. }
  destruct (move_ready_file_frame uuid w1) as (Hw2 & Hi & Hn).
  rewrite Hmove in Hw2, Hi, Hn. cbn [snd] in Hw2, Hi, Hn.
  eexists. rewrite agent_data_run, Hreg, Hmode, Hcodec, Hdata.
  rewrite bind_run, Hstore, bind_run, Hmove. split; [reflexivity|]. split.
  - apply store_agent_data_ok in Hstore as (ino & _ & Hnode & Hbytes & _).
    unfold read_bytes. cbn [fs emit]. rewrite Hn, Hnode, Hi; [done| | |].
    + apply agent_output_ne_record.
    + apply agent_output_ne_record.
    + apply (agent_output_ne_bucket _ DISCOVERABLE).
  - apply new_events_app. rewrite Hw2. simpl. by rewrite Ht.
Qed.

(** X14.  [agent_data] stores before it promotes and does not undo: when
    the data has been stored and the promotion of the record raises, the
    call raises the same exception, without a log line of its own, and the
    final path reads as the decompressed data all the same. *)
Theorem agent_data_keeps_payload_when_promotion_fails (w w1 w2 : World) (uuid : N)
    (compression : string) (monitoring_data : list Byte.byte) (host : RegisteredHost)
    (decompressor : Decompressor) (decompressed : list Byte.byte) (e : Exn) :
  registered_hosts w !! uuid = Some host →
  connection_mode host = PUSH →
  Decompressor_of_name compression = Some decompressor →
  decompress decompressor monitoring_data = inr decompressed →
  _store_agent_data (source_path host) decompressed w = (Ok tt, w1) →
  _move_ready_file uuid w1 = (Raise e, w2) →
  agent_data uuid compression monitoring_data w = (Raise e, w2)
  ∧ read_bytes (fs w2) (source_path host // "agent_output") = Some decompressed.
Proof.
  intros Hreg Hmode Hcodec Hdata Hstore Hmove.
  rewrite agent_data_run, Hreg, Hmode, Hcodec, Hdata. split.
  - unfold mbind at 1, M_bind at 1. rewrite Hstore.
    unfold mbind at 1, M_bind at 1. by rewrite Hmove.
  - apply store_agent_data_ok in Hstore as (ino & _ & Hout & Hbytes & _).
    destruct (move_ready_file_frame uuid w1) as (_ & Hi & Hn).
    rewrite Hmove in Hi, Hn. cbn [snd] in Hi, Hn.
    unfold read_bytes. rewrite Hn, Hout, Hi; [done| | |].
    + apply agent_output_ne_record.
    + apply agent_output_ne_record.
    + apply (agent_output_ne_bucket _ DISCOVERABLE).
Qed.

(** What [agent_data] does besides the file system: at most one log
    line. *)
Lemma agent_data_effect (uuid : N) (compression : string)
    (monitoring_data : list Byte.byte) (w : World) :
  let w' := (agent_data uuid compression monitoring_data w).2 in
  registered_hosts w' = registered_hosts w
  ∧ pem_cache w' = pem_cache w
  ∧ root_cert_on_disk w' = root_cert_on_disk w
  ∧ (trace w' = trace w ∨ ∃ level msg, trace w' = trace w ++ [Logged level msg]).
Proof.
  cbv zeta. rewrite agent_data_run.
  assert (Hlog : ∀ lv msg,
    registered_hosts (emit (Logged lv msg) w) = registered_hosts w
    ∧ pem_cache (emit (Logged lv msg) w) = pem_cache w
    ∧ root_cert_on_disk (emit (Logged lv msg) w) = root_cert_on_disk w
    ∧ (trace (emit (Logged lv msg) w) = trace w
       ∨ ∃ level m, trace (emit (Logged lv msg) w) = trace w ++ [Logged level m])).
  { intros lv msg. repeat (split; [done|]). right. by exists lv, msg. }
  destruct (registered_hosts w !! uuid) as [host|]; [|apply Hlog].
  destruct (connection_mode host); [apply Hlog|].
  destruct (Decompressor_of_name compression) as [d|]; [|apply Hlog].
  destruct (decompress d monitoring_data) as [msg|data]; [apply Hlog|].
  destruct (store_agent_data_silent (source_path host) data w) as (Ht & Hr & Hp & Hc).
  rewrite bind_run.
  destruct (_store_agent_data (source_path host) data w) as [[[]|e] w1]; cbn [snd] in *.
  2:{ rewrite Hr, Hp, Hc, Ht. repeat (split; [done|]). by left. }
  destruct (move_ready_file_frame uuid w1) as (Hw2 & _).
  rewrite bind_run.
  destruct (_move_ready_file uuid w1) as [[[]|e] w2]; cbn [snd] in *; rewrite Hw2; simpl.
  - rewrite Hr, Hp, Hc, Ht. repeat (split; [done|]). right. by eexists _, _.
  - rewrite Hr, Hp, Hc, Ht. repeat (split; [done|]). by left.
Qed.

(** X15.  [agent_data] talks to nobody: whatever the outcome, it sends no
    request to the site, signs nothing and loads no certificate — the
    events of a call are at most one log line — and the registered hosts
    and the root certificate and its cache are as before. *)
Theorem agent_data_is_local (uuid : N) (compression : string)
    (monitoring_data : list Byte.byte) (w : World) :
  let w' := (agent_data uuid compression monitoring_data w).2 in
  registered_hosts w' = registered_hosts w
  ∧ pem_cache w' = pem_cache w
  ∧ root_cert_on_disk w' = root_cert_on_disk w
  ∧ (new_events w w' = [] ∨ ∃ level msg, new_events w w' = [Logged level msg]).
Proof.
  intros w'. destruct (agent_data_effect uuid compression monitoring_data w)
    as (Hr & Hp & Hc & Ht). fold w' in Hr, Hp, Hc, Ht.
  repeat (split; [done|]). destruct Ht as [Ht|(level & msg & Ht)].
  - left. apply new_events_app. by rewrite Ht, app_nil_r.
  - right. exists level, msg. by apply new_events_app.
Qed.

(** ** The life of a serving process *)

Lemma root_cert_loads_app (t l : list Event) :
  root_cert_loads (t ++ l) = root_cert_loads t + root_cert_loads l.
Proof. unfold root_cert_loads. by rewrite List.filter_app, length_app. Qed.

Lemma cache_agrees_call (w w' : World) (rs : list (Result string)) (r : Result string) :
  cache_agrees w rs →
  _pem_serizialized_site_root_cert w = (r, w') →
  cache_agrees w' (rs ++ [r]).
Proof.
  unfold cache_agrees. rewrite pem_serizialized_site_root_cert_run.
  destruct (pem_cache w) as [s|] eqn:Hcache.
  - intros [Hone Hrs] [= <- <-]. rewrite Hcache. split; [done|].
    intros s' [Hs'|Hs']%elem_of_app; [by apply Hrs|].
    apply list_elem_of_singleton in Hs'. by injection Hs' as ->.
  - intros [Hzero Hrs]. destruct (root_cert_on_disk w) as [c|]; intros [= <- <-].
    + cbn [pem_cache set_pem_cache trace emit]. split.
      * rewrite root_cert_loads_app, Hzero. done.
      * intros s' [Hs'|Hs']%elem_of_app; [by apply Hrs in Hs'|].
        apply list_elem_of_singleton in Hs'. by injection Hs' as ->.
    + rewrite Hcache. split; [done|].
      intros s [Hs|Hs]%elem_of_app; [by apply Hrs in Hs|].
      apply list_elem_of_singleton in Hs. discriminate.
Qed.

Lemma cache_agrees_other (w w' : World) (rs : list (Result string)) :
  cache_agrees w rs →
  pem_cache w' = pem_cache w →
  root_cert_loads (trace w') = root_cert_loads (trace w) →
  cache_agrees w' rs.
Proof. unfold cache_agrees. by intros H -> ->. Qed.

Lemma cache_agrees_fewer (w : World) (rs l : list (Result string)) :
  cache_agrees w (rs ++ l) → cache_agrees w rs.
Proof.
  unfold cache_agrees. destruct (pem_cache w) as [s|]; intros [Hloads Hrs]; (split; [done|]).
  - intros s' Hs'. apply Hrs, elem_of_app. by left.
  - intros s' Hs'. apply (Hrs s'), elem_of_app. by left.
Qed.

(** A call of [register_existing] is at most one call of the cached
    function, whose result is the root certificate of the answer, and
    loads no root certificate but through it. *)
Lemma register_existing_cache (credentials : HTTPBasicCredentials)
    (body : RegisterExistingBody) (w : World) :
  let run := register_existing credentials body w in
  let cached := _pem_serizialized_site_root_cert w in
  (run.2 = w ∧ ∀ response, run.1 ≠ Ok response)
  ∨ (pem_cache run.2 = pem_cache cached.2
     ∧ root_cert_loads (trace run.2) = root_cert_loads (trace cached.2)
     ∧ ∀ response, run.1 = Ok response → cached.1 = Ok (rer_root_cert response)).
Proof.
  cbv zeta. rewrite register_existing_run. case_bool_decide; [by left|]. right.
  destruct (_pem_serizialized_site_root_cert w) as [[s|e] w1]; cbn [fst snd]; [|done].
  destruct (site_controller_certificate_settings internal_credentials) as [months|];
    [|cbn [fst snd pem_cache emit trace]; rewrite root_cert_loads_app; simpl;
      split; [done|]; split; [unfold root_cert_loads; simpl; lia|done]].
  destruct (site_register credentials (re_uuid body) (re_host_name body)) as [mode|];
    cbn [fst snd pem_cache emit trace]; rewrite !root_cert_loads_app;
    (split; [done|]); (split; [unfold root_cert_loads; simpl; lia|]); [|done].
  by intros response [= <-].
Qed.

(** The other endpoints leave the cache alone and load no root
    certificate. *)
Lemma serve_quiet (call : Call) (w : World) :
  (∀ credentials body, call ≠ Call_register_existing credentials body) →
  (serve call w).1 = []
  ∧ pem_cache (serve call w).2 = pem_cache w
  ∧ root_cert_loads (trace (serve call w).2) = root_cert_loads (trace w).
Proof.
  intros Hcall. destruct call as [c b|c b|c b|uuid compression data|uuid|uuid b];
    cbn [serve fst snd].
  - by destruct (Hcall c b).
  - split; [done|]. rewrite register_with_hostname_run. cbv zeta.
    repeat case_match; cbn [fst snd pem_cache emit trace];
      rewrite ?root_cert_loads_app; unfold root_cert_loads; simpl; split; (done || lia).
  - split; [done|]. rewrite register_with_labels_run. cbv zeta.
    unfold R4R_write, lift_fs.
    repeat case_match; cbn [fst snd pem_cache emit trace set_fs];
      rewrite ?root_cert_loads_app; unfold root_cert_loads; simpl; split; (done || lia).
  - split; [done|].
    destruct (agent_data_effect uuid compression data w) as (_ & Hp & _ & Ht).
    split; [done|]. destruct Ht as [->|(level & msg & ->)]; [done|].
    rewrite root_cert_loads_app. unfold root_cert_loads. simpl. lia.
  - split; [done|].
    unfold registration_status, R4R_read, RegisteredHost__init__.
    unfold mbind, M_bind, try_except, fmap, M_fmap, mret, M_ret, raise.
    by repeat case_match; simplify_eq.
  - split; [done|]. rewrite renew_certificate_run.
    repeat case_match; cbn [fst snd pem_cache emit trace];
      rewrite ?root_cert_loads_app; unfold root_cert_loads; simpl; split; (done || lia).
Qed.

Lemma cache_agrees_serve (w : World) (rs : list (Result string)) (call : Call) :
  cache_agrees w rs → cache_agrees (serve call w).2 (rs ++ (serve call w).1).
Proof.
  intros Hagrees.
  assert (Hquiet : (∀ credentials body, call ≠ Call_register_existing credentials body) →
                   cache_agrees (serve call w).2 (rs ++ (serve call w).1)).
  { intros Hother. destruct (serve_quiet call w Hother) as (-> & Hp & Ht).
    rewrite app_nil_r. by apply (cache_agrees_other _ _ _ Hagrees). }
  destruct call as [credentials body| | | | |]; try (by apply Hquiet).
  cbn [serve].
  destruct (register_existing_cache credentials body w) as [[Hw Hraise]|(Hp & Ht & Hr)].
  - destruct (register_existing credentials body w) as [[response|e] w'];
      cbn [fst snd] in *; [by destruct (Hraise response)|].
    subst w'. by rewrite app_nil_r.
  - pose proof (cache_agrees_call w _ rs _ Hagrees
                  (surjective_pairing (_pem_serizialized_site_root_cert w))) as Hcalled.
    destruct (register_existing credentials body w) as [[response|e] w'];
      cbn [fst snd] in *.
    + rewrite <- (Hr response eq_refl). by apply (cache_agrees_other _ _ _ Hcalled).
    + rewrite app_nil_r. apply cache_agrees_fewer in Hcalled.
      by apply (cache_agrees_other _ _ _ Hcalled).
Qed.

Lemma lifetime_invariant (w0 : World) (rs : list (Result string)) (w : World) :
  lifetime w0 rs w →
  pem_cache w0 = None →
  root_cert_loads (trace w0) = 0 →
  cache_agrees w rs.
Proof.
  intros Hlife Hcache Hloads.
  induction Hlife as [w|w rs w1 r w2 _ IH Hcall|w rs w1 call _ IH|w rs w1 w2 _ IH Hc Ht].
  - unfold cache_agrees. rewrite Hcache. split; [done|]. intros s Hs.
    by apply elem_of_nil in Hs.
  - apply (cache_agrees_call w1); [by apply IH|done].
  - by apply cache_agrees_serve, IH.
  - apply (cache_agrees_other w1); [by apply IH|done..].
Qed.

(** C7. In the life of one serving process, from an empty cache: the root
    certificate is loaded and serialized at most once, however many calls
    the process answers (registrations, which hand out the root
    certificate, and all the others) and whatever else happens in between
    to the certificate on disk, and any two root certificates that were
    handed out are the same string. *)
Theorem root_cert_serialized_once (w0 : World) (rs : list (Result string)) (w : World) :
  lifetime w0 rs w →
  pem_cache w0 = None →
  root_cert_loads (trace w0) = 0 →
  root_cert_loads (trace w) ≤ 1
  ∧ ∀ s s', Ok s ∈ rs → Ok s' ∈ rs → s = s'.
Proof.
  intros Hlife Hcache Hloads.
  pose proof (lifetime_invariant _ _ _ Hlife Hcache Hloads) as Hagrees.
  unfold cache_agrees in Hagrees.
  destruct (pem_cache w) as [s0|]; destruct Hagrees as [Hcount Hrs].
  - split; [lia|]. intros s s' Hs Hs'. by rewrite (Hrs _ Hs), (Hrs _ Hs').
  - split; [lia|]. intros s s' Hs _. by apply Hrs in Hs.
Qed.

(** ** register_with_hostname *)

(** X16.  [register_with_hostname] links only what it has checked: a link
    request sent during a call is the one for the host name and uuid of
    the body with the credentials of the caller, and it is sent only when
    the site has answered the host configuration, the host is monitored on
    this site and is not a cluster. *)
Theorem link_request_only_for_own_hosts (w : World) (credentials : HTTPBasicCredentials)
    (body : RegistrationWithHNBody) (c : HTTPBasicCredentials) (h : string) (u : N) :
  Requested (PutLinkHostWithUuid c h u)
    ∈ new_events w (register_with_hostname credentials body w).2 →
  c = credentials ∧ h = hn_host_name body ∧ u = hn_uuid body
  ∧ ∃ host_config,
      site_host_configuration credentials (hn_host_name body) = Some host_config
      ∧ site host_config = site_name
      ∧ is_cluster host_config = false.
Proof.
  rewrite register_with_hostname_run. cbv zeta.
  destruct (site_host_configuration credentials (hn_host_name body)) as [hc|].
  2:{ simpl. rewrite (new_events_app w _ [Requested (GetHostConfiguration credentials
                                             (hn_host_name body))]) by done.
      intros Hin%list_elem_of_singleton. discriminate. }
  case_bool_decide as Hsite.
  { simpl. rewrite (new_events_app w _ [Requested (GetHostConfiguration credentials
                                             (hn_host_name body))]) by done.
    intros Hin%list_elem_of_singleton. discriminate. }
  destruct (is_cluster hc) eqn:Hcluster.
  { simpl. rewrite (new_events_app w _ [Requested (GetHostConfiguration credentials
                                             (hn_host_name body))]) by done.
    intros Hin%list_elem_of_singleton. discriminate. }
  assert (Hlink : ∀ l, Requested (PutLinkHostWithUuid c h u)
            ∈ Requested (GetHostConfiguration credentials (hn_host_name body))
              :: Requested (PutLinkHostWithUuid credentials (hn_host_name body) (hn_uuid body))
              :: l →
            (∀ x, x ∈ l → ∃ lv m, x = Logged lv m) →
            c = credentials ∧ h = hn_host_name body ∧ u = hn_uuid body).
  { intros l Hin Hl. apply elem_of_cons in Hin as [Hin|Hin]; [discriminate|].
    apply elem_of_cons in Hin as [Hin|Hin]; [by injection Hin as -> -> ->|].
    destruct (Hl _ Hin) as (lv & m & Hx). discriminate. }
  destruct (site_link_host_with_uuid credentials (hn_host_name body) (hn_uuid body)); simpl.
  - rewrite (new_events_app w _
      [Requested (GetHostConfiguration credentials (hn_host_name body));
       Requested (PutLinkHostWithUuid credentials (hn_host_name body) (hn_uuid body));
       Logged INFO ("uuid=" +:+ uuid_str (hn_uuid body) +:+ " registered host "
                    +:+ hn_host_name body)]) by (simpl; by rewrite <- !app_assoc).
    intros Hin. destruct (Hlink _ Hin) as (-> & -> & ->).
    { intros x Hx%list_elem_of_singleton. by eexists _, _. }
    repeat split; try done. by exists hc.
  - rewrite (new_events_app w _
      [Requested (GetHostConfiguration credentials (hn_host_name body));
       Requested (PutLinkHostWithUuid credentials (hn_host_name body) (hn_uuid body))])
      by (simpl; by rewrite <- !app_assoc).
    intros Hin. destruct (Hlink _ Hin) as (-> & -> & ->).
    { intros x Hx. by apply elem_of_nil in Hx. }
    repeat split; try done. by exists hc.
Qed.

End Extras.

(** * The endpoints on the example site *)

(** C3 on the example site, whose push host still has the payload "old"
    of an earlier run: [_store_agent_data] is called with the payload "new"
    and returns.  After the rename, and still after the unlink, the final
    path holds an empty file; only the close, two operations after the
    rename, brings the three bytes to the file. *)
Lemma store_agent_data_exposes_empty_file_witness :
  let target_dir := source_path example_host in
  (_store_agent_data (ext := example_site) target_dir new_payload example_world).1 = Ok tt
  ∧ observed_payload (ext := example_site) 0 target_dir new_payload example_world
    = Some old_payload
  ∧ observed_payload (ext := example_site) 4 target_dir new_payload example_world = Some []
  ∧ observed_payload (ext := example_site) 4 target_dir new_payload example_world
    ≠ Some new_payload
  ∧ observed_payload (ext := example_site) 4 target_dir new_payload example_world
    ≠ Some old_payload
  ∧ observed_payload (ext := example_site) 5 target_dir new_payload example_world = Some []
  ∧ observed_payload (ext := example_site) 6 target_dir new_payload example_world
    = Some new_payload.
Proof.
  intros target_dir.
  destruct (store_agent_data_exposes_empty_file (ext := example_site) target_dir
              new_payload example_world
              {| tf_name := target_dir // "tmpk3x9q2ab"; tf_ino := 4 |})
    as (Hempty & Hnew & Hold).
  - vm_compute. reflexivity.
  - discriminate.
  - vm_compute. lia.
  - split; [vm_compute; reflexivity|]. split; [vm_compute; reflexivity|].
    split; [exact Hempty|]. split; [exact Hnew|].
    split; [apply (Hold old_payload); [vm_compute; reflexivity|discriminate]|].
    split; vm_compute; reflexivity.
Defined.

(** C1 on the example site: the agent with uuid 5 sends a CSR made out
    for another agent. *)
Lemma identity_mismatch_rejected_witness :
  register_existing (ext := example_site) example_credentials
      {| re_uuid := 5; re_csr := foreign_csr; re_host_name := "myhost" |}
      example_world
    = (Raise (HTTPException 400
                "UUID (00000000-0000-0000-0000-000000000005) does not match CN (another-agent) of CSR."),
       example_world)
  ∧ renew_certificate (ext := example_site) 5 {| cr_csr := foreign_csr |}
      example_world
    = (Raise (HTTPException 400
                "UUID (00000000-0000-0000-0000-000000000005) does not match CN (another-agent) of CSR."),
       example_world).
Proof.
  apply (identity_mismatch_rejected (ext := example_site) example_world 5
           foreign_csr example_credentials "myhost").
  vm_compute. discriminate.
Defined.


(** C4, as it was stated, on two sites where the uuid 5 has no record in
    READY: on the site that has only its r4r directory the promotion makes
    the DISCOVERABLE directory, so the world is not what it was; on the site
    without an r4r directory it raises FileNotFoundError. *)
Lemma move_ready_file_not_a_silent_noop :
  lookup_node (fs fresh_world) (r4r_path (ext := example_site) READY 5) = None
  ∧ _move_ready_file (ext := example_site) 5 fresh_world ≠ (Ok tt, fresh_world)
  ∧ lookup_node (fs bare_world) (r4r_path (ext := example_site) READY 5) = None
  ∧ (_move_ready_file (ext := example_site) 5 bare_world).1 = Raise FileNotFoundError.
Proof.
  split; [reflexivity|]. split; [|split; reflexivity].
  intros H.
  apply (f_equal (λ p, lookup_node (fs p.2) (@r4r_dir example_site // "DISCOVERABLE")))
    in H.
  vm_compute in H. discriminate.
Defined.

(** C4 (amended) on the site that has only its r4r directory, where the
    promotion for uuid 5 makes the DISCOVERABLE directory and returns, and
    on the example site, where it moves the record of uuid 5: a second
    promotion changes nothing more. *)
Lemma move_ready_file_idempotent_witness :
  (_move_ready_file (ext := example_site) 5
     (_move_ready_file (ext := example_site) 5 fresh_world).2).2
    = (_move_ready_file (ext := example_site) 5 fresh_world).2
  ∧ ((_move_ready_file (ext := example_site) 5 fresh_world).1 = Ok tt
     ∧ (_move_ready_file (ext := example_site) 5 fresh_world).2
       = set_fs {| nodes := <[@r4r_dir example_site // "DISCOVERABLE" := Dir]>
                              (nodes (fs fresh_world));
                   inodes := inodes (fs fresh_world) |} fresh_world)
  ∧ (_move_ready_file (ext := example_site) 5
       (_move_ready_file (ext := example_site) 5 example_world).2).2
    = (_move_ready_file (ext := example_site) 5 example_world).2
  ∧ (_move_ready_file (ext := example_site) 5
       (_move_ready_file (ext := example_site) 5 example_world).2).1 = Ok tt.
Proof.
  destruct (move_ready_file_idempotent (ext := example_site) fresh_world 5)
    as (Htwice & _ & Hmissing & _).
  { reflexivity. }
  { intros H. vm_compute in H. discriminate H. }
  destruct (move_ready_file_idempotent (ext := example_site) example_world 5)
    as (Hagain & Hreturns & _).
  { reflexivity. }
  { intros _. reflexivity. }
  split; [exact Htwice|]. split; [exact (Hmissing eq_refl eq_refl)|].
  split; [exact Hagain|]. apply Hreturns. vm_compute. reflexivity.
Defined.

(** C5, as it was stated, on the site without r4r directory: the call for
    the push host 5 fails, with the FileNotFoundError of the promotion, and
    has written the payload to the output path of the host, where there was
    nothing. *)
Lemma agent_data_failure_after_storing :
  (agent_data (ext := example_site) 5 "identity" new_payload unprepared_world).1
    = Raise FileNotFoundError
  ∧ read_bytes (fs unprepared_world) (source_path example_host // "agent_output") = None
  ∧ read_bytes
      (fs (agent_data (ext := example_site) 5 "identity" new_payload unprepared_world).2)
      (source_path example_host // "agent_output")
    = Some new_payload.
Proof.
  split; [vm_compute; reflexivity|]. split; vm_compute; reflexivity.
Defined.

(** C5 (amended) on the example site: an unknown uuid, the pull host, an
    unknown codec, and an empty body, which the codec rejects. *)
Lemma agent_data_failures_witness :
  (agent_data (ext := example_site) 7 "bogus" [] example_world).1
    = Raise (HTTPException 403 "Host is not registered")
  ∧ (agent_data (ext := example_site) 6 "bogus" [] example_world).1
    = Raise (HTTPException 403 "Host is not a push host")
  ∧ (agent_data (ext := example_site) 5 "bogus" [] example_world).1
    = Raise (HTTPException 400 "Unsupported compression algorithm: bogus")
  ∧ (agent_data (ext := example_site) 5 "identity" [] example_world).1
    = Raise (HTTPException 400 "Decompression of agent data failed")
  ∧ fs (agent_data (ext := example_site) 5 "bogus" [] example_world).2 = fs example_world.
Proof.
  destruct (agent_data_failures (ext := example_site) example_world 7 "bogus" [])
    as (H1 & _).
  destruct (agent_data_failures (ext := example_site) example_world 6 "bogus" [])
    as (_ & H2 & _).
  destruct (agent_data_failures (ext := example_site) example_world 5 "bogus" [])
    as (_ & _ & H3 & _).
  destruct (agent_data_failures (ext := example_site) example_world 5 "identity" [])
    as (_ & _ & _ & H4 & _).
  split; [exact (proj1 (H1 eq_refl))|].
  split; [apply (H2 pull_host eq_refl); discriminate|].
  split; [exact (proj1 (H3 example_host eq_refl eq_refl eq_refl))|].
  split; [exact (proj1 (H4 example_host tt "no data" eq_refl eq_refl eq_refl eq_refl))|].
  exact (proj2 (proj2 (H3 example_host eq_refl eq_refl eq_refl))).
Defined.

(** C6 on the example site: the registered host 5 with its left-over
    record, the unregistered uuid 8 with its request in NEW, and the
    unknown uuid 7. *)
Lemma registration_status_merge_witness :
  (registration_status (ext := example_site) 5 example_world).1
    = Ok {| rs_hostname := Some "myhost"; rs_status := Some READY;
            rs_type := Some PUSH; rs_message := Some "Host registered" |}
  ∧ (registration_status (ext := example_site) 8 example_world).1
    = Ok {| rs_hostname := None; rs_status := Some NEW;
            rs_type := None; rs_message := None |}
  ∧ registration_status (ext := example_site) 7 example_world
    = (Raise (HTTPException 404 "Host is not registered"), example_world).
Proof.
  destruct (registration_status_merge (ext := example_site) example_world 5) as (H5 & _).
  destruct (registration_status_merge (ext := example_site) example_world 8) as (_ & H8 & _).
  destruct (registration_status_merge (ext := example_site) example_world 7) as (_ & _ & H7).
  split.
  { rewrite (H5 example_host
               (Some {| r4r_status := READY;
                        r4r_request := {| req_uuid := 0; req_username := "alice";
                                          req_agent_labels := [];
                                          rejection_notice := None |} |})
               eq_refl eq_refl).
    reflexivity. }
  split.
  { rewrite (H8 {| r4r_status := NEW;
                   r4r_request := {| req_uuid := 0; req_username := "bob";
                                     req_agent_labels := [];
                                     rejection_notice := None |} |}
               eq_refl eq_refl).
    reflexivity. }
  exact (H7 eq_refl eq_refl).
Defined.

(** C7 on the example site: the agent 5 registers, the root certificate on
    disk is replaced, the push host sends data, and the agent registers
    again.  Both answers carry the root certificate that was loaded for the
    first one. *)
Lemma root_cert_serialized_once_witness :
  let registration :=
    Call_register_existing (ext := example_site) example_credentials
      {| re_uuid := 5; re_csr := own_csr; re_host_name := "myhost" |} in
  let w1 := (serve registration example_world).2 in
  let w2 := replace_root_cert "another root" w1 in
  let w3 := (serve (Call_agent_data 5 "identity" new_payload) w2).2 in
  let w4 := (serve registration w3).2 in
  let handed_out :=
    ((([] ++ (serve registration example_world).1)
      ++ (serve (Call_agent_data 5 "identity" new_payload) w2).1)
     ++ (serve registration w3).1) in
  handed_out = [Ok "-----BEGIN CERTIFICATE----- root"; Ok "-----BEGIN CERTIFICATE----- root"]
  ∧ root_cert_on_disk w4 = Some "another root"
  ∧ root_cert_loads (trace w4) ≤ 1
  ∧ ∀ s s', Ok s ∈ handed_out → Ok s' ∈ handed_out → s = s'.
Proof.
  intros registration w1 w2 w3 w4 handed_out.
  split; [vm_compute; reflexivity|]. split; [vm_compute; reflexivity|].
  apply (root_cert_serialized_once (ext := example_site) example_world handed_out w4).
  - apply lifetime_serve, lifetime_serve.
    apply (lifetime_other _ _ w1); [|reflexivity|reflexivity].
    apply lifetime_serve, lifetime_start.
  - reflexivity.
  - reflexivity.
Defined.

(** C8 on the example site: the user "cloud" is on an edition that
    registers by labels. *)
Lemma register_with_labels_spec_witness :
  (register_with_labels (ext := example_site) cloud_credentials
     {| lb_uuid := 9; lb_agent_labels := [("os", "linux")] |} example_world).1
    = Ok {| status_code := 204 |}
  ∧ read_bytes
      (fs (register_with_labels (ext := example_site) cloud_credentials
             {| lb_uuid := 9; lb_agent_labels := [("os", "linux")] |} example_world).2)
      (r4r_path (ext := example_site) NEW 9)
    = Some (list_byte_of_string "cloud").
Proof.
  destruct (register_with_labels_spec (ext := example_site) example_world cloud_credentials
              {| lb_uuid := 9; lb_agent_labels := [("os", "linux")] |} true eq_refl)
    as [_ Hsupported].
  destruct (Hsupported eq_refl) as (Hr & Hrecord & _).
  split; [exact Hr|exact Hrecord].
Defined.

(** C9 on the example site: a host of another site, a cluster host, and
    the host of this site. *)
Lemma register_with_hostname_spec_witness :
  (register_with_hostname (ext := example_site) example_credentials
     {| hn_uuid := 9; hn_host_name := "remote" |} example_world).1
    = Raise (HTTPException 403
               "This host is monitored on the site morgen, but you tried to register it at the site heute.")
  ∧ (register_with_hostname (ext := example_site) example_credentials
       {| hn_uuid := 9; hn_host_name := "cluster" |} example_world).1
    = Raise (HTTPException 403 "This host is a cluster host. Register its nodes instead.")
  ∧ (register_with_hostname (ext := example_site) example_credentials
       {| hn_uuid := 9; hn_host_name := "myhost" |} example_world).1
    = Ok {| status_code := 204 |}.
Proof.
  destruct (register_with_hostname_spec (ext := example_site) example_world
              example_credentials {| hn_uuid := 9; hn_host_name := "remote" |})
    as (Hremote & _).
  destruct (register_with_hostname_spec (ext := example_site) example_world
              example_credentials {| hn_uuid := 9; hn_host_name := "cluster" |})
    as (Hcluster & _).
  destruct (register_with_hostname_spec (ext := example_site) example_world
              example_credentials {| hn_uuid := 9; hn_host_name := "myhost" |})
    as (Hmine & _).
  split.
  { destruct (Hremote _ eq_refl) as (H & _). apply H. vm_compute. discriminate. }
  split.
  { destruct (Hcluster _ eq_refl) as (_ & H & _). exact (proj1 (H eq_refl eq_refl)). }
  destruct (Hmine _ eq_refl) as (_ & _ & H). exact (proj1 (H eq_refl eq_refl eq_refl)).
Defined.

(** C10 on the example site: a foreign CSR for the unregistered uuid 7
    is answered with the 400 of the identity check. *)
Lemma renew_certificate_check_order_witness :
  (renew_certificate (ext := example_site) 7 {| cr_csr := foreign_csr |} example_world).1
    = Raise (HTTPException 400
               "UUID (00000000-0000-0000-0000-000000000007) does not match CN (another-agent) of CSR.")
  ∧ (renew_certificate (ext := example_site) 7 {| cr_csr := foreign_csr |} example_world).2
    = example_world.
Proof.
  destruct (renew_certificate_check_order (ext := example_site) example_world 7
              {| cr_csr := foreign_csr |}) as (Hmismatch & _).
  apply Hmismatch. vm_compute. discriminate.
Defined.

(** * The further properties on the example site *)

(** X1 on the example site: the agent with uuid 5 registers with its own
    CSR. *)
Lemma register_existing_success_witness :
  let call := register_existing (ext := example_site) example_credentials
                {| re_uuid := 5; re_csr := own_csr; re_host_name := "myhost" |}
                example_world in
  call.1 = Ok {| rer_root_cert := "-----BEGIN CERTIFICATE----- root";
                 rer_agent_cert :=
                   "-----BEGIN CERTIFICATE----- certificate for 00000000-0000-0000-0000-000000000005";
                 rer_connection_mode := PUSH |}
  ∧ pem_cache call.2 = Some "-----BEGIN CERTIFICATE----- root"
  ∧ fs call.2 = fs example_world.
Proof.
  destruct (register_existing_success (ext := example_site) example_world
              example_credentials
              {| re_uuid := 5; re_csr := own_csr; re_host_name := "myhost" |}
              "-----BEGIN CERTIFICATE----- root" 60 PUSH)
    as (Hr & _ & Hcache & Hfs); [reflexivity..|].
  split; [exact Hr|]. split; [exact Hcache|exact Hfs].
Defined.

(** X2 on the example site: without the root certificate the call stops
    before anything is asked or signed; with it, the registration follows
    the signing. *)
Lemma register_existing_signs_before_registering_witness :
  register_existing (ext := example_site) example_credentials
      {| re_uuid := 5; re_csr := own_csr; re_host_name := "myhost" |} uncertified_world
    = (Raise FileNotFoundError, uncertified_world)
  ∧ ∃ months before after,
      @site_controller_certificate_settings example_site
        (@internal_credentials example_site) = Some months
      ∧ new_events example_world
          (register_existing (ext := example_site) example_credentials
             {| re_uuid := 5; re_csr := own_csr; re_host_name := "myhost" |}
             example_world).2
        = before ++
          [Requested (GetControllerCertificateSettings (@internal_credentials example_site));
           Signed (csr own_csr) months;
           Requested (PostRegister example_credentials 5 "myhost")] ++ after.
Proof.
  split.
  - destruct (register_existing_signs_before_registering (ext := example_site)
                uncertified_world example_credentials
                {| re_uuid := 5; re_csr := own_csr; re_host_name := "myhost" |})
      as (Hfirst & _).
    exact (Hfirst FileNotFoundError eq_refl eq_refl).
  - destruct (register_existing_signs_before_registering (ext := example_site)
                example_world example_credentials
                {| re_uuid := 5; re_csr := own_csr; re_host_name := "myhost" |})
      as (_ & Horder).
    apply Horder. vm_compute. right. right. right. left.
Defined.

(** X3 on the site that refuses registrations. *)
Lemma register_existing_no_rollback_witness :
  let call := register_existing (ext := refusing_site) example_credentials
                {| re_uuid := 5; re_csr := refused_csr; re_host_name := "myhost" |}
                refusing_world in
  call.1 = Raise (UpstreamFailure
                    "uuid=00000000-0000-0000-0000-000000000005 Registration failed")
  ∧ Signed (csr refused_csr) 60 ∈ new_events refusing_world call.2
  ∧ pem_cache call.2 = Some "-----BEGIN CERTIFICATE----- root".
Proof.
  apply (register_existing_no_rollback (ext := refusing_site) refusing_world
           example_credentials
           {| re_uuid := 5; re_csr := refused_csr; re_host_name := "myhost" |}
           "-----BEGIN CERTIFICATE----- root" 60); reflexivity.
Defined.

(** X5 on the example site: the registered agent 5 renews. *)
Lemma renew_certificate_success_witness :
  (renew_certificate (ext := example_site) 5 {| cr_csr := own_csr |} example_world).1
    = Ok {| rcr_agent_cert :=
              "-----BEGIN CERTIFICATE----- certificate for 00000000-0000-0000-0000-000000000005" |}
  ∧ new_events example_world
      (renew_certificate (ext := example_site) 5 {| cr_csr := own_csr |} example_world).2
    = [Requested (GetControllerCertificateSettings (@internal_credentials example_site));
       Signed (csr own_csr) 60;
       Logged INFO "uuid=00000000-0000-0000-0000-000000000005 Certificate renewal succeeded"].
Proof.
  apply (renew_certificate_success (ext := example_site) example_world 5
           {| cr_csr := own_csr |} example_host 60); reflexivity.
Defined.

(** X6 on the example site: the certificate of the first call is the
    answer after the one on disk has been replaced; and where the first
    call found no certificate, the next call finds the one that has been
    put there. *)
Lemma root_cert_cache_is_sticky_witness :
  let w1 := (_pem_serizialized_site_root_cert (ext := example_site) example_world).2 in
  _pem_serizialized_site_root_cert (ext := example_site)
      (replace_root_cert "another root" w1)
    = (Ok "-----BEGIN CERTIFICATE----- root", replace_root_cert "another root" w1)
  ∧ (_pem_serizialized_site_root_cert (ext := example_site) uncertified_world).1
    = Raise FileNotFoundError
  ∧ (_pem_serizialized_site_root_cert (ext := example_site)
       (replace_root_cert "late root" uncertified_world)).1
    = Ok "-----BEGIN CERTIFICATE----- late root".
Proof.
  intros w1. split; [|split; [reflexivity|]].
  - destruct (root_cert_cache_is_sticky (ext := example_site) example_world
                (replace_root_cert "another root" w1)) as (Hkept & _).
    exact (Hkept _ eq_refl eq_refl).
  - destruct (root_cert_cache_is_sticky (ext := example_site) uncertified_world
                (replace_root_cert "late root" uncertified_world)) as (_ & Hlate).
    exact (Hlate FileNotFoundError "late root"%string eq_refl eq_refl eq_refl).
Defined.

(** X7 on the example site: the certificate signed in a renewal. *)
Lemma signed_certificates_follow_site_settings_witness :
  csr own_csr = csr own_csr
  ∧ @site_controller_certificate_settings example_site
      (@internal_credentials example_site) = Some 60.
Proof.
  destruct (signed_certificates_follow_site_settings (ext := example_site) example_world
              example_credentials
              {| re_uuid := 5; re_csr := own_csr; re_host_name := "myhost" |}
              5 {| cr_csr := own_csr |} (csr own_csr) 60) as (_ & Hrenew).
  apply Hrenew. vm_compute. right. left.
Defined.

(** No regular file is in the way of the directory of the example host. *)
Lemma example_host_path_free (q : list string) (ino : positive) :
  q `prefix_of` source_path example_host →
  lookup_node example_fs q ≠ Some (File ino).
Proof.
  intros [k Hk].
  destruct q as [|a [|b [|c [|d q]]]]; simpl in Hk.
  - discriminate.
  - injection Hk as <- _. vm_compute. discriminate.
  - injection Hk as <- <- _. vm_compute. discriminate.
  - injection Hk as <- <- <- _. vm_compute. discriminate.
  - discriminate.
Defined.

(** X8 on the example site: the payload "new" for the push host. *)
Lemma store_agent_data_returns_witness :
  ∃ w', _store_agent_data (ext := example_site) (source_path example_host) new_payload
          example_world = (Ok tt, w')
        ∧ is_dir (fs w') (source_path example_host) = true
        ∧ read_bytes (fs w') (source_path example_host // "agent_output") = Some new_payload
        ∧ ∀ name ino, name ≠ "agent_output" →
            lookup_node (fs w') (source_path example_host // name) = Some (File ino) →
            lookup_node (fs example_world) (source_path example_host // name)
              = Some (File ino).
Proof.
  apply (store_agent_data_returns (ext := example_site) (source_path example_host)
           new_payload example_world).
  - apply example_host_path_free.
  - reflexivity.
  - exists "k3x9q2ab". split; [left|reflexivity].
Defined.

(** X9 on the example site: storing for the push host does not change
    what the request in NEW reads as. *)
Lemma store_agent_data_leaves_the_rest_witness :
  read_bytes
    (fs (_store_agent_data (ext := example_site) (source_path example_host) new_payload
           example_world).2)
    (r4r_path (ext := example_site) NEW 8)
  = Some (list_byte_of_string "bob").
Proof.
  destruct (store_agent_data_leaves_the_rest (ext := example_site)
              (source_path example_host) new_payload example_world
              (_store_agent_data (ext := example_site) (source_path example_host) new_payload
                 example_world).2) as (_ & Hread).
  - apply (run_eq (ext := example_site)). vm_compute. reflexivity.
  - apply Hread; [vm_compute; discriminate|vm_compute; reflexivity].
Defined.


(** X11 on the example site: promoting the request of uuid 5 does not
    touch the payload of its host. *)
Lemma move_ready_file_touches_only_the_record_witness :
  let w' := (_move_ready_file (ext := example_site) 5 example_world).2 in
  read_bytes (fs w') (source_path example_host // "agent_output")
  = read_bytes (fs example_world) (source_path example_host // "agent_output").
Proof.
  intros w'.
  destruct (move_ready_file_touches_only_the_record (ext := example_site) 5 example_world)
    as (_ & _ & Hrest & _).
  - reflexivity.
  - apply Hrest; vm_compute; discriminate.
Defined.

(** X12 on the example site: promoting the request of uuid 5 leaves the
    request of uuid 8 in NEW. *)
Lemma move_ready_file_leaves_other_agents_witness :
  let w' := (_move_ready_file (ext := example_site) 5 example_world).2 in
  lookup_node (fs w') (r4r_path (ext := example_site) NEW 8)
  = lookup_node (fs example_world) (r4r_path (ext := example_site) NEW 8)
  ∧ read_bytes (fs w') (r4r_path (ext := example_site) NEW 8)
    = read_bytes (fs example_world) (r4r_path (ext := example_site) NEW 8).
Proof.
  apply (move_ready_file_leaves_other_agents (ext := example_site) 5 8 example_world);
    [reflexivity|reflexivity|discriminate].
Defined.

(** X13 on the example site: the push host 5 sends "new". *)
Lemma agent_data_accepts_witness :
  ∃ w', agent_data (ext := example_site) 5 "identity" new_payload example_world
          = (Ok {| status_code := 204 |}, w')
        ∧ read_bytes (fs w') (source_path example_host // "agent_output")
          = Some new_payload
        ∧ new_events example_world w'
          = [Logged INFO "uuid=00000000-0000-0000-0000-000000000005 Agent data saved"].
Proof.
  apply (agent_data_accepts (ext := example_site) example_world 5 "identity" new_payload
           example_host tt new_payload); try reflexivity.
  - apply example_host_path_free.
  - exists "k3x9q2ab". split; [left|reflexivity].
  - intros [k Hk]. vm_compute in Hk. discriminate.
Defined.

(** X14 on the site without r4r directory: the payload of the push host
    is stored, the promotion raises. *)
Lemma agent_data_keeps_payload_when_promotion_fails_witness :
  let stored := (_store_agent_data (ext := example_site) (source_path example_host)
                   new_payload unprepared_world).2 in
  let failed := (_move_ready_file (ext := example_site) 5 stored).2 in
  agent_data (ext := example_site) 5 "identity" new_payload unprepared_world
    = (Raise FileNotFoundError, failed)
  ∧ read_bytes (fs failed) (source_path example_host // "agent_output") = Some new_payload.
Proof.
  apply (agent_data_keeps_payload_when_promotion_fails (ext := example_site)
           unprepared_world
           (_store_agent_data (ext := example_site) (source_path example_host)
              new_payload unprepared_world).2
           (_move_ready_file (ext := example_site) 5
              (_store_agent_data (ext := example_site) (source_path example_host)
                 new_payload unprepared_world).2).2
           5 "identity" new_payload example_host tt new_payload FileNotFoundError).
  - reflexivity.
  - reflexivity.
  - reflexivity.
  - reflexivity.
  - apply (run_eq (ext := example_site)). vm_compute. reflexivity.
  - apply (run_eq (ext := example_site)). vm_compute. reflexivity.
Defined.

(** X16 on the example site: the link request for the host of this
    site. *)
Lemma link_request_only_for_own_hosts_witness :
  ∃ host_config,
    @site_host_configuration example_site example_credentials "myhost" = Some host_config
    ∧ site host_config = @site_name example_site
    ∧ is_cluster host_config = false.
Proof.
  destruct (link_request_only_for_own_hosts (ext := example_site) example_world
              example_credentials {| hn_uuid := 9; hn_host_name := "myhost" |}
              example_credentials "myhost" 9) as (_ & _ & _ & H).
  - vm_compute. right. left.
  - exact H.
Defined.
